(** * Remote build orchestration through CBI: a shallow embedding

    The development embeds the Go sources of the CBI builder

      - [pkg/skaffold/cbi/cbi.go]      ([RunCBIBuild], [runCBIBuildV1Alpha1],
                                        [waitJobPodReady], [waitJobCompletion],
                                        [cmdFollowJobLog] and [CBIBuilder.Build]),
      - the [v1alpha2] schema          ([CBIBuild.GetBuildJobTemplate] and
                                        [cbiBuildJobTemplateV1Alpha1]),
      - the temporary nginx server     ([NewTempNginx], [TempNginx.Create],
                                        [TempNginx.Delete], [TempNginx.Copy]),
      - [kubernetes.GetClientConfig] and [kubernetes.GetClientset],

    as functions of a state-and-panic monad over a [World].  Everything the
    program asks of its surroundings (the cluster's control plane, the clock,
    the random source, [kubectl], the registry) is answered by an [Oracle]
    and recorded, in order, in the world's [trace].

    The defaults and the profiles of the [v1alpha2] schema ([Parse],
    [setDefaultValues] and the functions it calls, [ApplyProfiles]) are
    functions of a configuration and of the [Heap] its pointers point into,
    in the module [v1alpha2]; the dependency resolver of S2I artifacts
    ([GetDependencies]) is a function of a file system, in the module
    [s2i]. *)

From Stdlib Require Import ZArith List String Ascii Bool Lia.
From Stdlib Require Import Decimal DecimalString DecimalZ DecimalPos.
Import ListNotations.

Set Warnings "-register-all".

Local Open Scope string_scope.
Local Open Scope Z_scope.


(** ** Strings and formatting *)

(** Go's slice expression [s[0:n]] on a string: the first [n] bytes, and a
    run-time panic ("slice bounds out of range") when [n > len(s)]. *)
Fixpoint slice_to (n : nat) (s : string) : option string :=
  match n with
  | O => Some EmptyString
  | S n' =>
      match s with
      | EmptyString => None
      | String c s' =>
          match slice_to n' s' with
          | Some p => Some (String c p)
          | None => None
          end
      end
  end.

(** The verb [%d] of [fmt.Sprintf] applied to an integer: signed decimal. *)
Definition fmt_d (z : Z) : string := NilZero.string_of_int (Z.to_int z).

(** [fmt.Sprintf("skaffold-%d-%s", nanos, suffix)]. *)
Definition sprintf_skaffold (nanos : Z) (suffix : string) : string :=
  "skaffold-" ++ fmt_d nanos ++ "-" ++ suffix.

(** [fmt.Sprintf("tempnginx-%d-%s", nanos, suffix)]. *)
Definition sprintf_tempnginx (nanos : Z) (suffix : string) : string :=
  "tempnginx-" ++ fmt_d nanos ++ "-" ++ suffix.

Definition is_separator (c : ascii) : bool := Ascii.eqb c "/"%char.

Fixpoint drop_separators (l : list ascii) : list ascii :=
  match l with
  | c :: l' => if is_separator c then drop_separators l' else l
  | [] => []
  end.

Fixpoint take_element (l : list ascii) : list ascii :=
  match l with
  | c :: l' => if is_separator c then [] else c :: take_element l'
  | [] => []
  end.

(** [filepath.Base] on a Unix path: ["."] for the empty path, trailing
    separators stripped, then the last element, ["/"] when nothing is left. *)
Definition Base (path : string) : string :=
  if String.eqb path "" then "."
  else
    let stripped := drop_separators (List.rev (list_ascii_of_string path)) in
    let last := List.rev (take_element stripped) in
    match last with
    | [] => "/"
    | _ => string_of_list_ascii last
    end.

(** ** Durations ([time.Duration] counts nanoseconds) *)

Definition Nanosecond : Z := 1.
Definition Millisecond : Z := 1000000 * Nanosecond.
Definition Second : Z := 1000 * Millisecond.
Definition Minute : Z := 60 * Second.

(** ** Kubernetes objects, reduced to the fields the builder reads *)

(** [batchv1.JobStatus]. *)
Record JobStatus := mkJobStatus {
  JobStatus_StartTime : option Z;
  JobStatus_CompletionTime : option Z;
  JobStatus_Active : Z;
  JobStatus_Succeeded : Z;
  JobStatus_Failed : Z
}.

(** [batchv1.Job]. *)
Record Job := mkJob {
  Job_Name : string;
  Job_Status : JobStatus
}.

(** [v1.Pod] and [v1.Service]: the temporary server only ever reads the
    name back from the objects it created. *)
Record Pod := mkPod { Pod_Name : string }.
Record Service := mkService { Service_Name : string }.

(** ** Errors

    A Go [error] is [option error], [None] being [nil].  Messages built by
    [fmt.Errorf], [errors.Errorf] and [errors.Wrap] are kept structured:
    the format string of the source and its arguments. *)
Inductive error : Type :=
| Errorf (format : string) (args : list Arg)
| Wrap (cause : error) (message : string)
| Wrapf (cause : error) (format : string) (args : list Arg)
| ErrWaitTimeout
| External (description : string)
with Arg : Type :=
| ArgString (s : string)
| ArgJobStatus (s : JobStatus)
| ArgError (e : error).

(** ** The job description template ([yaml.MapSlice]) *)

(** The dynamically typed values ([interface{}]) a decoded YAML document
    holds. *)
Inductive value : Type :=
| VNil
| VBool (b : bool)
| VInt (z : Z)
| VString (s : string)
| VSeq (items : list value)
| VMap (items : list (value * value)).

(** [yaml.MapItem] and [yaml.MapSlice]. *)
Record MapItem := mkMapItem { Key : value; Value : value }.
Definition MapSlice := list MapItem.

(** [v1alpha2.CBIBuild]. *)
Record CBIBuild := mkCBIBuild { BuildJobTemplate : MapSlice }.

(** [v1alpha2.Artifact] with its [DockerArtifact]. *)
Record DockerArtifact := mkDockerArtifact { DockerfilePath : string }.

Record Artifact := mkArtifact {
  ImageName : string;
  Workspace : string;
  Artifact_DockerArtifact : option DockerArtifact
}.

(** [build.Build] and [build.BuildResult]. *)
Record Build := mkBuild {
  Build_ImageName : string;
  Build_Tag : string;
  Build_Artifact : Artifact
}.

Record BuildResult := mkBuildResult { Builds : list Build }.

(** [cbiv1alpha1.SchemeGroupVersion.String()]. *)
Definition SchemeGroupVersion : string := "cbi.containerbuilding.github.io/v1alpha1".

(** [cbiv1alpha1.LanguageKindDockerfile] and [cbiv1alpha1.ContextKindHTTP]. *)
Definition LanguageKindDockerfile : string := "Dockerfile".
Definition ContextKindHTTP : string := "HTTP".

(** How a Go function leaves: it returns, or it panics. *)
Inductive Outcome (A : Type) : Type :=
| Ret (a : A)
| Panic (reason : string).

Arguments Ret {A} a.
Arguments Panic {A} reason.

Section Orchestrator.

(** The declarations of [metav1.ObjectMeta], [cbiv1alpha1.Language] and
    [cbiv1alpha1.Context] belong to libraries; the fields of these structs
    that the builder never names are kept as one opaque component each. *)
Context {ObjectMetaRest LanguageRest ContextRest : Type}.

(** ** The job description ([cbiv1alpha1.BuildJob]) *)

Record TypeMeta := mkTypeMeta {
  TypeMeta_Kind : string;
  TypeMeta_APIVersion : string
}.

Record ObjectMeta := mkObjectMeta {
  ObjectMeta_Name : string;
  ObjectMeta_rest : ObjectMetaRest
}.

Record LocalObjectReference := mkLocalObjectReference {
  LocalObjectReference_Name : string
}.

Record Registry := mkRegistry {
  Registry_Target : string;
  Registry_Push : bool;
  Registry_SecretRef : LocalObjectReference
}.

Record Language := mkLanguage {
  Language_Kind : string;
  Language_rest : LanguageRest
}.

(** [cbiv1alpha1.HTTP] has the one field [URL]. *)
Record HTTP := mkHTTP { HTTP_URL : string }.

Record Context_ := mkContext {
  Context_Kind : string;
  Context_HTTP : HTTP;
  Context_rest : ContextRest
}.

Record BuildJobSpec := mkBuildJobSpec {
  Spec_Registry : Registry;
  Spec_Language : Language;
  Spec_Context : Context_;
  Spec_PluginSelector : string
}.

Record BuildJobStatus := mkBuildJobStatus { Status_Job : string }.

Record BuildJob := mkBuildJob {
  BuildJob_TypeMeta : TypeMeta;
  BuildJob_ObjectMeta : ObjectMeta;
  BuildJob_Spec : BuildJobSpec;
  BuildJob_Status : BuildJobStatus
}.

(** Field assignments [bj.F = v], one per field the builder writes. *)
Definition set_APIVersion (v : string) (j : BuildJob) : BuildJob :=
  mkBuildJob (mkTypeMeta (TypeMeta_Kind (BuildJob_TypeMeta j)) v)
             (BuildJob_ObjectMeta j) (BuildJob_Spec j) (BuildJob_Status j).

Definition set_Kind (v : string) (j : BuildJob) : BuildJob :=
  mkBuildJob (mkTypeMeta v (TypeMeta_APIVersion (BuildJob_TypeMeta j)))
             (BuildJob_ObjectMeta j) (BuildJob_Spec j) (BuildJob_Status j).

Definition set_Name (v : string) (j : BuildJob) : BuildJob :=
  mkBuildJob (BuildJob_TypeMeta j)
             (mkObjectMeta v (ObjectMeta_rest (BuildJob_ObjectMeta j)))
             (BuildJob_Spec j) (BuildJob_Status j).

Definition set_Spec (s : BuildJobSpec) (j : BuildJob) : BuildJob :=
  mkBuildJob (BuildJob_TypeMeta j) (BuildJob_ObjectMeta j) s (BuildJob_Status j).

Definition set_Language_Kind (v : string) (j : BuildJob) : BuildJob :=
  let s := BuildJob_Spec j in
  set_Spec (mkBuildJobSpec (Spec_Registry s)
              (mkLanguage v (Language_rest (Spec_Language s)))
              (Spec_Context s) (Spec_PluginSelector s)) j.

Definition set_Registry_Target (v : string) (j : BuildJob) : BuildJob :=
  let s := BuildJob_Spec j in
  let r := Spec_Registry s in
  set_Spec (mkBuildJobSpec (mkRegistry v (Registry_Push r) (Registry_SecretRef r))
              (Spec_Language s) (Spec_Context s) (Spec_PluginSelector s)) j.

Definition set_Registry_Push (v : bool) (j : BuildJob) : BuildJob :=
  let s := BuildJob_Spec j in
  let r := Spec_Registry s in
  set_Spec (mkBuildJobSpec (mkRegistry (Registry_Target r) v (Registry_SecretRef r))
              (Spec_Language s) (Spec_Context s) (Spec_PluginSelector s)) j.

Definition set_Context_Kind (v : string) (j : BuildJob) : BuildJob :=
  let s := BuildJob_Spec j in
  let c := Spec_Context s in
  set_Spec (mkBuildJobSpec (Spec_Registry s) (Spec_Language s)
              (mkContext v (Context_HTTP c) (Context_rest c))
              (Spec_PluginSelector s)) j.

Definition set_Context_HTTP (v : HTTP) (j : BuildJob) : BuildJob :=
  let s := BuildJob_Spec j in
  let c := Spec_Context s in
  set_Spec (mkBuildJobSpec (Spec_Registry s) (Spec_Language s)
              (mkContext (Context_Kind c) v (Context_rest c))
              (Spec_PluginSelector s)) j.

Definition set_Context_HTTP_URL (v : string) (j : BuildJob) : BuildJob :=
  set_Context_HTTP (mkHTTP v) j.

(** [cbiBuildJobTemplateV1Alpha1], the one implementation of the interface
    [CBIBuildJobTemplate]. *)
Record cbiBuildJobTemplateV1Alpha1 := mkTemplate { bj : BuildJob }.

(** [TempNginx]; the two clients are the oracle's. *)
Record TempNginx := mkTempNginx {
  ns : string;
  pod : Pod;
  service : Service
}.

(** ** The world *)

(** One event per operation the program performs on its surroundings, with
    the arguments it passed and the answer it received. *)
Inductive Event : Type :=
| EvUnixNano (t : Z)
| EvRandomID (id : string)
| EvClientConfig (err : option error)
| EvNewForConfig (err : option error)
| EvCBINewForConfig (err : option error)
| EvTempFile (dir prefix : string) (r : string * option error)
| EvRemove (name : string)
| EvPodCreate (p : Pod) (r : Pod * option error)
| EvServiceCreate (s : Service) (r : Service * option error)
| EvWaitForPodReady (name : string) (err : option error)
| EvServiceDelete (name : string) (err : option error)
| EvPodDelete (name : string) (err : option error)
| EvCreateDockerTarGzContext (dockerfilePath workspace : string) (r : string * option error)
| EvCreateTarGz (workspace : string) (r : string * option error)
| EvRun (argv : list string) (r : string * option error)
| EvStart (argv : list string) (err : option error)
| EvKill
| EvSleep (d : Z)
| EvBuildJobCreate (j : BuildJob) (r : BuildJob * option error)
| EvBuildJobGet (name : string) (r : BuildJob * option error)
| EvBuildJobDelete (name : string)
| EvJobGet (name : string) (r : Job * option error)
| EvRemoteDigest (ref : string) (r : string * option error)
| EvGenerateFullyQualifiedImageName (workspace imageName digest : string) (r : string * option error)
| EvAddTag (src target : string) (err : option error).

(** The heap cells the program mutates, and the trace of its operations:
    [template] is the template object every call of [RunCBIBuild] shares,
    [nginx] the [*TempNginx] of the running [RunCBIBuild], [job] the
    variable [bj] of [runCBIBuildV1Alpha1] that its readiness closure
    captures. *)
Record World := mkWorld {
  trace : list Event;
  template : cbiBuildJobTemplateV1Alpha1;
  nginx : TempNginx;
  job : BuildJob
}.

(** What the surroundings answer.  An answer is a function of the moment it
    is asked at, the number of operations performed so far; the two YAML
    functions are pure.  [o_createTarGz] answers with the hex-encoded
    SHA-256 digest of the bytes the packager wrote and its error;
    [o_firstError] says which goroutine of the errgroup reported first;
    [o_ticks] is the number of ticks a poller delivers to its consumer
    before its timer fires. *)
Record Oracle := mkOracle {
  yaml_Marshal : MapSlice -> string * option error;
  yaml_UnmarshalStrict : string -> BuildJob * option error;
  o_unixNano : nat -> Z;
  o_randomID : nat -> string;
  o_clientConfig : nat -> option error;
  o_newForConfig : nat -> option error;
  o_cbiNewForConfig : nat -> option error;
  o_tempFile : nat -> string * option error;
  o_podCreate : nat -> Pod * option error;
  o_serviceCreate : nat -> Service * option error;
  o_waitForPodReady : nat -> option error;
  o_createTarGz : nat -> string * option error;
  o_firstError : nat -> bool;
  o_run : nat -> string * option error;
  o_start : nat -> option error;
  o_buildJobCreate : nat -> BuildJob * option error;
  o_buildJobGet : nat -> BuildJob * option error;
  o_jobGet : nat -> Job * option error;
  o_ticks : nat -> nat;
  o_remoteDigest : nat -> string * option error;
  o_generateTag : nat -> string * option error;
  o_addTag : nat -> option error;
  o_serviceDelete : nat -> option error;
  o_podDelete : nat -> option error
}.

(** ** The monad: state, and Go's run-time panics *)

Definition M (A : Type) : Type := World -> Outcome A * World.

Definition ret {A} (a : A) : M A := fun w => (Ret a, w).

Definition bind {A B} (m : M A) (f : A -> M B) : M B :=
  fun w =>
    match m w with
    | (Ret a, w') => f a w'
    | (Panic r, w') => (Panic r, w')
    end.

Definition panic {A} (reason : string) : M A := fun w => (Panic reason, w).

(** [defer cleanup] followed by [body]: the deferred call runs when the
    function leaves, by a return or by a panic, and its results are dropped. *)
Definition defer {A B} (cleanup : M B) (body : M A) : M A :=
  fun w =>
    let (r, w1) := body w in
    match cleanup w1 with
    | (Ret _, w2) => (r, w2)
    | (Panic reason, w2) => (Panic reason, w2)
    end.

Definition emit (e : Event) (w : World) : World :=
  mkWorld (trace w ++ [e]) (template w) (nginx w) (job w).

(** An operation on the surroundings: answered at the present moment and
    appended to the trace. *)
Definition ask {R} (answer : nat -> R) (ev : R -> Event) : M R :=
  fun w => let r := answer (List.length (trace w)) in (Ret r, emit (ev r) w).

(** An operation whose result the program drops. *)
Definition tell (e : Event) : M unit := fun w => (Ret tt, emit e w).

Definition getTemplate : M cbiBuildJobTemplateV1Alpha1 := fun w => (Ret (template w), w).
Definition setTemplate (t : cbiBuildJobTemplateV1Alpha1) : M unit :=
  fun w => (Ret tt, mkWorld (trace w) t (nginx w) (job w)).
Definition getNginx : M TempNginx := fun w => (Ret (nginx w), w).
Definition setNginx (x : TempNginx) : M unit :=
  fun w => (Ret tt, mkWorld (trace w) (template w) x (job w)).
Definition getJob : M BuildJob := fun w => (Ret (job w), w).
Definition setJob (j : BuildJob) : M unit :=
  fun w => (Ret tt, mkWorld (trace w) (template w) (nginx w) j).

(** [s[0:n]] in the monad. *)
Definition slice (s : string) (n : nat) : M string :=
  match slice_to n s with
  | Some p => ret p
  | None => panic "slice bounds out of range"
  end.

(** ** [k8s.io/apimachinery/pkg/util/wait] *)

Definition ConditionFunc : Type := M (bool * option error).

(** Modelled from the spec: [wait.WaitFor] belongs to k8s.io/apimachinery
    and is not among the sources.  The condition is evaluated once for every
    tick received on the poller's channel and once more when the channel is
    found closed; an error of the condition ends the wait at once (it is
    looked at before [ok]), [ok] ends it with [nil], and the closed channel
    with [ErrWaitTimeout].  [ticks] is the number of ticks received before
    the channel closes. *)
Fixpoint WaitFor (ticks : nat) (fn : ConditionFunc) : M (option error) :=
  bind fn (fun r =>
    match snd r with
    | Some e => ret (Some e)
    | None =>
        if fst r then ret None
        else
          match ticks with
          | O => ret (Some ErrWaitTimeout)
          | S n => WaitFor n fn
          end
    end).

(** Modelled from the spec: [wait.poller] belongs to k8s.io/apimachinery
    and is not among the sources.  It ticks every [interval] and closes its
    channel when [timeout] has passed; ticks the consumer is not ready for
    are dropped, so at most [timeout / interval] of them reach the consumer;
    how many do is for the surroundings to say. *)
Definition poller (interval timeout : Z) (delivered : nat) : nat :=
  Nat.min delivered (Z.to_nat (timeout / interval)).

Section Program.

Variable env : Oracle.

Notation "x <- m ;; k" := (bind m (fun x => k))
  (at level 61, m at next level, right associativity).
Notation "' p <- m ;; k" := (bind m (fun x => match x with p => k end))
  (at level 61, p pattern, m at next level, right associativity).
Notation "m ;; k" := (bind m (fun _ => k))
  (at level 61, right associativity).

(** Modelled from the spec: [wait.PollImmediate] belongs to
    k8s.io/apimachinery and is not among the sources.  The condition is
    tried at once, and then on the channel of [poller interval timeout]. *)
Definition PollImmediate (interval timeout : Z) (condition : ConditionFunc)
  : M (option error) :=
  fun w =>
    let ticks := poller interval timeout (o_ticks env (List.length (trace w))) in
    (r <- condition ;;
     match snd r with
     | Some e => ret (Some e)
     | None => if fst r then ret None else WaitFor ticks condition
     end) w.

(** [time.Now().UnixNano()] and [util.RandomID()]. *)
Definition UnixNano : M Z := ask (o_unixNano env) EvUnixNano.
Definition RandomID : M string := ask (o_randomID env) EvRandomID.

(** ** The schema: [GetBuildJobTemplate] and the template's methods *)

(** The loop of [GetBuildJobTemplate] over the items of the template:
    [None] when control reaches the label [v1alpha1], by the [goto] or by
    leaving the loop, and the error returned from inside the loop otherwise. *)
Fixpoint scanAPIVersion (items : MapSlice) : option error :=
  match items with
  | [] => None
  | item :: rest =>
      match Key item with
      | VString k =>
          if negb (String.eqb k "apiVersion") then scanAPIVersion rest
          else
            match Value item with
            | VString v =>
                if String.eqb v SchemeGroupVersion then None
                else Some (Errorf "expected %q, got %q"
                             [ArgString SchemeGroupVersion; ArgString v])
            | _ => Some (Errorf "got non-string apiVersion: %v" [ArgString ""])
            end
      | _ => scanAPIVersion rest
      end
  end.

Definition GetBuildJobTemplate (p : CBIBuild) : cbiBuildJobTemplateV1Alpha1 + error :=
  let (b, err) := yaml_Marshal env (BuildJobTemplate p) in
  match err with
  | Some e => inr e
  | None =>
      match scanAPIVersion (BuildJobTemplate p) with
      | Some e => inr e
      | None =>
          let (j, err) := yaml_UnmarshalStrict env b in
          match err with
          | Some e => inr e
          | None => inl (mkTemplate j)
          end
      end
  end.

Definition APIVersion (t : cbiBuildJobTemplateV1Alpha1) : string := SchemeGroupVersion.

(** [t.bj.F = v] on the shared template object. *)
Definition assign (f : BuildJob -> BuildJob) : M unit :=
  t <- getTemplate ;; setTemplate (mkTemplate (f (bj t))).

Definition Fulfill (imageName httpContextURL : string) : M (option error) :=
  t <- getTemplate ;;
  (if String.eqb (TypeMeta_APIVersion (BuildJob_TypeMeta (bj t))) ""
   then assign (set_APIVersion SchemeGroupVersion) else ret tt) ;;
  t <- getTemplate ;;
  (if String.eqb (TypeMeta_Kind (BuildJob_TypeMeta (bj t))) ""
   then assign (set_Kind "BuildJob") else ret tt) ;;
  t <- getTemplate ;;
  (if String.eqb (ObjectMeta_Name (BuildJob_ObjectMeta (bj t))) ""
   then
     nanos <- UnixNano ;;
     id <- RandomID ;;
     suffix <- slice id 1 ;;
     assign (set_Name (sprintf_skaffold nanos suffix))
   else ret tt) ;;
  t <- getTemplate ;;
  (if String.eqb (Language_Kind (Spec_Language (BuildJob_Spec (bj t)))) ""
   then assign (set_Language_Kind LanguageKindDockerfile) else ret tt) ;;
  assign (set_Registry_Target imageName) ;;
  assign (set_Registry_Push true) ;;
  assign (set_Context_Kind ContextKindHTTP) ;;
  assign (set_Context_HTTP (mkHTTP "")) ;;
  assign (set_Context_HTTP_URL httpContextURL) ;;
  ret None.

(** ** [kubernetes.GetClientConfig] *)

Definition GetClientConfig : M (option error) :=
  err <- ask (o_clientConfig env) EvClientConfig ;;
  match err with
  | Some e => ret (Some (Errorf "Error creating kubeConfig: %s" [ArgError e]))
  | None => ret None
  end.

(** ** The temporary nginx server *)

(** [NewTempNginx] leaves the field [ns] of the handle at its zero value. *)
Definition NewTempNginx (namespace : string) : M unit :=
  nanos <- UnixNano ;;
  id <- RandomID ;;
  suffix <- slice id 2 ;;
  let name := sprintf_tempnginx nanos suffix in
  setNginx (mkTempNginx "" (mkPod name) (mkService name)).

Definition Create : M (option error) :=
  x <- getNginx ;;
  ' (p, err) <- ask (o_podCreate env) (EvPodCreate (pod x)) ;;
  setNginx (mkTempNginx (ns x) p (service x)) ;;
  match err with
  | Some e => ret (Some e)
  | None =>
      x <- getNginx ;;
      ' (s, err) <- ask (o_serviceCreate env) (EvServiceCreate (service x)) ;;
      setNginx (mkTempNginx (ns x) (pod x) s) ;;
      match err with
      | Some e => ret (Some e)
      | None =>
          x <- getNginx ;;
          err <- ask (o_waitForPodReady env) (EvWaitForPodReady (Pod_Name (pod x))) ;;
          match err with
          | Some e => ret (Some e)
          | None => ret None
          end
      end
  end.

Definition Delete : M (option error) :=
  x <- getNginx ;;
  err <- ask (o_serviceDelete env) (EvServiceDelete (Service_Name (service x))) ;;
  match err with
  | Some e => ret (Some e)
  | None =>
      x <- getNginx ;;
      err <- ask (o_podDelete env) (EvPodDelete (Pod_Name (pod x))) ;;
      match err with
      | Some e => ret (Some e)
      | None => ret None
      end
  end.

(** The loop of [Copy] over its two [kubectl] commands. *)
Fixpoint runCommands (cmds : list (list string)) : M (option error) :=
  match cmds with
  | [] => ret None
  | argv :: rest =>
      ' (b, err) <- ask (o_run env) (EvRun argv) ;;
      match err with
      | Some e => ret (Some (Wrapf e "output=%q" [ArgString b]))
      | None => runCommands rest
      end
  end.

Definition Copy (dstRemote srcLocal : string) : M (option error) :=
  x <- getNginx ;;
  let cmds :=
    [ ["kubectl"; "cp"; srcLocal;
       ns x ++ "/" ++ Pod_Name (pod x) ++ ":" ++ dstRemote];
      ["kubectl"; "--namespace"; ns x;
       "exec"; Pod_Name (pod x); "chmod"; "0644"; dstRemote] ] in
  runCommands cmds.

(** ** [cbi.go]: one build *)

Definition waitJobPodReady (jobName : string) : M (option error) :=
  tell (EvSleep (10 * Second)) ;;
  ret None.

Definition waitJobCompletion (jobName : string) : M (option error) :=
  PollImmediate (Millisecond * 500) (Minute * 60)
    (' (j, err) <- ask (o_jobGet env) (EvJobGet jobName) ;;
     match err with
     | Some _ => ret (false, Some (Errorf "not found: %s" [ArgString jobName]))
     | None =>
         match JobStatus_CompletionTime (Job_Status j) with
         | Some _ =>
             if Z.eqb (JobStatus_Failed (Job_Status j)) 0
             then ret (true, None)
             else ret (true, Some (Errorf "job failed: %+v" [ArgJobStatus (Job_Status j)]))
         | None => ret (false, None)
         end
     end).

Definition cmdFollowJobLog (kubeNS jobName : string) : list string :=
  ["kubectl"; "--namespace"; kubeNS; "logs"; "--follow"; "job/" ++ jobName].

(** The condition of the readiness poll of [runCBIBuildV1Alpha1]; it
    assigns the fetched object, and the error, to the captured [bj]. *)
Definition readyCondition : ConditionFunc :=
  j <- getJob ;;
  ' (fetched, err) <- ask (o_buildJobGet env)
                         (EvBuildJobGet (ObjectMeta_Name (BuildJob_ObjectMeta j))) ;;
  setJob fetched ;;
  match err with
  | Some _ =>
      ret (false, Some (Errorf "not found: %s"
                          [ArgString (ObjectMeta_Name (BuildJob_ObjectMeta fetched))]))
  | None =>
      if String.eqb (Status_Job (BuildJob_Status fetched)) ""
      then ret (false, None)
      else ret (true, None)
  end.

Definition runCBIBuildV1Alpha1 (kubeNS : string) (buildJob : BuildJob) : M (option error) :=
  ' (created, err) <- ask (o_buildJobCreate env) (EvBuildJobCreate buildJob) ;;
  setJob created ;;
  match err with
  | Some e => ret (Some e)
  | None =>
      defer (tell (EvBuildJobDelete (ObjectMeta_Name (BuildJob_ObjectMeta created))))
        (wErr <- PollImmediate (Millisecond * 500) (Minute * 3) readyCondition ;;
         match wErr with
         | Some e => ret (Some e)
         | None =>
             j <- getJob ;;
             err <- waitJobPodReady (Status_Job (BuildJob_Status j)) ;;
             match err with
             | Some e => ret (Some e)
             | None =>
                 j <- getJob ;;
                 err <- ask (o_start env)
                          (EvStart (cmdFollowJobLog kubeNS (Status_Job (BuildJob_Status j)))) ;;
                 match err with
                 | Some e => ret (Some e)
                 | None =>
                     defer (tell EvKill)
                       (j <- getJob ;;
                        err <- waitJobCompletion (Status_Job (BuildJob_Status j)) ;;
                        match err with
                        | Some e => ret (Some e)
                        | None => ret None
                        end)
                 end
             end
         end)
  end.

(** The second goroutine of the errgroup: packaging the build context.  The
    answer carries the digest of what was written. *)
Definition createContext (artifact : Artifact) : M (string * option error) :=
  match Artifact_DockerArtifact artifact with
  | Some d =>
      ' (dgst, err) <- ask (o_createTarGz env)
                         (EvCreateDockerTarGzContext (DockerfilePath d) (Workspace artifact)) ;;
      match err with
      | Some e => ret (dgst, Some (Wrap e "creating tar gz"))
      | None => ret (dgst, None)
      end
  | None =>
      ' (dgst, err) <- ask (o_createTarGz env) (EvCreateTarGz (Workspace artifact)) ;;
      match err with
      | Some e => ret (dgst, Some (Wrap e "creating tar gz"))
      | None => ret (dgst, None)
      end
  end.

(** [errgroup.Group.Wait]: the first error reported by either goroutine. *)
Definition Wait (first second : option error) : M (option error) :=
  fun w =>
    match first, second with
    | Some e1, Some e2 =>
        (Ret (Some (if o_firstError env (List.length (trace w)) then e1 else e2)), w)
    | Some e1, None => (Ret (Some e1), w)
    | None, Some e2 => (Ret (Some e2), w)
    | None, None => (Ret None, w)
    end.

(** [RunCBIBuild].  The two goroutines of the errgroup both run to their
    end ([Create] does not look at its context); their operations are
    recorded one goroutine after the other.  The type assertion on
    [template.BuildJob()] cannot fail for the one implementation of the
    template. *)
Definition RunCBIBuild (artifact : Artifact) : M (string * option error) :=
  t <- getTemplate ;;
  let v := APIVersion t in
  if negb (String.eqb v SchemeGroupVersion)
  then ret ("", Some (Errorf "unsupported CBI API version: %q" [ArgString v]))
  else
    let kubeNS := "default" in
    err <- ask (o_newForConfig env) EvNewForConfig ;;
    match err with
    | Some e => ret ("", Some e)
    | None =>
        NewTempNginx kubeNS ;;
        defer Delete
          (' (ctxTar, err) <- ask (o_tempFile env) (EvTempFile "" "skaffold-cbi-temp") ;;
           match err with
           | Some e => ret ("", Some e)
           | None =>
               defer (tell (EvRemove ctxTar))
                 (createErr <- Create ;;
                  ' (ctxTarDigest, tarErr) <- createContext artifact ;;
                  err <- Wait createErr tarErr ;;
                  match err with
                  | Some e => ret ("", Some e)
                  | None =>
                      let ctxTarDest :=
                        "/usr/share/nginx/html/" ++ "sha256" ++ "-" ++ ctxTarDigest ++ ".tar.gz" in
                      x <- getNginx ;;
                      let ctxTarURL :=
                        "http://" ++ Service_Name (service x) ++ "/" ++ Base ctxTarDest in
                      err <- Copy ctxTarDest ctxTar ;;
                      match err with
                      | Some e => ret ("", Some e)
                      | None =>
                          initialTag <- RandomID ;;
                          let imageDst := ImageName artifact ++ ":" ++ initialTag in
                          err <- Fulfill imageDst ctxTarURL ;;
                          match err with
                          | Some e => ret ("", Some e)
                          | None =>
                              t <- getTemplate ;;
                              let buildJob := bj t in
                              err <- ask (o_cbiNewForConfig env) EvCBINewForConfig ;;
                              match err with
                              | Some e => ret ("", Some e)
                              | None =>
                                  err <- runCBIBuildV1Alpha1 kubeNS buildJob ;;
                                  match err with
                                  | Some e => ret ("", Some e)
                                  | None => ret (imageDst, None)
                                  end
                              end
                          end
                      end
                  end)
           end)
    end.

(** ** [CBIBuilder.Build] *)

(** The loop of [Build] over the artifacts; [res] is the result built so far. *)
Fixpoint buildArtifacts (artifacts : list Artifact) (res : BuildResult)
  : M (option BuildResult * option error) :=
  match artifacts with
  | [] => ret (Some res, None)
  | artifact :: rest =>
      ' (initialTag, err) <- RunCBIBuild artifact ;;
      match err with
      | Some e =>
          ret (None, Some (Wrapf e "running cbi build for %s" [ArgString (ImageName artifact)]))
      | None =>
          ' (dgst, err) <- ask (o_remoteDigest env) (EvRemoteDigest initialTag) ;;
          match err with
          | Some e => ret (None, Some (Wrap e "getting digest"))
          | None =>
              ' (tag, err) <- ask (o_generateTag env)
                                (EvGenerateFullyQualifiedImageName
                                   (Workspace artifact) (ImageName artifact) dgst) ;;
              match err with
              | Some e => ret (None, Some (Wrap e "generating tag"))
              | None =>
                  err <- ask (o_addTag env) (EvAddTag initialTag tag) ;;
                  match err with
                  | Some e => ret (None, Some (Wrap e "tagging image"))
                  | None =>
                      buildArtifacts rest
                        (mkBuildResult (Builds res ++ [mkBuild (ImageName artifact) tag artifact]))
                  end
              end
          end
      end
  end.

Definition CBIBuilder_Build (b : CBIBuild) (artifacts : list Artifact)
  : M (option BuildResult * option error) :=
  match GetBuildJobTemplate b with
  | inr e => ret (None, Some e)
  | inl cbiT =>
      setTemplate cbiT ;;
      err <- GetClientConfig ;;
      match err with
      | Some e => ret (None, Some e)
      | None => buildArtifacts artifacts (mkBuildResult [])
      end
  end.

(** ** [kubernetes.GetClientset] *)

Definition GetClientset : M (option error) :=
  err <- GetClientConfig ;;
  match err with
  | Some e => ret (Some e)
  | None =>
      err <- ask (o_newForConfig env) EvNewForConfig ;;
      match err with
      | Some e =>
          ret (Some (Wrap e "Error creating new client from kubeConfig.ClientConfig()"))
      | None => ret None
      end
  end.

End Program.

End Orchestrator.


(** * The schema [v1alpha2]: defaults and profiles *)

(** [SkaffoldConfig] in full, with the defaults [Parse] and [ApplyProfiles]
    apply to it.  The defaults write through three kinds of pointers,
    [*Artifact], [*DockerArtifact] and [*KanikoBuild]: the structs these
    point at live in a [Heap], a pointer is [nil] or an address of the heap,
    and two pointers with one address share their struct, wherever they are
    held, in the build of the configuration or in one of its profiles.  The
    other pointers of the schema are compared with [nil] and read, never
    written through, and are an [option] of their struct.  What belongs to
    other packages is a field of [Library]. *)
Module v1alpha2.

Definition Version : string := "skaffold/v1alpha2".

(** [nil], or the address of a struct in the heap. *)
Definition pointer : Type := option nat.

Record ShaTagger := mkShaTagger {}.
Record GitTagger := mkGitTagger {}.
Record EnvTemplateTagger := mkEnvTemplateTagger { Template : string }.

Record TagPolicy := mkTagPolicy {
  TagPolicy_GitTagger : option GitTagger;
  TagPolicy_ShaTagger : option ShaTagger;
  TagPolicy_EnvTemplateTagger : option EnvTemplateTagger
}.

Record LocalBuild := mkLocalBuild { SkipPush : option bool }.
Record GoogleCloudBuild := mkGoogleCloudBuild { ProjectID : string }.
Record KanikoBuild := mkKanikoBuild { GCSBucket : string; PullSecret : string }.

(** [KanikoBuild] is a [*KanikoBuild]. *)
Record BuildType := mkBuildType {
  BuildType_LocalBuild : option LocalBuild;
  BuildType_GoogleCloudBuild : option GoogleCloudBuild;
  BuildType_KanikoBuild : pointer;
  BuildType_CBIBuild : option CBIBuild
}.

Record DockerArtifact := mkDockerArtifact {
  DockerfilePath : string;
  BuildArgs : list (string * option string)
}.

Record BazelArtifact := mkBazelArtifact { BuildTarget : string }.

(** [DockerArtifact] is a [*DockerArtifact]; the field [S2IArtifact] has the
    type [*BazelArtifact] in the source. *)
Record ArtifactType := mkArtifactType {
  ArtifactType_DockerArtifact : pointer;
  ArtifactType_BazelArtifact : option BazelArtifact;
  ArtifactType_S2IArtifact : option BazelArtifact
}.

Record Artifact := mkArtifact {
  ImageName : string;
  Workspace : string;
  Artifact_ArtifactType : ArtifactType
}.

(** [Artifacts] is a [[]*Artifact]. *)
Record BuildConfig := mkBuildConfig {
  Artifacts : list pointer;
  BuildConfig_TagPolicy : TagPolicy;
  BuildConfig_BuildType : BuildType
}.

Record KubectlDeploy := mkKubectlDeploy {
  Manifests : list string;
  RemoteManifests : list string
}.

Record HelmRelease := mkHelmRelease {
  HelmRelease_Name : string;
  ChartPath : string;
  ValuesFilePath : string;
  Values : list (string * string);
  Namespace : string;
  HelmRelease_Version : string;
  SetValues : list (string * string)
}.

Record HelmDeploy := mkHelmDeploy { Releases : list HelmRelease }.

Record DeployType := mkDeployType {
  DeployType_HelmDeploy : option HelmDeploy;
  DeployType_KubectlDeploy : option KubectlDeploy
}.

Record DeployConfig := mkDeployConfig { DeployConfig_DeployType : DeployType }.

Record Profile := mkProfile {
  Profile_Name : string;
  Profile_Build : BuildConfig;
  Profile_Deploy : DeployConfig
}.

Record SkaffoldConfig := mkSkaffoldConfig {
  APIVersion : string;
  Kind : string;
  Build : BuildConfig;
  Deploy : DeployConfig;
  Profiles : list Profile
}.

(** ** The heap *)

(** The cells of the three kinds of structs, by address.  The memory is
    total: a list presents the memory that holds the zero value of the
    struct from the end of the list on, and [&T{}] takes the first address
    past the end.  (No pointer of a Go program points at memory that was
    not allocated.) *)
Record Heap := mkHeap {
  artifacts : list Artifact;
  dockerArtifacts : list DockerArtifact;
  kanikoBuilds : list KanikoBuild
}.

Definition load {X : Type} (zero : X) (a : nat) (cells : list X) : X := nth a cells zero.

Fixpoint store {X : Type} (zero : X) (a : nat) (v : X) (cells : list X) : list X :=
  match a, cells with
  | O, [] => [v]
  | O, _ :: rest => v :: rest
  | S a', [] => zero :: store zero a' v []
  | S a', x :: rest => x :: store zero a' v rest
  end.

(** [ArtifactType{}], [Artifact{}], [DockerArtifact{}] and [KanikoBuild{}]. *)
Definition zeroArtifactType : ArtifactType := mkArtifactType None None None.
Definition zeroArtifact : Artifact := mkArtifact "" "" zeroArtifactType.
Definition zeroDockerArtifact : DockerArtifact := mkDockerArtifact "" [].
Definition zeroKanikoBuild : KanikoBuild := mkKanikoBuild "" "".

(** [*p] for the three kinds of pointers. *)
Definition artifactAt (h : Heap) (a : nat) : Artifact := load zeroArtifact a (artifacts h).
Definition dockerArtifactAt (h : Heap) (d : nat) : DockerArtifact :=
  load zeroDockerArtifact d (dockerArtifacts h).
Definition kanikoBuildAt (h : Heap) (k : nat) : KanikoBuild :=
  load zeroKanikoBuild k (kanikoBuilds h).

(** [*p = v] for the three kinds of pointers. *)
Definition set_artifactAt (a : nat) (v : Artifact) (h : Heap) : Heap :=
  mkHeap (store zeroArtifact a v (artifacts h)) (dockerArtifacts h) (kanikoBuilds h).
Definition set_dockerArtifactAt (d : nat) (v : DockerArtifact) (h : Heap) : Heap :=
  mkHeap (artifacts h) (store zeroDockerArtifact d v (dockerArtifacts h)) (kanikoBuilds h).
Definition set_kanikoBuildAt (k : nat) (v : KanikoBuild) (h : Heap) : Heap :=
  mkHeap (artifacts h) (dockerArtifacts h) (store zeroKanikoBuild k v (kanikoBuilds h)).

(** [&DockerArtifact{}]: the address of a new cell, and the heap with it. *)
Definition new_DockerArtifact (h : Heap) : nat * Heap :=
  (List.length (dockerArtifacts h),
   mkHeap (artifacts h) (dockerArtifacts h ++ [zeroDockerArtifact])%list (kanikoBuilds h)).

(** What the schema takes from other packages:
    [constants.DefaultDockerfilePath], [homedir.Expand], and the three uses
    of [gopkg.in/yaml.v2]; the two decoders write into the configuration
    they are given, allocate what they decode, and return the configuration
    and the heap with their error. *)
Record Library := mkLibrary {
  DefaultDockerfilePath : string;
  homedir_Expand : string -> string * option error;
  yaml_UnmarshalStrict :
    string -> SkaffoldConfig -> Heap -> SkaffoldConfig * Heap * option error;
  yaml_Marshal : Profile -> Heap -> string * option error;
  yaml_Unmarshal : string -> SkaffoldConfig -> Heap -> SkaffoldConfig * Heap * option error
}.

Definition GetVersion (c : SkaffoldConfig) : string := APIVersion c.

(** [x != (T{})] on the three structs of pointers. *)
Definition BuildType_isZero (t : BuildType) : bool :=
  match BuildType_LocalBuild t, BuildType_GoogleCloudBuild t,
        BuildType_KanikoBuild t, BuildType_CBIBuild t with
  | None, None, None, None => true
  | _, _, _, _ => false
  end.

Definition ArtifactType_isZero (t : ArtifactType) : bool :=
  match ArtifactType_DockerArtifact t, ArtifactType_BazelArtifact t,
        ArtifactType_S2IArtifact t with
  | None, None, None => true
  | _, _, _ => false
  end.

Definition TagPolicy_isZero (t : TagPolicy) : bool :=
  match TagPolicy_GitTagger t, TagPolicy_ShaTagger t, TagPolicy_EnvTemplateTagger t with
  | None, None, None => true
  | _, _, _ => false
  end.

(** Assignments to the fields of the configuration the defaults write. *)
Definition set_Build (b : BuildConfig) (c : SkaffoldConfig) : SkaffoldConfig :=
  mkSkaffoldConfig (APIVersion c) (Kind c) b (Deploy c) (Profiles c).

Definition set_Profiles (ps : list Profile) (c : SkaffoldConfig) : SkaffoldConfig :=
  mkSkaffoldConfig (APIVersion c) (Kind c) (Build c) (Deploy c) ps.

Definition set_TagPolicy (t : TagPolicy) (b : BuildConfig) : BuildConfig :=
  mkBuildConfig (Artifacts b) t (BuildConfig_BuildType b).

Definition set_BuildType (t : BuildType) (b : BuildConfig) : BuildConfig :=
  mkBuildConfig (Artifacts b) (BuildConfig_TagPolicy b) t.

(** [for _, artifact := range c.Build.Artifacts { ... }]: the body runs on
    one pointer after the other and writes through it; a [nil] pointer
    panics when the body reads its first field. *)
Fixpoint forEachArtifact (body : nat -> Heap -> Heap) (artifacts : list pointer) (h : Heap)
  : Outcome Heap :=
  match artifacts with
  | [] => Ret h
  | None :: _ => Panic "invalid memory address or nil pointer dereference"
  | Some a :: rest => forEachArtifact body rest (body a h)
  end.

Definition defaultToLocalBuild (c : SkaffoldConfig) : SkaffoldConfig :=
  if negb (BuildType_isZero (BuildConfig_BuildType (Build c))) then c
  else
    set_Build
      (set_BuildType
         (mkBuildType (Some (mkLocalBuild None))
            (BuildType_GoogleCloudBuild (BuildConfig_BuildType (Build c)))
            (BuildType_KanikoBuild (BuildConfig_BuildType (Build c)))
            (BuildType_CBIBuild (BuildConfig_BuildType (Build c))))
         (Build c)) c.

(** The body of the loop of [defaultToDockerArtifacts], on the artifact at
    the address [artifact]. *)
Definition defaultToDockerArtifact (artifact : nat) (h : Heap) : Heap :=
  if negb (ArtifactType_isZero (Artifact_ArtifactType (artifactAt h artifact))) then h
  else
    let (d, h) := new_DockerArtifact h in
    set_artifactAt artifact
      (mkArtifact (ImageName (artifactAt h artifact)) (Workspace (artifactAt h artifact))
         (mkArtifactType (Some d) None None))
      h.

Definition defaultToDockerArtifacts (c : SkaffoldConfig) (h : Heap) : Outcome Heap :=
  forEachArtifact defaultToDockerArtifact (Artifacts (Build c)) h.

Definition setDefaultTagger (c : SkaffoldConfig) : SkaffoldConfig :=
  if negb (TagPolicy_isZero (BuildConfig_TagPolicy (Build c))) then c
  else set_Build (set_TagPolicy (mkTagPolicy (Some mkGitTagger) None None) (Build c)) c.

Section Defaults.

Variable lib : Library.

(** The body of the loop of [setDefaultDockerfiles]. *)
Definition setDefaultDockerfile (artifact : nat) (h : Heap) : Heap :=
  match ArtifactType_DockerArtifact (Artifact_ArtifactType (artifactAt h artifact)) with
  | Some d =>
      if String.eqb (DockerfilePath (dockerArtifactAt h d)) ""
      then set_dockerArtifactAt d
             (mkDockerArtifact (DefaultDockerfilePath lib) (BuildArgs (dockerArtifactAt h d))) h
      else h
  | None => h
  end.

Definition setDefaultDockerfiles (c : SkaffoldConfig) (h : Heap) : Outcome Heap :=
  forEachArtifact setDefaultDockerfile (Artifacts (Build c)) h.

(** The body of the loop of [setDefaultWorkspaces]. *)
Definition setDefaultWorkspace (artifact : nat) (h : Heap) : Heap :=
  if String.eqb (Workspace (artifactAt h artifact)) ""
  then set_artifactAt artifact
         (mkArtifact (ImageName (artifactAt h artifact)) "."
            (Artifact_ArtifactType (artifactAt h artifact))) h
  else h.

Definition setDefaultWorkspaces (c : SkaffoldConfig) (h : Heap) : Outcome Heap :=
  forEachArtifact setDefaultWorkspace (Artifacts (Build c)) h.

Definition expandKanikoSecretPath (c : SkaffoldConfig) (h : Heap) : Heap * option error :=
  match BuildType_KanikoBuild (BuildConfig_BuildType (Build c)) with
  | None => (h, None)
  | Some k =>
      if String.eqb (PullSecret (kanikoBuildAt h k)) "" then (h, None)
      else
        let (absPath, err) := homedir_Expand lib (PullSecret (kanikoBuildAt h k)) in
        match err with
        | Some _ =>
            (h, Some (Errorf "unable to expand pullSecret %s"
                        [ArgString (PullSecret (kanikoBuildAt h k))]))
        | None =>
            (set_kanikoBuildAt k (mkKanikoBuild (GCSBucket (kanikoBuildAt h k)) absPath) h,
             None)
        end
  end.

Definition setDefaultValues (c : SkaffoldConfig) (h : Heap)
  : Outcome (SkaffoldConfig * Heap * option error) :=
  let c := defaultToLocalBuild c in
  match defaultToDockerArtifacts c h with
  | Panic reason => Panic reason
  | Ret h =>
      let c := setDefaultTagger c in
      match setDefaultDockerfiles c h with
      | Panic reason => Panic reason
      | Ret h =>
          match setDefaultWorkspaces c h with
          | Panic reason => Panic reason
          | Ret h => let (h, err) := expandKanikoSecretPath c h in Ret (c, h, err)
          end
      end
  end.

Definition Parse (c : SkaffoldConfig) (contents : string) (useDefaults : bool) (h : Heap)
  : Outcome (SkaffoldConfig * Heap * option error) :=
  let '(c, h, err) := yaml_UnmarshalStrict lib contents c h in
  match err with
  | Some e => Ret (c, h, Some e)
  | None =>
      if useDefaults then
        match setDefaultValues c h with
        | Panic reason => Panic reason
        | Ret (c, h, Some e) => Ret (c, h, Some (Wrap e "applying default values"))
        | Ret (c, h, None) => Ret (c, h, None)
        end
      else Ret (c, h, None)
  end.

(** [map[string]Profile], by its lookups. *)
Definition profilesByName (profiles : list Profile) : string -> option Profile :=
  fold_left
    (fun byName profile =>
       fun name => if String.eqb name (Profile_Name profile) then Some profile else byName name)
    profiles (fun _ => None).

Definition applyProfile (config : SkaffoldConfig) (profile : Profile) (h : Heap)
  : SkaffoldConfig * Heap * option error :=
  let (buf, err) := yaml_Marshal lib profile h in
  match err with
  | Some e => (config, h, Some e)
  | None => yaml_Unmarshal lib buf config h
  end.

(** The loop of [ApplyProfiles] over the names it is given. *)
Fixpoint applyNamed (byName : string -> option Profile) (profiles : list string)
         (c : SkaffoldConfig) (h : Heap) : SkaffoldConfig * Heap * option error :=
  match profiles with
  | [] => (c, h, None)
  | name :: rest =>
      match byName name with
      | None => (c, h, Some (Errorf "couldn't find profile %s" [ArgString name]))
      | Some profile =>
          let '(c, h, err) := applyProfile c profile h in
          match err with
          | Some e => (c, h, Some (Wrapf e "applying profile %s" [ArgString name]))
          | None => applyNamed byName rest c h
          end
      end
  end.

Definition ApplyProfiles (c : SkaffoldConfig) (profiles : list string) (h : Heap)
  : Outcome (SkaffoldConfig * Heap * option error) :=
  let byName := profilesByName (Profiles c) in
  let '(c, h, err) := applyNamed byName profiles c h in
  match err with
  | Some e => Ret (c, h, Some e)
  | None =>
      let c := set_Profiles [] c in
      match setDefaultValues c h with
      | Panic reason => Panic reason
      | Ret (c, h, Some e) => Ret (c, h, Some (Wrap e "applying default values"))
      | Ret (c, h, None) => Ret (c, h, None)
      end
  end.

End Defaults.

End v1alpha2.
(** * The dependencies of an S2I artifact *)

Module s2i.

(** [os.FileInfo], by the one method the resolver calls. *)
Record FileInfo := mkFileInfo { IsDir : bool }.

(** One call of the function [filepath.Walk] is given: the path, what
    [os.Lstat] told of it, and the error of reading it. *)
Record Visit := mkVisit {
  Visit_path : string;
  Visit_info : FileInfo;
  Visit_err : option error
}.

(** What the resolver takes from [path/filepath]: the files and directories
    [Walk] comes to under a root, in its lexical order, and [Rel]. *)
Record FileSystem := mkFileSystem {
  tree : string -> list Visit;
  Rel : string -> string -> string * option error
}.

(** [filepath.Walk], for a function that returns no [SkipDir] of its own:
    the function is called on one visit after the other, and the first
    error it returns ends the walk and is returned. *)
Fixpoint walk {S : Type} (walkFn : Visit -> S -> S * option error)
         (visits : list Visit) (s : S) : S * option error :=
  match visits with
  | [] => (s, None)
  | v :: rest =>
      let (s, err) := walkFn v s in
      match err with
      | Some e => (s, Some e)
      | None => walk walkFn rest s
      end
  end.

Definition Walk {S : Type} (fs : FileSystem) (root : string)
           (walkFn : Visit -> S -> S * option error) (s : S) : S * option error :=
  walk walkFn (tree fs root) s.

Section Resolver.

Variable fs : FileSystem.

(** The function [GetDependencies] walks the workspace with; [files] is the
    variable it has captured. *)
Definition visitFile (a : v1alpha2.Artifact) (v : Visit) (files : list string)
  : list string * option error :=
  match Visit_err v with
  | Some e => (files, Some e)
  | None =>
      let (relPath, err) := Rel fs (v1alpha2.Workspace a) (Visit_path v) in
      match err with
      | Some e => (files, Some e)
      | None =>
          if negb (IsDir (Visit_info v)) then ((files ++ [relPath])%list, None)
          else (files, None)
      end
  end.

Definition GetDependencies (a : v1alpha2.Artifact) : list string * option error :=
  Walk fs (v1alpha2.Workspace a) (visitFile a) [].

End Resolver.

End s2i.
(** ** Specification-side vocabulary *)

Section Vocabulary.

Context {ObjectMetaRest LanguageRest ContextRest : Type}.

Local Abbreviation BuildJob := (@BuildJob ObjectMetaRest LanguageRest ContextRest).
Local Abbreviation World := (@World ObjectMetaRest LanguageRest ContextRest).
Local Abbreviation Oracle := (@Oracle ObjectMetaRest LanguageRest ContextRest).
Local Abbreviation Event := (@Event ObjectMetaRest LanguageRest ContextRest).

(** The template of a world, and the moment of a world. *)
Definition templateOf (w : World) : BuildJob := bj (template w).
Definition moment (w : World) : nat := List.length (trace w).

(** The fields [Fulfill] fills in only when they are empty. *)
Definition apiVersionOf (j : BuildJob) : string := TypeMeta_APIVersion (BuildJob_TypeMeta j).
Definition kindOf (j : BuildJob) : string := TypeMeta_Kind (BuildJob_TypeMeta j).
Definition nameOf (j : BuildJob) : string := ObjectMeta_Name (BuildJob_ObjectMeta j).
Definition languageKindOf (j : BuildJob) : string := Language_Kind (Spec_Language (BuildJob_Spec j)).

(** The fields [Fulfill] always writes. *)
Definition targetOf (j : BuildJob) : string := Registry_Target (Spec_Registry (BuildJob_Spec j)).
Definition pushOf (j : BuildJob) : bool := Registry_Push (Spec_Registry (BuildJob_Spec j)).
Definition contextKindOf (j : BuildJob) : string := Context_Kind (Spec_Context (BuildJob_Spec j)).
Definition contextURLOf (j : BuildJob) : string := HTTP_URL (Context_HTTP (Spec_Context (BuildJob_Spec j))).

(** [spec.registry.secretRef.name]. *)
Definition secretRefNameOf (j : BuildJob) : string :=
  LocalObjectReference_Name (Registry_SecretRef (Spec_Registry (BuildJob_Spec j))).

(** [Fulfill] reads the random source, one operation after the clock, only
    for a template without a name; the one byte it slices off must exist. *)
Definition nameCanBeDrawn (env : Oracle) (w : World) : Prop :=
  nameOf (templateOf w) <> "" \/ o_randomID env (S (moment w)) <> "".

(** What the specification says of a fulfilled job description, in its own
    words: a field that is filled in only when unset keeps a value it has
    and takes its default otherwise. *)
Definition orDefault (current default : string) : string :=
  if String.eqb current "" then default else current.

(** The fulfilled job description of the specification: defaults for API
    version, kind and language kind, the given name, the four overrides,
    and every other component of the template as it was. *)
Definition fulfilled (name targetImage contextURL : string) (j : BuildJob) : BuildJob :=
  mkBuildJob
    (mkTypeMeta (orDefault (kindOf j) "BuildJob")
                (orDefault (apiVersionOf j) "cbi.containerbuilding.github.io/v1alpha1"))
    (mkObjectMeta name (ObjectMeta_rest (BuildJob_ObjectMeta j)))
    (mkBuildJobSpec
       (mkRegistry targetImage true (Registry_SecretRef (Spec_Registry (BuildJob_Spec j))))
       (mkLanguage (orDefault (languageKindOf j) "Dockerfile")
                   (Language_rest (Spec_Language (BuildJob_Spec j))))
       (mkContext "HTTP" (mkHTTP contextURL) (Context_rest (Spec_Context (BuildJob_Spec j))))
       (Spec_PluginSelector (BuildJob_Spec j)))
    (BuildJob_Status j).

(** A job description stopped by the panic of the name's slice: only the
    defaults of API version and kind have been written. *)
Definition halfFulfilled (j : BuildJob) : BuildJob :=
  mkBuildJob
    (mkTypeMeta (orDefault (kindOf j) "BuildJob")
                (orDefault (apiVersionOf j) "cbi.containerbuilding.github.io/v1alpha1"))
    (BuildJob_ObjectMeta j) (BuildJob_Spec j) (BuildJob_Status j).

(** The components of a job description that are none of [apiVersion],
    [kind], [metadata.name], [spec.language.kind], [spec.registry.target],
    [spec.registry.push], [spec.context.kind] and [spec.context.http]. *)
Definition sameElsewhere (j j' : BuildJob) : Prop :=
  ObjectMeta_rest (BuildJob_ObjectMeta j') = ObjectMeta_rest (BuildJob_ObjectMeta j) /\
  Registry_SecretRef (Spec_Registry (BuildJob_Spec j')) =
    Registry_SecretRef (Spec_Registry (BuildJob_Spec j)) /\
  Language_rest (Spec_Language (BuildJob_Spec j')) =
    Language_rest (Spec_Language (BuildJob_Spec j)) /\
  Context_rest (Spec_Context (BuildJob_Spec j')) =
    Context_rest (Spec_Context (BuildJob_Spec j)) /\
  Spec_PluginSelector (BuildJob_Spec j') = Spec_PluginSelector (BuildJob_Spec j) /\
  BuildJob_Status j' = BuildJob_Status j.

(** The API version a template declares: the value of its first item
    under the string key ["apiVersion"], if there is one. *)
Definition isAPIVersionKey (item : MapItem) : bool :=
  match Key item with
  | VString k => String.eqb k "apiVersion"
  | _ => false
  end.

Definition declaredAPIVersion (items : MapSlice) : option value :=
  option_map Value (find isAPIVersionKey items).

(** The case [v1alpha1] of [GetBuildJobTemplate]: the marshalled template
    is decoded, strictly, as a [cbiv1alpha1.BuildJob]. *)
Definition v1alpha1Case (env : Oracle) (p : CBIBuild)
  : @cbiBuildJobTemplateV1Alpha1 ObjectMetaRest LanguageRest ContextRest + error :=
  match yaml_Marshal env (BuildJobTemplate p) with
  | (_, Some e) => inr e
  | (b, None) =>
      match yaml_UnmarshalStrict env b with
      | (_, Some e) => inr e
      | (j, None) => inl (mkTemplate j)
      end
  end.

(** What one fetch of the job's status tells the completion poll. *)
Definition jobPending (r : Job * option error) : Prop :=
  snd r = None /\ JobStatus_CompletionTime (Job_Status (fst r)) = None.

Definition jobSucceeded (r : Job * option error) : Prop :=
  snd r = None /\ JobStatus_CompletionTime (Job_Status (fst r)) <> None /\
  JobStatus_Failed (Job_Status (fst r)) = 0.

Definition jobFailed (r : Job * option error) : Prop :=
  snd r = None /\ JobStatus_CompletionTime (Job_Status (fst r)) <> None /\
  1 <= JobStatus_Failed (Job_Status (fst r)).

(** The verdict of the completion poll's condition on one fetch. *)
Definition completionVerdict (jobName : string) (r : Job * option error)
  : bool * option error :=
  match snd r with
  | Some _ => (false, Some (Errorf "not found: %s" [ArgString jobName]))
  | None =>
      match JobStatus_CompletionTime (Job_Status (fst r)) with
      | Some _ =>
          if Z.eqb (JobStatus_Failed (Job_Status (fst r))) 0 then (true, None)
          else (true, Some (Errorf "job failed: %+v" [ArgJobStatus (Job_Status (fst r))]))
      | None => (false, None)
      end
  end.

(** What one fetch of the submitted job description tells the readiness
    poll: the engine has accepted the job when the reference to the backing
    execution, [status.job], is not empty. *)
Definition notYetAccepted (r : BuildJob * option error) : Prop :=
  snd r = None /\ Status_Job (BuildJob_Status (fst r)) = "".

Definition accepted (r : BuildJob * option error) : Prop :=
  snd r = None /\ Status_Job (BuildJob_Status (fst r)) <> "".

(** The verdict of the readiness poll's condition on one fetch. *)
Definition readinessVerdict (r : BuildJob * option error) : bool * option error :=
  match snd r with
  | Some _ => (false, Some (Errorf "not found: %s" [ArgString (nameOf (fst r))]))
  | None =>
      if String.eqb (Status_Job (BuildJob_Status (fst r))) "" then (false, None)
      else (true, None)
  end.

(** The world one evaluation of the readiness condition leaves: the fetch
    is recorded and the fetched object assigned to the variable [bj]. *)
Definition observed (env : Oracle) (w : World) : World :=
  mkWorld (trace w ++ [EvBuildJobGet (nameOf (job w)) (o_buildJobGet env (moment w))])
    (template w) (nginx w) (fst (o_buildJobGet env (moment w))).

(** The world in which the readiness poll of [runCBIBuildV1Alpha1] starts:
    the job description was submitted and the answer assigned to [bj]. *)
Definition submitted (env : Oracle) (buildJob : BuildJob) (w : World) : World :=
  mkWorld (trace w ++ [EvBuildJobCreate buildJob (o_buildJobCreate env (moment w))])
    (template w) (nginx w) (fst (o_buildJobCreate env (moment w))).

(** The world one evaluation of the completion condition leaves: the
    fetch is recorded. *)
Definition polled (env : Oracle) (jobName : string) (w : World) : World :=
  emit (EvJobGet jobName (o_jobGet env (moment w))) w.

(** What a poll returns for the verdict that ended it. *)
Definition resolve (verdict : bool * option error) : option error := snd verdict.

(** The world after [k] evaluations of a condition that moves it by [next]. *)
Definition after (next : World -> World) (k : nat) (w : World) : World :=
  Nat.iter k next w.

(** The operations of the staging resource's teardown. *)
Definition isServiceDelete (e : Event) : bool :=
  match e with
  | EvServiceDelete _ _ => true
  | _ => false
  end.

Definition isPodDelete (e : Event) : bool :=
  match e with
  | EvPodDelete _ _ => true
  | _ => false
  end.

Definition notTeardown (e : Event) : Prop :=
  isServiceDelete e = false /\ isPodDelete e = false.

(** [TempNginx.Delete] begins, whatever happens next, by asking the
    endpoint's client to delete the service, and nothing else in the
    program does: the invocations of [Delete] recorded in a trace are its
    service deletions. *)
Definition deleteInvocations (tr : list Event) : nat :=
  List.length (filter isServiceDelete tr).

(** A computation that only appends to the trace, and only events that
    satisfy [P]. *)
Definition appends {A} (P : Event -> Prop) (m : @M ObjectMetaRest LanguageRest ContextRest A) : Prop :=
  forall w, exists suffix, trace (snd (m w)) = (trace w ++ suffix)%list /\ Forall P suffix.

(** The world in which the loop of [Build] starts: the template was
    decoded and the client configuration read. *)
Definition configured (cbiT : @cbiBuildJobTemplateV1Alpha1 ObjectMetaRest LanguageRest ContextRest)
    (w : World) : World :=
  mkWorld (trace w ++ [EvClientConfig None]) cbiT (nginx w) (job w).

(** The same surroundings, with other answers to the two deletions of the
    staging resource. *)
Definition with_teardown (serviceDelete podDelete : nat -> option error) (env : Oracle) : Oracle :=
  mkOracle (yaml_Marshal env) (yaml_UnmarshalStrict env) (o_unixNano env) (o_randomID env)
    (o_clientConfig env) (o_newForConfig env) (o_cbiNewForConfig env) (o_tempFile env)
    (o_podCreate env) (o_serviceCreate env) (o_waitForPodReady env) (o_createTarGz env)
    (o_firstError env) (o_run env) (o_start env) (o_buildJobCreate env) (o_buildJobGet env)
    (o_jobGet env) (o_ticks env) (o_remoteDigest env) (o_generateTag env) (o_addTag env)
    serviceDelete podDelete.

(** The build step of one artifact fails: [stepFails env artifact w e w']
    when, started in the world [w], one of the four operations of the loop
    of [Build] on [artifact] returns an error; [e] is the wrapped error and
    [w'] the world at that point. *)
Inductive stepFails (env : Oracle) (artifact : Artifact) (w : World) : error -> World -> Prop :=
| runFails (tag : string) (e : error) (w1 : World) :
    RunCBIBuild env artifact w = (Ret (tag, Some e), w1) ->
    stepFails env artifact w
      (Wrapf e "running cbi build for %s" [ArgString (ImageName artifact)]) w1
| digestFails (tag dgst : string) (e : error) (w1 : World) :
    RunCBIBuild env artifact w = (Ret (tag, None), w1) ->
    o_remoteDigest env (moment w1) = (dgst, Some e) ->
    stepFails env artifact w (Wrap e "getting digest")
      (emit (EvRemoteDigest tag (dgst, Some e)) w1)
| tagFails (tag dgst full : string) (e : error) (w1 : World) :
    RunCBIBuild env artifact w = (Ret (tag, None), w1) ->
    o_remoteDigest env (moment w1) = (dgst, None) ->
    o_generateTag env (S (moment w1)) = (full, Some e) ->
    stepFails env artifact w (Wrap e "generating tag")
      (emit (EvGenerateFullyQualifiedImageName (Workspace artifact) (ImageName artifact) dgst
               (full, Some e))
         (emit (EvRemoteDigest tag (dgst, None)) w1))
| addTagFails (tag dgst full : string) (e : error) (w1 : World) :
    RunCBIBuild env artifact w = (Ret (tag, None), w1) ->
    o_remoteDigest env (moment w1) = (dgst, None) ->
    o_generateTag env (S (moment w1)) = (full, None) ->
    o_addTag env (S (S (moment w1))) = Some e ->
    stepFails env artifact w (Wrap e "tagging image")
      (emit (EvAddTag tag full (Some e))
         (emit (EvGenerateFullyQualifiedImageName (Workspace artifact) (ImageName artifact) dgst
                  (full, None))
            (emit (EvRemoteDigest tag (dgst, None)) w1))).

End Vocabulary.

(** ** Vocabulary of the further properties *)

Section MoreVocabulary.

Context {ObjectMetaRest LanguageRest ContextRest : Type}.

Local Abbreviation BuildJob := (@BuildJob ObjectMetaRest LanguageRest ContextRest).
Local Abbreviation World := (@World ObjectMetaRest LanguageRest ContextRest).
Local Abbreviation Oracle := (@Oracle ObjectMetaRest LanguageRest ContextRest).
Local Abbreviation Event := (@Event ObjectMetaRest LanguageRest ContextRest).

(** Surroundings with another clock. *)
Definition with_clock (clock : nat -> Z) (env : Oracle) : Oracle :=
  mkOracle (yaml_Marshal env) (yaml_UnmarshalStrict env) clock (o_randomID env)
    (o_clientConfig env) (o_newForConfig env) (o_cbiNewForConfig env) (o_tempFile env)
    (o_podCreate env) (o_serviceCreate env) (o_waitForPodReady env) (o_createTarGz env)
    (o_firstError env) (o_run env) (o_start env) (o_buildJobCreate env) (o_buildJobGet env)
    (o_jobGet env) (o_ticks env) (o_remoteDigest env) (o_generateTag env) (o_addTag env)
    (o_serviceDelete env) (o_podDelete env).

(** Surroundings with another random source. *)
Definition with_randomID (ids : nat -> string) (env : Oracle) : Oracle :=
  mkOracle (yaml_Marshal env) (yaml_UnmarshalStrict env) (o_unixNano env) ids
    (o_clientConfig env) (o_newForConfig env) (o_cbiNewForConfig env) (o_tempFile env)
    (o_podCreate env) (o_serviceCreate env) (o_waitForPodReady env) (o_createTarGz env)
    (o_firstError env) (o_run env) (o_start env) (o_buildJobCreate env) (o_buildJobGet env)
    (o_jobGet env) (o_ticks env) (o_remoteDigest env) (o_generateTag env) (o_addTag env)
    (o_serviceDelete env) (o_podDelete env).

(** How often a kind of event occurs in a trace. *)
Definition occurrences (kind : Event -> bool) (tr : list Event) : nat :=
  List.length (filter kind tr).

(** The resources [runCBIBuildV1Alpha1] acquires and releases: a job
    description that was created, its deletion, a log follower that was
    started, its killing. *)
Definition isJobCreated (e : Event) : bool :=
  match e with
  | EvBuildJobCreate _ (_, None) => true
  | _ => false
  end.

Definition isJobDeleted (e : Event) : bool :=
  match e with
  | EvBuildJobDelete _ => true
  | _ => false
  end.

Definition isLogStarted (e : Event) : bool :=
  match e with
  | EvStart _ None => true
  | _ => false
  end.

Definition isLogKilled (e : Event) : bool :=
  match e with
  | EvKill => true
  | _ => false
  end.

(** An event that neither acquires nor releases one of them. *)
Definition neutral (e : Event) : Prop :=
  isJobCreated e = false /\ isJobDeleted e = false /\
  isLogStarted e = false /\ isLogKilled e = false.

(** The temporary file of [RunCBIBuild]. *)
Definition isRemove (e : Event) : bool :=
  match e with
  | EvRemove _ => true
  | _ => false
  end.

Definition isTempFile (e : Event) : bool :=
  match e with
  | EvTempFile _ _ (_, None) => true
  | _ => false
  end.

(** The submission of a job description to the cluster, whatever the answer. *)
Definition isSubmission (e : Event) : bool :=
  match e with
  | EvBuildJobCreate _ _ => true
  | _ => false
  end.

(** The job descriptions submitted in a trace, in their order. *)
Definition submissions (tr : list Event) : list BuildJob :=
  flat_map (fun e => match e with
                     | EvBuildJobCreate j _ => [j]
                     | _ => []
                     end) tr.

(** An event that neither creates nor removes a temporary file. *)
Definition keepsFiles (e : Event) : Prop := isRemove e = false /\ isTempFile e = false.

End MoreVocabulary.

(** ** Vocabulary of the schema's defaults *)

Section SchemaVocabulary.

Import v1alpha2.

(** An artifact the defaults have gone over: the pointer is not [nil], the
    artifact has a workspace and one artifact type at least, and a Docker
    artifact has a Dockerfile. *)
Definition defaulted (h : Heap) (p : pointer) : Prop :=
  exists a, p = Some a /\
            Workspace (artifactAt h a) <> "" /\
            ArtifactType_isZero (Artifact_ArtifactType (artifactAt h a)) = false /\
            forall d, ArtifactType_DockerArtifact (Artifact_ArtifactType (artifactAt h a)) = Some d ->
                      DockerfilePath (dockerArtifactAt h d) <> "".

(** What the defaults keep of the artifacts, wherever they are held: the
    image name, a workspace that was given, and an artifact type that was
    given, the pointer to a Docker artifact with it. *)
Definition keepsArtifacts (h h' : Heap) : Prop :=
  forall a,
    ImageName (artifactAt h' a) = ImageName (artifactAt h a) /\
    (Workspace (artifactAt h a) <> "" ->
     Workspace (artifactAt h' a) = Workspace (artifactAt h a)) /\
    (ArtifactType_isZero (Artifact_ArtifactType (artifactAt h a)) = false ->
     Artifact_ArtifactType (artifactAt h' a) = Artifact_ArtifactType (artifactAt h a)).

(** What the defaults keep of the Docker artifacts: none is given up, the
    build arguments stay, a Dockerfile path that was given stays, and the
    only path written is the default one. *)
Definition keepsDockerArtifacts (lib : Library) (h h' : Heap) : Prop :=
  (List.length (dockerArtifacts h) <= List.length (dockerArtifacts h'))%nat /\
  forall d,
    (DockerfilePath (dockerArtifactAt h d) <> "" ->
     dockerArtifactAt h' d = dockerArtifactAt h d) /\
    (dockerArtifactAt h' d = dockerArtifactAt h d \/
     dockerArtifactAt h' d =
       mkDockerArtifact (DefaultDockerfilePath lib) (BuildArgs (dockerArtifactAt h d))).

(** What the defaults keep of the Kaniko builds: the bucket, every build
    but that of the configuration, and that one too when it has no pull
    secret. *)
Definition keepsKanikoBuilds (c : SkaffoldConfig) (h h' : Heap) : Prop :=
  forall k,
    GCSBucket (kanikoBuildAt h' k) = GCSBucket (kanikoBuildAt h k) /\
    (BuildType_KanikoBuild (BuildConfig_BuildType (Build c)) <> Some k ->
     kanikoBuildAt h' k = kanikoBuildAt h k) /\
    (PullSecret (kanikoBuildAt h k) = "" -> kanikoBuildAt h' k = kanikoBuildAt h k).

(** The three states of an artifact the loops of the defaults bring about,
    each of which makes the body of its loop change nothing: it has an
    artifact type; its Docker artifact has a Dockerfile path, or the default
    path is empty and was written; it has a workspace. *)
Definition typed (a : nat) (h : Heap) : Prop :=
  ArtifactType_isZero (Artifact_ArtifactType (artifactAt h a)) = false.

Definition hasDockerfile (lib : Library) (a : nat) (h : Heap) : Prop :=
  typed a h /\
  forall d, ArtifactType_DockerArtifact (Artifact_ArtifactType (artifactAt h a)) = Some d ->
            DockerfilePath (dockerArtifactAt h d) <> "" \/
            (DefaultDockerfilePath lib = "" /\ (d < List.length (dockerArtifacts h))%nat).

Definition hasWorkspace (a : nat) (h : Heap) : Prop :=
  Workspace (artifactAt h a) <> "".

(** What every step of the defaults keeps, in one relation. *)
Definition keeps (lib : Library) (h h' : Heap) : Prop :=
  keepsArtifacts h h' /\ keepsDockerArtifacts lib h h'.

End SchemaVocabulary.
(** ** Vocabulary of the S2I resolver *)

Section ResolverVocabulary.

Import s2i.

(** What a visit makes the resolver do: the error it stops the walk with,
    or the relative paths it adds, one for a file and none for a
    directory. *)
Definition failure (fs : FileSystem) (workspace : string) (v : Visit) : option error :=
  match Visit_err v with
  | Some e => Some e
  | None => snd (Rel fs workspace (Visit_path v))
  end.

Definition listed (fs : FileSystem) (workspace : string) (v : Visit) : list string :=
  if IsDir (Visit_info v) then [] else [fst (Rel fs workspace (Visit_path v))].

End ResolverVocabulary.

(** ** Concrete surroundings

    Worlds and oracles at which the properties below are exercised.  The
    opaque components of the library structs are instantiated by [unit]. *)

Definition plainJob (name job : string) : @BuildJob unit unit unit :=
  mkBuildJob (mkTypeMeta "" "") (mkObjectMeta name tt)
    (mkBuildJobSpec (mkRegistry "" false (mkLocalObjectReference "")) (mkLanguage "" tt)
       (mkContext "" (mkHTTP "") tt) "")
    (mkBuildJobStatus job).

(** The empty template. *)
Definition emptyJob : @BuildJob unit unit unit := plainJob "" "".

(** A template whose caller chose a registry secret, and also filled in
    fields that belong to the builder. *)
Definition presetJob : @BuildJob unit unit unit :=
  mkBuildJob (mkTypeMeta "" "") (mkObjectMeta "" tt)
    (mkBuildJobSpec (mkRegistry "elsewhere:latest" false (mkLocalObjectReference "docker-config"))
       (mkLanguage "" tt)
       (mkContext "Git" (mkHTTP "http://example.com/old.tar.gz") tt) "")
    (mkBuildJobStatus "").

Definition worldWith (j : @BuildJob unit unit unit) : @World unit unit unit :=
  mkWorld [] (mkTemplate j) (mkTempNginx "" (mkPod "") (mkService "")) emptyJob.

Definition dawn : @World unit unit unit := worldWith emptyJob.

Definition finished : Job :=
  mkJob "job-1" (mkJobStatus (Some 1) (Some 2) 0 1 0).

Definition failedTwice : Job :=
  mkJob "job-1" (mkJobStatus (Some 1) (Some 2) 0 0 2).

Definition running : Job :=
  mkJob "job-1" (mkJobStatus (Some 1) None 1 0 0).

(** Surroundings in which every operation succeeds, but for the answers
    given here: those of [kubectl], of the two status fetches and of the
    pollers.  The clock shows the number of operations performed so far. *)
Definition surroundings
    (run : nat -> string * option error)
    (buildJobGet : nat -> @BuildJob unit unit unit * option error)
    (jobGet : nat -> Job * option error)
    (ticks : nat -> nat) : @Oracle unit unit unit :=
  mkOracle
    (fun _ => ("{}", None))
    (fun _ => (emptyJob, None))
    (fun n => Z.of_nat n)
    (fun _ => "7f3a9c")
    (fun _ => None)
    (fun _ => None)
    (fun _ => None)
    (fun _ => ("/tmp/skaffold-cbi-temp42", None))
    (fun _ => (mkPod "tempnginx-1-7f", None))
    (fun _ => (mkService "tempnginx-1-7f", None))
    (fun _ => None)
    (fun _ => ("0a1b2c", None))
    (fun _ => true)
    run
    (fun _ => None)
    (fun _ => (plainJob "skaffold-11-7" "", None))
    buildJobGet
    jobGet
    ticks
    (fun _ => ("sha256:feed", None))
    (fun _ => ("myapp:feed", None))
    (fun _ => None)
    (fun _ => None)
    (fun _ => None).

(** Every operation succeeds at once. *)
Definition calm : @Oracle unit unit unit :=
  surroundings (fun _ => ("", None))
    (fun _ => (plainJob "skaffold-11-7" "job-1", None))
    (fun _ => (finished, None))
    (fun _ => 0%nat).

(** The engine accepts the job at the third fetch, and the job completes
    at the fourth fetch of its status. *)
Definition slow (last : Job) : @Oracle unit unit unit :=
  surroundings (fun _ => ("", None))
    (fun n => if (n <? 3)%nat then (plainJob "skaffold-11-7" "", None)
              else (plainJob "skaffold-11-7" "job-1", None))
    (fun n => if (n <? 3)%nat then (running, None) else (last, None))
    (fun _ => 10%nat).

(** The control plane stops answering at the third fetch. *)
Definition unreachable : @Oracle unit unit unit :=
  surroundings (fun _ => ("", None))
    (fun n => if (n <? 3)%nat then (plainJob "skaffold-11-7" "", None)
              else (plainJob "" "", Some (External "connection refused")))
    (fun n => if (n <? 3)%nat then (running, None)
              else (running, Some (External "connection refused")))
    (fun _ => 10%nat).

(** Nothing ever becomes ready, and the pollers deliver two ticks. *)
Definition stalled : @Oracle unit unit unit :=
  surroundings (fun _ => ("", None))
    (fun _ => (plainJob "skaffold-11-7" "", None))
    (fun _ => (running, None))
    (fun _ => 2%nat).

(** [kubectl] fails from the operation numbered [since] on.  One build in
    calm surroundings, with the three operations of tagging, takes 28
    operations after the client configuration was read. *)
Definition uploadBreaks (since : nat) : @Oracle unit unit unit :=
  surroundings
    (fun n => if (since <=? n)%nat
              then ("error: unable to upgrade connection", Some (External "exit status 1"))
              else ("", None))
    (fun _ => (plainJob "skaffold-11-7" "job-1", None))
    (fun _ => (finished, None))
    (fun _ => 0%nat).

(** The deletion of the service fails. *)
Definition teardownBreaks : @Oracle unit unit unit :=
  with_teardown (fun _ => Some (External "services not found")) (fun _ => None) calm.

(** A world in which the staging resource was created. *)
Definition staged : @World unit unit unit :=
  mkWorld [] (mkTemplate emptyJob)
    (mkTempNginx "" (mkPod "tempnginx-1-7f") (mkService "tempnginx-1-7f")) emptyJob.

Definition app1 : Artifact := mkArtifact "myapp" "." (Some (mkDockerArtifact "Dockerfile")).
Definition app2 : Artifact := mkArtifact "web" "./web" None.
Definition app3 : Artifact := mkArtifact "db" "./db" None.

(** A template that declares no API version, one that declares the
    supported one and one that declares another. *)
Definition undeclared : CBIBuild :=
  mkCBIBuild [mkMapItem (VString "spec") (VMap [(VString "pluginSelector", VString "docker")])].

Definition declaredV1Alpha1 : CBIBuild :=
  mkCBIBuild [mkMapItem (VString "kind") (VString "BuildJob");
              mkMapItem (VString "apiVersion")
                (VString "cbi.containerbuilding.github.io/v1alpha1")].

Definition declaredV2 : CBIBuild :=
  mkCBIBuild [mkMapItem (VString "apiVersion") (VString "cbi.containerbuilding.github.io/v2")].

Definition declaredNumber : CBIBuild :=
  mkCBIBuild [mkMapItem (VString "apiVersion") (VInt 1)].

(** ** A coarse clock *)

(** Calm surroundings whose clock shows the same reading at every moment,
    and whose random source gives one identifier at first and another one,
    with the same first byte, later. *)
Definition coarse : @Oracle unit unit unit :=
  with_randomID (fun n => if (n <? 2)%nat then "7f3a9c" else "74c0de")
    (with_clock (fun _ => 1528000000000000000) calm).

(** A later world, with another empty template: a second build, after the
    first has read the clock and the random source. *)
Definition afterwards : @World unit unit unit :=
  mkWorld [EvUnixNano 1528000000000000000; EvRandomID "7f3a9c"; EvKill]
    (mkTemplate emptyJob) (mkTempNginx "" (mkPod "") (mkService "")) emptyJob.


(** ** Concrete configurations *)

(** [homedir.Expand], for a home directory [/home/dev]. *)
Definition expandHome (p : string) : string * option error :=
  match p with
  | String c rest =>
      if Ascii.eqb c "~" then (("/home/dev" ++ rest)%string, None) else (p, None)
  | EmptyString => ("", None)
  end.

(** [homedir.Expand] where no home directory can be found. *)
Definition expandNowhere (p : string) : string * option error :=
  ("", Some (External "$HOME is not defined")).

(** An artifact with an image name and nothing else, one built by S2I in a
    workspace of its own, and one with a Dockerfile of its own, the first
    Docker artifact of the heap. *)
Definition bare : v1alpha2.Artifact :=
  v1alpha2.mkArtifact "myapp" "" (v1alpha2.mkArtifactType None None None).

Definition builtByS2I : v1alpha2.Artifact :=
  v1alpha2.mkArtifact "web" "./web"
    (v1alpha2.mkArtifactType None None (Some (v1alpha2.mkBazelArtifact "ruby"))).

Definition withDockerfile : v1alpha2.Artifact :=
  v1alpha2.mkArtifact "db" "" (v1alpha2.mkArtifactType (Some 0%nat) None None).

(** The heap the configurations below point into: the three artifacts at
    the addresses 0, 1 and 2, one Docker artifact and one Kaniko build. *)
Definition memory : v1alpha2.Heap :=
  v1alpha2.mkHeap
    [bare; builtByS2I; withDockerfile]
    [v1alpha2.mkDockerArtifact "Dockerfile.db" [("VERSION", Some "10")]]
    [v1alpha2.mkKanikoBuild "bucket" "~/secret.json"].

Definition noDeploy : v1alpha2.DeployConfig :=
  v1alpha2.mkDeployConfig (v1alpha2.mkDeployType None None).

(** Three profiles; the first builds the artifact at the address 0. *)
Definition onCloud : v1alpha2.Profile :=
  v1alpha2.mkProfile "cloud"
    (v1alpha2.mkBuildConfig [Some 0%nat]
       (v1alpha2.mkTagPolicy None (Some v1alpha2.mkShaTagger) None)
       (v1alpha2.mkBuildType None (Some (v1alpha2.mkGoogleCloudBuild "proj-1")) None None))
    noDeploy.

Definition onCloudAgain : v1alpha2.Profile :=
  v1alpha2.mkProfile "cloud"
    (v1alpha2.mkBuildConfig []
       (v1alpha2.mkTagPolicy None None None)
       (v1alpha2.mkBuildType None (Some (v1alpha2.mkGoogleCloudBuild "proj-2")) None None))
    noDeploy.

Definition onCluster : v1alpha2.Profile :=
  v1alpha2.mkProfile "cluster"
    (v1alpha2.mkBuildConfig []
       (v1alpha2.mkTagPolicy None None None)
       (v1alpha2.mkBuildType None None (Some 0%nat) None))
    noDeploy.

(** A configuration as written by hand: three artifacts, no build type, no
    tag policy, and three profiles, two of them under one name; the first
    profile and the build share the artifact at the address 0. *)
Definition written : v1alpha2.SkaffoldConfig :=
  v1alpha2.mkSkaffoldConfig "skaffold/v1alpha2" "Config"
    (v1alpha2.mkBuildConfig [Some 0%nat; Some 1%nat; Some 2%nat]
       (v1alpha2.mkTagPolicy None None None)
       (v1alpha2.mkBuildType None None None None))
    noDeploy [onCloud; onCluster; onCloudAgain].

(** The configuration with a Kaniko build and a pull secret under the home
    directory. *)
Definition onKaniko : v1alpha2.SkaffoldConfig :=
  v1alpha2.mkSkaffoldConfig "skaffold/v1alpha2" "Config"
    (v1alpha2.mkBuildConfig [Some 0%nat]
       (v1alpha2.mkTagPolicy None None (Some (v1alpha2.mkEnvTemplateTagger "{{.IMAGE_NAME}}")))
       (v1alpha2.mkBuildType None None (Some 0%nat) None))
    noDeploy [].

(** A configuration one of whose artifacts is a [nil] pointer. *)
Definition holed : v1alpha2.SkaffoldConfig :=
  v1alpha2.mkSkaffoldConfig "skaffold/v1alpha2" "Config"
    (v1alpha2.mkBuildConfig [Some 0%nat; None]
       (v1alpha2.mkTagPolicy None None None)
       (v1alpha2.mkBuildType None None None None))
    noDeploy [].

(** A library whose decoder reads [onKaniko] out of every document, and
    whose profiles are applied by taking over their build type; neither
    decoder allocates. *)
Definition library (expand : string -> string * option error) : v1alpha2.Library :=
  v1alpha2.mkLibrary "Dockerfile" expand
    (fun _ _ h => (onKaniko, h, None))
    (fun p _ => (v1alpha2.Profile_Name p, None))
    (fun buf c h =>
       (v1alpha2.set_Build
          (v1alpha2.set_BuildType
             (v1alpha2.BuildConfig_BuildType
                (v1alpha2.Profile_Build (if String.eqb buf "cloud" then onCloudAgain
                                         else onCluster)))
             (v1alpha2.Build c)) c,
        h, None)).
(** A workspace with a Dockerfile, a directory of sources, and a file that
    cannot be read. *)
Definition workspaceTree : list s2i.Visit :=
  [s2i.mkVisit "app" (s2i.mkFileInfo true) None;
   s2i.mkVisit "app/Dockerfile" (s2i.mkFileInfo false) None;
   s2i.mkVisit "app/src" (s2i.mkFileInfo true) None;
   s2i.mkVisit "app/src/main.rb" (s2i.mkFileInfo false) None;
   s2i.mkVisit "app/tmp" (s2i.mkFileInfo true) (Some (External "permission denied"));
   s2i.mkVisit "app/zz.rb" (s2i.mkFileInfo false) None].

(** [filepath.Rel] for the paths under [app]. *)
Definition relToApp (base target : string) : string * option error :=
  if String.eqb target base then (".", None)
  else (substring (S (String.length base)) (String.length target) target, None).

Definition disk : s2i.FileSystem := s2i.mkFileSystem (fun _ => workspaceTree) relToApp.

Definition rubyApp : v1alpha2.Artifact :=
  v1alpha2.mkArtifact "web" "app"
    (v1alpha2.mkArtifactType None None (Some (v1alpha2.mkBazelArtifact "ruby"))).

(** * Properties *)

Section Properties.

Context {ObjectMetaRest LanguageRest ContextRest : Type}.

Local Abbreviation BuildJob := (@BuildJob ObjectMetaRest LanguageRest ContextRest).
Local Abbreviation World := (@World ObjectMetaRest LanguageRest ContextRest).
Local Abbreviation Oracle := (@Oracle ObjectMetaRest LanguageRest ContextRest).
Local Abbreviation Event := (@Event ObjectMetaRest LanguageRest ContextRest).

(** ** Formatting *)

Lemma to_int_proper (z : Z) : Z.to_int z <> Pos Nil /\ Z.to_int z <> Neg Nil.
Proof.
  destruct z as [|p|p]; cbn; split; try discriminate;
    intros H; injection H as H; exact (DecimalPos.Unsigned.to_uint_nonnil p H).
Qed.

Lemma fmt_d_inj (a b : Z) : fmt_d a = fmt_d b -> a = b.
Proof.
  unfold fmt_d. intros H.
  apply (f_equal NilZero.int_of_string) in H.
  destruct (to_int_proper a) as [Ha1 Ha2], (to_int_proper b) as [Hb1 Hb2].
  rewrite !NilZero.isi in H by assumption.
  injection H as H.
  apply (f_equal Z.of_int) in H. now rewrite !DecimalZ.of_to in H.
Qed.

Lemma length_append (a b : string) :
  String.length (a ++ b) = (String.length a + String.length b)%nat.
Proof. induction a as [|c a IH]; cbn; [reflexivity | now rewrite IH]. Qed.

Lemma append_inj_same_tail_length (a1 a2 b1 b2 : string) :
  String.length b1 = String.length b2 ->
  (a1 ++ b1 = a2 ++ b2)%string -> a1 = a2 /\ b1 = b2.
Proof.
  revert a2. induction a1 as [|c a1 IH]; intros [|c2 a2] Hlen H; cbn in H.
  - now split.
  - subst b1. cbn in Hlen. rewrite length_append in Hlen. lia.
  - subst b2. cbn in Hlen. rewrite length_append in Hlen. lia.
  - injection H as -> H. destruct (IH a2 Hlen H) as [-> ->]. now split.
Qed.

Lemma slice_to_length (n : nat) (s p : string) :
  slice_to n s = Some p -> String.length p = n.
Proof.
  revert s p. induction n as [|n IH]; intros s p H; cbn in H.
  - now injection H as <-.
  - destruct s as [|c s]; [discriminate|].
    destruct (slice_to n s) as [q|] eqn:E; [|discriminate].
    injection H as <-. cbn. now rewrite (IH _ _ E).
Qed.

Lemma slice_to_one (s : string) : s <> "" -> exists c, slice_to 1 s = Some c.
Proof. destruct s as [|c s]; [congruence|]. intros _. now exists (String c ""). Qed.

Lemma sprintf_skaffold_inj (n1 n2 : Z) (c1 c2 : string) :
  String.length c1 = String.length c2 ->
  sprintf_skaffold n1 c1 = sprintf_skaffold n2 c2 -> n1 = n2 /\ c1 = c2.
Proof.
  unfold sprintf_skaffold. intros Hlen H. cbn in H.
  injection H as H.
  apply append_inj_same_tail_length in H; [|cbn; now rewrite Hlen].
  destruct H as [Hd Hc]. injection Hc as ->.
  split; [now apply fmt_d_inj | reflexivity].
Qed.

Lemma sprintf_skaffold_nonempty (n : Z) (c : string) : sprintf_skaffold n c <> "".
Proof. unfold sprintf_skaffold. cbn. discriminate. Qed.

Lemma orDefault_set (current default : string) :
  current <> "" -> orDefault current default = current.
Proof. intros H. apply String.eqb_neq in H. unfold orDefault. now rewrite H. Qed.

(** ** [Fulfill], run *)

Ltac open_world w :=
  destruct w as [tr [[[k av] [nm mr] [[tg ps sr] [lk lr] [ck h cr] sel] st]] x jb].

Ltac step := cbn -[slice_to sprintf_skaffold String.eqb].

Ltac unfold_fulfill :=
  unfold Fulfill, bind, assign, getTemplate, setTemplate, ret, fulfilled, halfFulfilled,
    orDefault, apiVersionOf, kindOf, languageKindOf, UnixNano, RandomID, ask, slice,
    emit, panic, SchemeGroupVersion, LanguageKindDockerfile, ContextKindHTTP.

(** A template that has a name: nothing is asked of the surroundings. *)
Lemma Fulfill_named (env : Oracle) (imageName url : string) (w : World) :
  nameOf (templateOf w) <> "" ->
  Fulfill env imageName url w =
    (Ret None,
     mkWorld (trace w)
       (mkTemplate (fulfilled (nameOf (templateOf w)) imageName url (templateOf w)))
       (nginx w) (job w)).
Proof.
  intros Hn. open_world w. unfold nameOf, templateOf in *.
  cbn [trace template nginx job bj BuildJob_ObjectMeta ObjectMeta_Name] in *.
  apply String.eqb_neq in Hn.
  unfold_fulfill. step.
  destruct (String.eqb av "") eqn:E1; step;
    destruct (String.eqb k "") eqn:E2; step;
    rewrite Hn; step;
    destruct (String.eqb lk "") eqn:E3; step; reflexivity.
Qed.

(** A template without a name: the clock and the random source are read. *)
Lemma Fulfill_unnamed (env : Oracle) (imageName url : string) (w : World) (c : string) :
  nameOf (templateOf w) = "" ->
  slice_to 1 (o_randomID env (S (moment w))) = Some c ->
  Fulfill env imageName url w =
    (Ret None,
     mkWorld (trace w ++ [EvUnixNano (o_unixNano env (moment w));
                          EvRandomID (o_randomID env (S (moment w)))])
       (mkTemplate (fulfilled (sprintf_skaffold (o_unixNano env (moment w)) c)
                      imageName url (templateOf w)))
       (nginx w) (job w)).
Proof.
  intros Hn Hs. open_world w. unfold nameOf, templateOf, moment in *.
  cbn [trace template nginx job bj BuildJob_ObjectMeta ObjectMeta_Name] in *. subst nm.
  unfold_fulfill. step.
  destruct (String.eqb av "") eqn:E1; step;
    destruct (String.eqb k "") eqn:E2; step;
    rewrite String.eqb_refl; step;
    rewrite ?length_app; step; rewrite ?Nat.add_1_r; rewrite Hs; step;
    destruct (String.eqb lk "") eqn:E3; step; rewrite <- ?app_assoc; reflexivity.
Qed.

(** A template without a name and an empty random identifier: the slice
    panics after the first two defaults. *)
Lemma Fulfill_stuck (env : Oracle) (imageName url : string) (w : World) :
  nameOf (templateOf w) = "" ->
  slice_to 1 (o_randomID env (S (moment w))) = None ->
  Fulfill env imageName url w =
    (Panic "slice bounds out of range",
     mkWorld (trace w ++ [EvUnixNano (o_unixNano env (moment w));
                          EvRandomID (o_randomID env (S (moment w)))])
       (mkTemplate (halfFulfilled (templateOf w)))
       (nginx w) (job w)).
Proof.
  intros Hn Hs. open_world w. unfold nameOf, templateOf, moment in *.
  cbn [trace template nginx job bj BuildJob_ObjectMeta ObjectMeta_Name] in *. subst nm.
  unfold_fulfill. step.
  destruct (String.eqb av "") eqn:E1; step;
    destruct (String.eqb k "") eqn:E2; step;
    rewrite String.eqb_refl; step;
    rewrite ?length_app; step; rewrite ?Nat.add_1_r; rewrite Hs; step;
    rewrite <- ?app_assoc; reflexivity.
Qed.

(** [Fulfill] returns, with a [nil] error, whenever the name can be drawn. *)
Lemma Fulfill_returns (env : Oracle) (imageName url : string) (w : World) :
  nameCanBeDrawn env w ->
  exists name suffix,
    Fulfill env imageName url w =
      (Ret None,
       mkWorld (trace w ++ suffix)
         (mkTemplate (fulfilled name imageName url (templateOf w))) (nginx w) (job w)) /\
    (nameOf (templateOf w) <> "" -> name = nameOf (templateOf w) /\ suffix = []).
Proof.
  intros Hdraw.
  destruct (string_dec (nameOf (templateOf w)) "") as [Hn|Hn].
  - destruct Hdraw as [Hd|Hd]; [congruence|].
    destruct (slice_to_one _ Hd) as [c Hc].
    eexists _, _. split; [apply (Fulfill_unnamed _ _ _ _ _ Hn Hc)|]. congruence.
  - exists (nameOf (templateOf w)), []. rewrite app_nil_r.
    split; [now apply Fulfill_named | now split].
Qed.

(** ** The job description builder *)

(** C3: on every template, whatever its registry target, push flag and
    context source hold, [Fulfill imageName httpContextURL] returns with
    [spec.registry.target] equal to [imageName], [spec.registry.push] true,
    [spec.context.kind] ["HTTP"] and [spec.context.http.url] equal to
    [httpContextURL].  (The call returns whenever the name it may have to
    generate can be drawn from the random source.) *)
Theorem Fulfill_overrides (env : Oracle) (imageName httpContextURL : string) (w : World) :
  nameCanBeDrawn env w ->
  exists w',
    Fulfill env imageName httpContextURL w = (Ret None, w') /\
    targetOf (templateOf w') = imageName /\
    pushOf (templateOf w') = true /\
    contextKindOf (templateOf w') = "HTTP" /\
    contextURLOf (templateOf w') = httpContextURL.
Proof.
  intros Hdraw.
  destruct (Fulfill_returns env imageName httpContextURL w Hdraw) as (name & suffix & Hrun & _).
  eexists. split; [exact Hrun|]. now repeat split.
Qed.

(** C4 (as the code has it): on a template whose API version, kind, name
    and language kind are unset, [Fulfill] sets kind ["BuildJob"], language
    kind ["Dockerfile"], the target image, push, context kind ["HTTP"] and
    the context URL, and assigns the name [skaffold-<clock>-<first byte of
    the random identifier>]: it is not empty, but it is unique only as far
    as the clock and the random source make it so: two fulfilled templates
    carry the same generated name exactly when their clock readings and
    random bytes agree.  Each of the four defaults is applied only to an
    unset field: a field that holds a value keeps it. *)
Theorem Fulfill_empty_template (env : Oracle) (targetImage contextURL : string) (w : World) :
  apiVersionOf (templateOf w) = "" ->
  kindOf (templateOf w) = "" ->
  nameOf (templateOf w) = "" ->
  languageKindOf (templateOf w) = "" ->
  o_randomID env (S (moment w)) <> "" ->
  exists w' c,
    Fulfill env targetImage contextURL w = (Ret None, w') /\
    slice_to 1 (o_randomID env (S (moment w))) = Some c /\
    apiVersionOf (templateOf w') = "cbi.containerbuilding.github.io/v1alpha1" /\
    kindOf (templateOf w') = "BuildJob" /\
    languageKindOf (templateOf w') = "Dockerfile" /\
    targetOf (templateOf w') = targetImage /\
    pushOf (templateOf w') = true /\
    contextKindOf (templateOf w') = "HTTP" /\
    contextURLOf (templateOf w') = contextURL /\
    nameOf (templateOf w') = sprintf_skaffold (o_unixNano env (moment w)) c /\
    nameOf (templateOf w') <> "" /\
    (forall (env2 : Oracle) (image2 url2 : string) (w2 w2' : World),
        nameOf (templateOf w2) = "" ->
        Fulfill env2 image2 url2 w2 = (Ret None, w2') ->
        nameOf (templateOf w2') = nameOf (templateOf w') ->
        o_unixNano env2 (moment w2) = o_unixNano env (moment w) /\
        slice_to 1 (o_randomID env2 (S (moment w2))) = Some c) /\
    (forall (env3 : Oracle) (image3 url3 : string) (w3 w3' : World),
        Fulfill env3 image3 url3 w3 = (Ret None, w3') ->
        (apiVersionOf (templateOf w3) <> "" ->
           apiVersionOf (templateOf w3') = apiVersionOf (templateOf w3)) /\
        (kindOf (templateOf w3) <> "" -> kindOf (templateOf w3') = kindOf (templateOf w3)) /\
        (nameOf (templateOf w3) <> "" -> nameOf (templateOf w3') = nameOf (templateOf w3)) /\
        (languageKindOf (templateOf w3) <> "" ->
           languageKindOf (templateOf w3') = languageKindOf (templateOf w3))).
Proof.
  intros Hav Hk Hn Hlk Hid.
  destruct (slice_to_one _ Hid) as [c Hc].
  pose proof (Fulfill_unnamed env targetImage contextURL w c Hn Hc) as Hrun.
  eexists _, c. split; [exact Hrun|]. split; [exact Hc|].
  assert (Hdefaults :
    orDefault (apiVersionOf (templateOf w)) "cbi.containerbuilding.github.io/v1alpha1" =
      "cbi.containerbuilding.github.io/v1alpha1" /\
    orDefault (kindOf (templateOf w)) "BuildJob" = "BuildJob" /\
    orDefault (languageKindOf (templateOf w)) "Dockerfile" = "Dockerfile")
    by (rewrite Hav, Hk, Hlk; now repeat split).
  destruct Hdefaults as (Hd1 & Hd2 & Hd3).
  repeat (split; [first [exact Hd1 | exact Hd2 | exact Hd3 | reflexivity]|]).
  split; [apply sprintf_skaffold_nonempty|]. split.
  - intros env2 image2 url2 w2 w2' Hn2 Hrun2 Hsame.
    destruct (slice_to 1 (o_randomID env2 (S (moment w2)))) as [c2|] eqn:Hc2.
    + rewrite (Fulfill_unnamed env2 image2 url2 w2 c2 Hn2 Hc2) in Hrun2.
      injection Hrun2 as <-. unfold templateOf in Hsame. cbn in Hsame.
      apply sprintf_skaffold_inj in Hsame.
      * destruct Hsame as [-> ->]. now split.
      * now rewrite (slice_to_length _ _ _ Hc2), (slice_to_length _ _ _ Hc).
    + rewrite (Fulfill_stuck env2 image2 url2 w2 Hn2 Hc2) in Hrun2. discriminate.
  - intros env3 image3 url3 w3 w3' Hrun3.
    assert (Hshape : exists name,
               templateOf w3' = fulfilled name image3 url3 (templateOf w3) /\
               (nameOf (templateOf w3) <> "" -> name = nameOf (templateOf w3))).
    { destruct (string_dec (nameOf (templateOf w3)) "") as [Hn3|Hn3].
      - destruct (slice_to 1 (o_randomID env3 (S (moment w3)))) as [c3|] eqn:Hc3.
        + rewrite (Fulfill_unnamed env3 image3 url3 w3 c3 Hn3 Hc3) in Hrun3.
          injection Hrun3 as <-. eexists. split; [reflexivity | congruence].
        + rewrite (Fulfill_stuck env3 image3 url3 w3 Hn3 Hc3) in Hrun3. discriminate.
      - rewrite (Fulfill_named env3 image3 url3 w3 Hn3) in Hrun3.
        injection Hrun3 as <-. eexists. split; [reflexivity | congruence]. }
    destruct Hshape as (name & -> & Hname).
    repeat split; intros Hset.
    + change (orDefault (apiVersionOf (templateOf w3)) "cbi.containerbuilding.github.io/v1alpha1"
              = apiVersionOf (templateOf w3)).
      now apply orDefault_set.
    + change (orDefault (kindOf (templateOf w3)) "BuildJob" = kindOf (templateOf w3)).
      now apply orDefault_set.
    + now apply Hname.
    + change (orDefault (languageKindOf (templateOf w3)) "Dockerfile"
              = languageKindOf (templateOf w3)).
      now apply orDefault_set.
Qed.

(** C9: [Fulfill] leaves [spec.registry.secretRef.name] as it found it, and
    with it every component of the job description other than [apiVersion],
    [kind], [metadata.name], [spec.language.kind], [spec.registry.target],
    [spec.registry.push] and the context's kind and HTTP source; this holds
    of the template the call leaves behind on every outcome. *)
Theorem Fulfill_frame (env : Oracle) (imageName httpContextURL : string) (w : World) :
  secretRefNameOf (templateOf (snd (Fulfill env imageName httpContextURL w))) =
    secretRefNameOf (templateOf w) /\
  sameElsewhere (templateOf w) (templateOf (snd (Fulfill env imageName httpContextURL w))) /\
  nginx (snd (Fulfill env imageName httpContextURL w)) = nginx w /\
  job (snd (Fulfill env imageName httpContextURL w)) = job w.
Proof.
  destruct (string_dec (nameOf (templateOf w)) "") as [Hn|Hn].
  - destruct (slice_to 1 (o_randomID env (S (moment w)))) as [c|] eqn:Hc.
    + rewrite (Fulfill_unnamed env imageName httpContextURL w c Hn Hc).
      unfold sameElsewhere. now repeat split.
    + rewrite (Fulfill_stuck env imageName httpContextURL w Hn Hc).
      unfold sameElsewhere. now repeat split.
  - rewrite (Fulfill_named env imageName httpContextURL w Hn).
    unfold sameElsewhere. now repeat split.
Qed.

(** ** The version check of [GetBuildJobTemplate] *)

Lemma scanAPIVersion_declared (items : MapSlice) :
  scanAPIVersion items =
    match declaredAPIVersion items with
    | None => None
    | Some (VString v) =>
        if String.eqb v SchemeGroupVersion then None
        else Some (Errorf "expected %q, got %q" [ArgString SchemeGroupVersion; ArgString v])
    | Some _ => Some (Errorf "got non-string apiVersion: %v" [ArgString ""])
    end.
Proof.
  unfold declaredAPIVersion.
  induction items as [|item rest IH]; [reflexivity|].
  cbn [scanAPIVersion find]. unfold isAPIVersionKey at 1.
  destruct (Key item) as [| | |k| |]; try exact IH.
  destruct (String.eqb k "apiVersion"); cbn [negb option_map]; [|exact IH].
  now destruct (Value item).
Qed.

Lemma declaredAPIVersion_absent (items : MapSlice) :
  (forall item, In item items -> Key item <> VString "apiVersion") ->
  declaredAPIVersion items = None.
Proof.
  intros Hno. unfold declaredAPIVersion.
  destruct (find isAPIVersionKey items) as [item|] eqn:E; [|reflexivity].
  apply find_some in E. destruct E as [Hin Hkey].
  exfalso. apply (Hno item Hin).
  unfold isAPIVersionKey in Hkey.
  destruct (Key item) as [| | |k| |]; try discriminate.
  apply String.eqb_eq in Hkey. now subst k.
Qed.

Lemma GetBuildJobTemplate_passed (env : Oracle) (p : CBIBuild) :
  scanAPIVersion (BuildJobTemplate p) = None ->
  GetBuildJobTemplate env p = v1alpha1Case env p.
Proof.
  intros Hscan. unfold GetBuildJobTemplate, v1alpha1Case. rewrite Hscan.
  destruct (yaml_Marshal env (BuildJobTemplate p)) as [b [e|]]; [reflexivity|].
  now destruct (yaml_UnmarshalStrict env b) as [j [e|]].
Qed.

Lemma GetBuildJobTemplate_rejected (env : Oracle) (p : CBIBuild) (e : error) :
  scanAPIVersion (BuildJobTemplate p) = Some e ->
  (exists e', GetBuildJobTemplate env p = inr e') /\
  (snd (yaml_Marshal env (BuildJobTemplate p)) = None -> GetBuildJobTemplate env p = inr e).
Proof.
  intros Hscan. unfold GetBuildJobTemplate. rewrite Hscan.
  destruct (yaml_Marshal env (BuildJobTemplate p)) as [b [e0|]]; cbn [snd].
  - split; [now exists e0 | discriminate].
  - split; [now exists e | reflexivity].
Qed.

(** C10: a template without an item under the string key ["apiVersion"]
    passes the version check of [GetBuildJobTemplate] and is handled by the
    case [v1alpha1], whose template answers [APIVersion()] with
    ["cbi.containerbuilding.github.io/v1alpha1"]; so is a template that
    declares exactly that version; a template declaring another string is
    rejected with an error ("expected ..., got ..."), and one declaring a
    value that is not a string is rejected with an error ("got non-string
    apiVersion"). *)
Theorem GetBuildJobTemplate_version_check (env : Oracle) (p : CBIBuild) :
  ((forall item, In item (BuildJobTemplate p) -> Key item <> VString "apiVersion") ->
     scanAPIVersion (BuildJobTemplate p) = None /\
     GetBuildJobTemplate env p = v1alpha1Case env p /\
     (forall b j,
         yaml_Marshal env (BuildJobTemplate p) = (b, None) ->
         yaml_UnmarshalStrict env b = (j, None) ->
         GetBuildJobTemplate env p = inl (mkTemplate j))) /\
  (forall t,
      GetBuildJobTemplate env p = inl t ->
      APIVersion t = "cbi.containerbuilding.github.io/v1alpha1") /\
  (declaredAPIVersion (BuildJobTemplate p) =
     Some (VString "cbi.containerbuilding.github.io/v1alpha1") ->
     GetBuildJobTemplate env p = v1alpha1Case env p) /\
  (forall v,
      declaredAPIVersion (BuildJobTemplate p) = Some (VString v) ->
      v <> "cbi.containerbuilding.github.io/v1alpha1" ->
      (exists e, GetBuildJobTemplate env p = inr e) /\
      (snd (yaml_Marshal env (BuildJobTemplate p)) = None ->
       GetBuildJobTemplate env p =
         inr (Errorf "expected %q, got %q"
                [ArgString "cbi.containerbuilding.github.io/v1alpha1"; ArgString v]))) /\
  (forall x,
      declaredAPIVersion (BuildJobTemplate p) = Some x ->
      (forall v, x <> VString v) ->
      (exists e, GetBuildJobTemplate env p = inr e) /\
      (snd (yaml_Marshal env (BuildJobTemplate p)) = None ->
       GetBuildJobTemplate env p =
         inr (Errorf "got non-string apiVersion: %v" [ArgString ""]))).
Proof.
  pose proof (scanAPIVersion_declared (BuildJobTemplate p)) as Hscan.
  repeat split.
  - rewrite Hscan, declaredAPIVersion_absent; auto.
  - apply GetBuildJobTemplate_passed.
    rewrite Hscan, declaredAPIVersion_absent; auto.
  - intros b j Hm Hu.
    rewrite GetBuildJobTemplate_passed
      by (rewrite Hscan, declaredAPIVersion_absent; auto).
    unfold v1alpha1Case. now rewrite Hm, Hu.
  - intros Hdecl. apply GetBuildJobTemplate_passed. now rewrite Hscan, Hdecl.
  - apply (GetBuildJobTemplate_rejected env p
             (Errorf "expected %q, got %q" [ArgString SchemeGroupVersion; ArgString v])).
    rewrite Hscan, H. apply String.eqb_neq in H0. unfold SchemeGroupVersion. now rewrite H0.
  - apply (GetBuildJobTemplate_rejected env p
             (Errorf "expected %q, got %q" [ArgString SchemeGroupVersion; ArgString v])).
    rewrite Hscan, H. apply String.eqb_neq in H0. unfold SchemeGroupVersion. now rewrite H0.
  - apply (GetBuildJobTemplate_rejected env p
             (Errorf "got non-string apiVersion: %v" [ArgString ""])).
    rewrite Hscan, H. destruct x; try reflexivity. now destruct (H0 s).
  - apply (GetBuildJobTemplate_rejected env p
             (Errorf "got non-string apiVersion: %v" [ArgString ""])).
    rewrite Hscan, H. destruct x; try reflexivity. now destruct (H0 s).
Qed.

(** ** Polling *)

Lemma moment_emit (e : Event) (w : World) : moment (emit e w) = S (moment w).
Proof. unfold moment, emit. cbn. rewrite length_app. cbn. lia. Qed.

Lemma PollImmediate_WaitFor (env : Oracle) (interval timeout : Z)
      (condition : ConditionFunc) (w : World) :
  PollImmediate env interval timeout condition w =
    WaitFor (S (poller interval timeout (o_ticks env (moment w)))) condition w.
Proof. reflexivity. Qed.

Section Conditions.

(** A condition that always returns: [verdict] is what it answers in a
    world and [next] the world it leaves. *)
Variable fn : @ConditionFunc ObjectMetaRest LanguageRest ContextRest.
Variable verdict : World -> bool * option error.
Variable next : World -> World.
Hypothesis fn_runs : forall w, fn w = (Ret (verdict w), next w).

Lemma WaitFor_step (ticks : nat) (w : World) :
  WaitFor ticks fn w =
    match verdict w with
    | (_, Some e) => (Ret (Some e), next w)
    | (true, None) => (Ret None, next w)
    | (false, None) =>
        match ticks with
        | O => (Ret (Some ErrWaitTimeout), next w)
        | S n => WaitFor n fn (next w)
        end
    end.
Proof.
  destruct ticks; cbn [WaitFor]; unfold bind; rewrite fn_runs;
    destruct (verdict w) as [[|] [e|]]; reflexivity.
Qed.

Lemma after_next (k : nat) (w : World) : after next k (next w) = after next (S k) w.
Proof.
  unfold after. symmetry. apply Nat.iter_succ_r.
Qed.

(** The first verdict that is not "not yet" ends the wait. *)
Lemma WaitFor_decided (ticks k : nat) (w : World) :
  (k <= ticks)%nat ->
  (forall j, (j < k)%nat -> verdict (after next j w) = (false, None)) ->
  verdict (after next k w) <> (false, None) ->
  WaitFor ticks fn w = (Ret (resolve (verdict (after next k w))), after next (S k) w).
Proof.
  revert ticks w. induction k as [|k IH]; intros ticks w Hle Hpending Hdecided.
  - rewrite WaitFor_step.
    change (after next 0 w) with w in *. change (after next 1 w) with (next w).
    unfold resolve.
    destruct (verdict w) as [[|] [e|]]; cbn [snd]; try reflexivity. congruence.
  - destruct ticks as [|ticks]; [lia|].
    rewrite WaitFor_step. change w with (after next 0 w) at 1.
    rewrite (Hpending 0%nat) by lia.
    rewrite <- (after_next (S k) w), <- (after_next k w).
    apply IH; [lia| |now rewrite after_next].
    intros j Hj. rewrite after_next. apply Hpending. lia.
Qed.

(** When every verdict is "not yet", the closed channel ends the wait. *)
Lemma WaitFor_timeout (ticks : nat) (w : World) :
  (forall j, (j <= ticks)%nat -> verdict (after next j w) = (false, None)) ->
  WaitFor ticks fn w = (Ret (Some ErrWaitTimeout), after next (S ticks) w).
Proof.
  revert w. induction ticks as [|ticks IH]; intros w Hpending.
  - rewrite WaitFor_step. change w with (after next 0 w) at 1.
    now rewrite (Hpending 0%nat) by lia.
  - rewrite WaitFor_step. change w with (after next 0 w) at 1.
    rewrite (Hpending 0%nat) by lia.
    rewrite <- (after_next (S ticks) w). apply IH.
    intros j Hj. rewrite after_next. apply Hpending. lia.
Qed.

(** Below any bound, either every verdict is "not yet" or there is a first
    one that is not. *)
Lemma first_decided (bound : nat) (w : World) :
  (forall j, (j <= bound)%nat -> verdict (after next j w) = (false, None)) \/
  (exists k, (k <= bound)%nat /\
             (forall j, (j < k)%nat -> verdict (after next j w) = (false, None)) /\
             verdict (after next k w) <> (false, None)).
Proof.
  induction bound as [|bound [IH|(k & Hk & Hpending & Hdecided)]].
  - destruct (verdict (after next 0 w)) as [[|] [e|]] eqn:E.
    1-3: right; exists 0%nat; repeat split; [lia | intros; lia | congruence].
    left. intros j Hj. now replace j with 0%nat by lia.
  - destruct (verdict (after next (S bound) w)) as [[|] [e|]] eqn:E.
    1-3: right; exists (S bound); repeat split; [lia | intros; apply IH; lia | congruence].
    left. intros j Hj. destruct (Nat.eq_dec j (S bound)) as [->|]; [exact E | apply IH; lia].
  - right. exists k. repeat split; [lia | exact Hpending | exact Hdecided].
Qed.

End Conditions.

(** ** The completion poll *)

Section Completion.

Variable env : Oracle.
Variable jobName : string.

Lemma moment_after_polled (k : nat) (w : World) :
  moment (after (polled env jobName) k w) = (moment w + k)%nat.
Proof.
  unfold after. induction k as [|k IH]; [cbn; lia|].
  rewrite Nat.iter_succ. unfold polled at 1. rewrite moment_emit, IH. lia.
Qed.

Lemma completionVerdict_pending (r : Job * option error) :
  completionVerdict jobName r = (false, None) <-> jobPending r.
Proof.
  unfold completionVerdict, jobPending. destruct r as [j [e|]]; cbn [fst snd].
  - split; [discriminate | intros [? _]; discriminate].
  - destruct (JobStatus_CompletionTime (Job_Status j)) as [t|].
    + destruct (Z.eqb (JobStatus_Failed (Job_Status j)) 0);
        (split; [discriminate | intros [_ ?]; discriminate]).
    + now split.
Qed.

Lemma completionVerdict_succeeded (r : Job * option error) :
  completionVerdict jobName r = (true, None) <-> jobSucceeded r.
Proof.
  unfold completionVerdict, jobSucceeded. destruct r as [j [e|]]; cbn [fst snd].
  - split; [discriminate | intros [? _]; discriminate].
  - destruct (JobStatus_CompletionTime (Job_Status j)) as [t|].
    + destruct (Z.eqb_spec (JobStatus_Failed (Job_Status j)) 0) as [Hz|Hz].
      * split; [intros _; now repeat split | reflexivity].
      * split; [discriminate | intros (_ & _ & ?); contradiction].
    + split; [discriminate | intros (_ & ? & _); contradiction].
Qed.

Lemma completionVerdict_failed (r : Job * option error) :
  jobFailed r ->
  completionVerdict jobName r =
    (true, Some (Errorf "job failed: %+v" [ArgJobStatus (Job_Status (fst r))])).
Proof.
  unfold completionVerdict, jobFailed. destruct r as [j [e|]]; cbn [fst snd].
  - intros [? _]; discriminate.
  - intros (_ & Hc & Hf).
    destruct (JobStatus_CompletionTime (Job_Status j)) as [t|]; [|contradiction].
    destruct (Z.eqb_spec (JobStatus_Failed (Job_Status j)) 0) as [Hz|Hz]; [lia | reflexivity].
Qed.

Lemma waitJobCompletion_WaitFor (w : World) :
  exists fn : ConditionFunc,
    (forall w', fn w' = (Ret (completionVerdict jobName (o_jobGet env (moment w'))), polled env jobName w')) /\
    waitJobCompletion env jobName w =
      WaitFor (S (poller (Millisecond * 500) (Minute * 60) (o_ticks env (moment w)))) fn w.
Proof.
  eexists. split; [|unfold waitJobCompletion; apply PollImmediate_WaitFor].
  intros w'. unfold bind, ask, ret, completionVerdict, polled, moment.
  destruct (o_jobGet env (List.length (trace w'))) as [j [e|]]; cbn [fst snd]; [reflexivity|].
  destruct (JobStatus_CompletionTime (Job_Status j)); [|reflexivity].
  now destruct (Z.eqb (JobStatus_Failed (Job_Status j)) 0).
Qed.

(** C5: the completion poll ([waitJobCompletion]: every 500 ms, for at most
    60 minutes, hence at most 7200 ticks after the immediate first try)
    returns [nil] exactly when, after fetches that showed no completion
    time, a fetch shows a completion time and no failure; it returns the
    error "job failed" carrying the fetched status when that fetch shows a
    completion time and one or more failures; and it returns
    [ErrWaitTimeout] when no fetch it makes shows a completion time. *)
Theorem waitJobCompletion_resolves (w : World) :
  let n := poller (Millisecond * 500) (Minute * 60) (o_ticks env (moment w)) in
  let fetch := fun j : nat => o_jobGet env (moment w + j)%nat in
  (fst (waitJobCompletion env jobName w) = Ret None <->
   exists k, (k <= S n)%nat /\
             (forall j, (j < k)%nat -> jobPending (fetch j)) /\ jobSucceeded (fetch k)) /\
  (forall k, (k <= S n)%nat ->
             (forall j, (j < k)%nat -> jobPending (fetch j)) ->
             jobFailed (fetch k) ->
             fst (waitJobCompletion env jobName w) =
               Ret (Some (Errorf "job failed: %+v"
                            [ArgJobStatus (Job_Status (fst (fetch k)))]))) /\
  ((forall j, (j <= S n)%nat -> jobPending (fetch j)) ->
   fst (waitJobCompletion env jobName w) = Ret (Some ErrWaitTimeout) /\
   moment (snd (waitJobCompletion env jobName w)) = (moment w + n + 2)%nat) /\
  Z.of_nat n <= 7200 /\
  Millisecond * 500 = 500 * 1000000 /\
  Minute * 60 = 60 * (60 * (1000 * 1000000)).
Proof.
  intros n fetch.
  destruct (waitJobCompletion_WaitFor w) as (fn & Hfn & Hrun).
  fold n in Hrun. rewrite Hrun.
  set (verdict := fun w' : World => completionVerdict jobName (o_jobGet env (moment w'))) in *.
  assert (Hat : forall j, verdict (after (polled env jobName) j w) = completionVerdict jobName (fetch j))
    by (intros j; unfold verdict, fetch; now rewrite moment_after_polled).
  assert (Hdecide : forall k, (k <= S n)%nat ->
            (forall j, (j < k)%nat -> jobPending (fetch j)) ->
            ~ jobPending (fetch k) ->
            WaitFor (S n) fn w =
              (Ret (resolve (completionVerdict jobName (fetch k))), after (polled env jobName) (S k) w)).
  { intros k Hk Hpending Hdecided. rewrite <- Hat.
    apply (WaitFor_decided fn verdict (polled env jobName) Hfn); [exact Hk | |].
    - intros j Hj. rewrite Hat. now apply completionVerdict_pending, Hpending.
    - rewrite Hat. intros Hv. exact (Hdecided (proj1 (completionVerdict_pending _) Hv)). }
  assert (Hexpire : (forall j, (j <= S n)%nat -> jobPending (fetch j)) ->
            WaitFor (S n) fn w = (Ret (Some ErrWaitTimeout), after (polled env jobName) (S (S n)) w)).
  { intros Hpending. apply (WaitFor_timeout fn verdict (polled env jobName) Hfn).
    intros j Hj. rewrite Hat. now apply completionVerdict_pending, Hpending. }
  repeat split.
  - intros Hnil.
    destruct (first_decided verdict (polled env jobName) (S n) w) as [Hall|(k & Hk & Hpending & Hdecided)].
    + rewrite Hexpire in Hnil; [discriminate|].
      intros j Hj. apply completionVerdict_pending. rewrite <- Hat. now apply Hall.
    + assert (Hp : forall j, (j < k)%nat -> jobPending (fetch j))
        by (intros j Hj; apply completionVerdict_pending; rewrite <- Hat; now apply Hpending).
      assert (Hd : ~ jobPending (fetch k))
        by (intros Hq; apply Hdecided; rewrite Hat; now apply completionVerdict_pending).
      rewrite (Hdecide k Hk Hp Hd) in Hnil. cbn [fst] in Hnil.
      assert (Hv : completionVerdict jobName (fetch k) = (true, None)).
      { destruct (completionVerdict jobName (fetch k)) as [[|] [e|]] eqn:E;
          unfold resolve in Hnil; cbn [snd] in Hnil; try discriminate; [reflexivity|].
        exfalso. apply Hd. apply completionVerdict_pending. exact E. }
      exists k. split; [exact Hk|]. split; [exact Hp|].
      apply completionVerdict_succeeded. exact Hv.
  - intros (k & Hk & Hpending & Hok).
    rewrite (Hdecide k Hk Hpending).
    + apply completionVerdict_succeeded in Hok. now rewrite Hok.
    + intros [_ Hq]. now destruct Hok as (_ & Hc & _).
  - intros k Hk Hpending Hfail.
    rewrite (Hdecide k Hk Hpending).
    + now rewrite (completionVerdict_failed _ Hfail).
    + intros [_ Hq]. now destruct Hfail as (_ & Hc & _).
  - now rewrite Hexpire.
  - rewrite Hexpire by assumption. cbn [snd]. rewrite moment_after_polled. lia.
  - unfold n, poller.
    change (Minute * 60 / (Millisecond * 500)) with 7200. lia.
Qed.

End Completion.

(** ** What a computation appends to the trace *)

Local Open Scope list_scope.

Section Appending.

Variable P : Event -> Prop.

Lemma appends_ret {A} (a : A) : appends P (ret a).
Proof. intros w. exists []. cbn. now rewrite app_nil_r. Qed.

Lemma appends_panic {A} (reason : string) : appends P (@panic _ _ _ A reason).
Proof. intros w. exists []. cbn. now rewrite app_nil_r. Qed.

Lemma appends_bind {A B} (m : M A) (f : A -> M B) :
  appends P m -> (forall a, appends P (f a)) -> appends P (bind m f).
Proof.
  intros Hm Hf w. unfold bind.
  destruct (Hm w) as (s1 & H1 & HP1).
  destruct (m w) as [[a|reason] w1]; cbn [snd] in *.
  - destruct (Hf a w1) as (s2 & H2 & HP2).
    exists (s1 ++ s2). rewrite H2, H1, app_assoc.
    split; [reflexivity | now apply Forall_app].
  - now exists s1.
Qed.

Lemma appends_defer {A B} (cleanup : M B) (body : M A) :
  appends P cleanup -> appends P body -> appends P (defer cleanup body).
Proof.
  intros Hc Hb w. unfold defer.
  destruct (Hb w) as (s1 & H1 & HP1).
  destruct (body w) as [r w1]; cbn [snd] in *.
  destruct (Hc w1) as (s2 & H2 & HP2).
  exists (s1 ++ s2).
  destruct (cleanup w1) as [[b|reason] w2]; cbn [snd] in *;
    rewrite H2, H1, app_assoc; (split; [reflexivity | now apply Forall_app]).
Qed.

Lemma appends_ask {R} (answer : nat -> R) (ev : R -> Event) :
  (forall r, P (ev r)) -> appends P (ask answer ev).
Proof. intros Hev w. eexists [_]. cbn. split; [reflexivity | now constructor]. Qed.

Lemma appends_tell (e : Event) : P e -> appends P (tell e).
Proof. intros He w. exists [e]. cbn. split; [reflexivity | now constructor]. Qed.

Lemma appends_getTemplate : appends P getTemplate.
Proof. intros w. exists []. cbn. now rewrite app_nil_r. Qed.

Lemma appends_setTemplate t : appends P (setTemplate t).
Proof. intros w. exists []. cbn. now rewrite app_nil_r. Qed.

Lemma appends_getNginx : appends P getNginx.
Proof. intros w. exists []. cbn. now rewrite app_nil_r. Qed.

Lemma appends_setNginx x : appends P (setNginx x).
Proof. intros w. exists []. cbn. now rewrite app_nil_r. Qed.

Lemma appends_getJob : appends P getJob.
Proof. intros w. exists []. cbn. now rewrite app_nil_r. Qed.

Lemma appends_setJob j : appends P (setJob j).
Proof. intros w. exists []. cbn. now rewrite app_nil_r. Qed.

Lemma appends_slice (s : string) (n : nat) : appends P (slice s n).
Proof. unfold slice. destruct (slice_to n s); [apply appends_ret | apply appends_panic]. Qed.

Lemma appends_assign f : appends P (assign f).
Proof.
  unfold assign. apply appends_bind; [apply appends_getTemplate|].
  intros t. apply appends_setTemplate.
Qed.

Lemma appends_WaitFor (ticks : nat) (fn : ConditionFunc) :
  appends P fn -> appends P (WaitFor ticks fn).
Proof.
  intros Hfn. induction ticks as [|ticks IH]; cbn [WaitFor];
    (apply appends_bind; [exact Hfn|]); intros [ok [e|]]; cbn [fst snd];
    try apply appends_ret; destruct ok; try apply appends_ret. exact IH.
Qed.

Lemma appends_PollImmediate (env : Oracle) (interval timeout : Z) (fn : ConditionFunc) :
  appends P fn -> appends P (PollImmediate env interval timeout fn).
Proof.
  intros Hfn w. rewrite PollImmediate_WaitFor. now apply appends_WaitFor.
Qed.

Lemma appends_Wait (env : Oracle) (e1 e2 : option error) : appends P (Wait env e1 e2).
Proof.
  intros w. exists []. unfold Wait.
  destruct e1, e2; cbn; now rewrite app_nil_r.
Qed.

End Appending.

Ltac appending :=
  repeat first
    [ apply appends_ret | apply appends_panic
    | apply appends_getTemplate | apply appends_setTemplate
    | apply appends_getNginx | apply appends_setNginx
    | apply appends_getJob | apply appends_setJob
    | apply appends_slice | apply appends_assign | apply appends_Wait
    | apply appends_bind | apply appends_defer
    | apply appends_ask | apply appends_tell
    | apply appends_PollImmediate
    | progress intros
    | match goal with
      | |- notTeardown _ => split; reflexivity
      | |- appends _ (match ?x with _ => _ end) => destruct x
      | |- appends _ (if ?x then _ else _) => destruct x
      end ].

(** ** The staging resource *)

(** [Delete], run: the service first; the pod only after the service's
    deletion succeeded. *)
Lemma Delete_run (env : Oracle) (w : World) :
  Delete env w =
    match o_serviceDelete env (moment w) with
    | Some e =>
        (Ret (Some e),
         emit (EvServiceDelete (Service_Name (service (nginx w))) (Some e)) w)
    | None =>
        (Ret (o_podDelete env (S (moment w))),
         emit (EvPodDelete (Pod_Name (pod (nginx w))) (o_podDelete env (S (moment w))))
           (emit (EvServiceDelete (Service_Name (service (nginx w))) None) w))
    end.
Proof.
  unfold Delete, bind, getNginx, ask, ret, moment.
  destruct (o_serviceDelete env (List.length (trace w))) as [e|]; [reflexivity|].
  cbn [trace emit nginx]. rewrite length_app, Nat.add_1_r.
  now destruct (o_podDelete env (S (List.length (trace w)))).
Qed.

Lemma Delete_returns (env : Oracle) (w : World) :
  exists err, fst (Delete env w) = Ret err.
Proof.
  rewrite Delete_run. destruct (o_serviceDelete env (moment w)); eexists; reflexivity.
Qed.

Lemma Delete_invoked_once (env : Oracle) (w : World) :
  deleteInvocations (trace (snd (Delete env w))) = S (deleteInvocations (trace w)).
Proof.
  rewrite Delete_run. unfold deleteInvocations.
  destruct (o_serviceDelete env (moment w)); cbn [snd emit trace];
    rewrite ?filter_app, ?length_app; cbn; lia.
Qed.

Lemma deleteInvocations_quiet (tr suffix : list Event) :
  Forall notTeardown suffix -> deleteInvocations (tr ++ suffix) = deleteInvocations tr.
Proof.
  intros Hq. unfold deleteInvocations. rewrite filter_app, length_app.
  induction Hq as [|e suffix [He _] _ IH]; cbn; [lia|]. now rewrite He.
Qed.

(** ** Everything but [Delete] stays clear of the teardown *)

Section Quiet.

Variable env : Oracle.

Lemma NewTempNginx_quiet namespace : appends notTeardown (NewTempNginx env namespace).
Proof. unfold NewTempNginx, UnixNano, RandomID. appending. Qed.

Lemma Create_quiet : appends notTeardown (Create env).
Proof. unfold Create. appending. Qed.

Lemma runCommands_quiet cmds : appends notTeardown (runCommands env cmds).
Proof. induction cmds as [|argv rest IH]; cbn [runCommands]; appending. exact IH. Qed.

Lemma Copy_quiet dst src : appends notTeardown (Copy env dst src).
Proof. unfold Copy. appending. Qed.

Lemma createContext_quiet a : appends notTeardown (createContext env a).
Proof. unfold createContext. appending. Qed.

Lemma Fulfill_quiet imageName url : appends notTeardown (Fulfill env imageName url).
Proof. unfold Fulfill, UnixNano, RandomID. appending. Qed.

Lemma waitJobCompletion_quiet jobName : appends notTeardown (waitJobCompletion env jobName).
Proof. unfold waitJobCompletion. appending. Qed.

Lemma runCBIBuildV1Alpha1_quiet kubeNS j :
  appends notTeardown (runCBIBuildV1Alpha1 env kubeNS j).
Proof.
  unfold runCBIBuildV1Alpha1, readyCondition, waitJobPodReady. appending.
  all: apply waitJobCompletion_quiet.
Qed.

End Quiet.

(** ** One build and its staging resource *)

Lemma bind_getTemplate {B} (f : _ -> M B) (w : World) :
  bind getTemplate f w = f (template w) w.
Proof. reflexivity. Qed.

Lemma bind_ask {R B} (answer : nat -> R) (ev : R -> Event) (f : R -> M B) (w : World) :
  bind (ask answer ev) f w = f (answer (moment w)) (emit (ev (answer (moment w))) w).
Proof. reflexivity. Qed.

Lemma NewTempNginx_run (env : Oracle) (namespace : string) (w : World) :
  NewTempNginx env namespace w =
    let nanos := o_unixNano env (moment w) in
    let id := o_randomID env (S (moment w)) in
    let w2 := emit (EvRandomID id) (emit (EvUnixNano nanos) w) in
    match slice_to 2 id with
    | Some suffix =>
        (Ret tt,
         mkWorld (trace w2) (template w2)
           (mkTempNginx "" (mkPod (sprintf_tempnginx nanos suffix))
              (mkService (sprintf_tempnginx nanos suffix)))
           (job w2))
    | None => (Panic "slice bounds out of range", w2)
    end.
Proof.
  unfold NewTempNginx, UnixNano, RandomID, slice.
  rewrite bind_ask, bind_ask, moment_emit.
  cbv zeta. now destruct (slice_to 2 (o_randomID env (S (moment w)))).
Qed.

(** [RunCBIBuild], run as far as the [defer] of [Delete]: what follows is
    one body of steps, which stays clear of the teardown and does not look
    at the answers the deletions will be given. *)
Lemma RunCBIBuild_shape :
  exists steps : Oracle -> Artifact -> M (string * option error),
    (forall env artifact w,
        RunCBIBuild env artifact w =
          match o_newForConfig env (moment w) with
          | Some e => (Ret ("", Some e), emit (EvNewForConfig (Some e)) w)
          | None =>
              match NewTempNginx env "default" (emit (EvNewForConfig None) w) with
              | (Ret _, w0) => defer (Delete env) (steps env artifact) w0
              | (Panic reason, w0) => (Panic reason, w0)
              end
          end) /\
    (forall env artifact, appends notTeardown (steps env artifact)) /\
    (forall env artifact serviceDelete podDelete,
        steps (with_teardown serviceDelete podDelete env) artifact = steps env artifact).
Proof.
  eexists. split; [|split].
  - intros env artifact w.
    unfold RunCBIBuild. rewrite bind_getTemplate. unfold APIVersion.
    rewrite String.eqb_refl. cbn [negb]. rewrite bind_ask.
    destruct (o_newForConfig env (moment w)) as [e|]; [reflexivity|].
    unfold bind at 1.
    destruct (NewTempNginx env "default" (emit (EvNewForConfig None) w)) as [[[]|reason] w0];
      [|reflexivity].
    reflexivity.
  - intros env artifact. cbv beta.
    appending.
    all: first [ apply Create_quiet | apply createContext_quiet | apply Copy_quiet
               | apply Fulfill_quiet | apply runCBIBuildV1Alpha1_quiet | idtac ].
    all: unfold RandomID; appending.
  - intros env artifact serviceDelete podDelete. reflexivity.
Qed.

Lemma defer_Delete {A} (env : Oracle) (body : M A) (w : World) :
  fst (defer (Delete env) body w) = fst (body w) /\
  snd (defer (Delete env) body w) = snd (Delete env (snd (body w))).
Proof.
  unfold defer. destruct (body w) as [r w1]. cbn [fst snd].
  destruct (Delete_returns env w1) as [err Herr].
  destruct (Delete env w1) as [[b|reason] w2]; cbn [fst snd] in *; [now split | discriminate].
Qed.

(** [RunCBIBuild] and the teardown of its staging resource. *)
Lemma RunCBIBuild_teardown (env : Oracle) (artifact : Artifact) (w : World) :
  (o_newForConfig env (moment w) = None ->
   slice_to 2 (o_randomID env (moment w + 2)) <> None ->
   exists performed left,
     trace left = trace w ++ performed /\
     Forall notTeardown performed /\
     snd (RunCBIBuild env artifact w) = snd (Delete env left) /\
     deleteInvocations (trace (snd (RunCBIBuild env artifact w))) =
       S (deleteInvocations (trace w))) /\
  (o_newForConfig env (moment w) <> None \/
   slice_to 2 (o_randomID env (moment w + 2)) = None ->
   exists performed,
     trace (snd (RunCBIBuild env artifact w)) = trace w ++ performed /\
     Forall notTeardown performed /\
     deleteInvocations (trace (snd (RunCBIBuild env artifact w))) =
       deleteInvocations (trace w)).
Proof.
  destruct RunCBIBuild_shape as (steps & Hrun & Hquiet & _).
  rewrite Hrun, NewTempNginx_run. cbv zeta.
  rewrite !moment_emit. replace (S (S (moment w))) with (moment w + 2)%nat by lia.
  assert (Hthree : forall a b c : Event,
             notTeardown a -> notTeardown b -> notTeardown c ->
             Forall notTeardown [a; b; c])
    by (intros a b c Ha Hb Hc;
        exact (Forall_cons _ Ha (Forall_cons _ Hb (Forall_cons _ Hc (Forall_nil _))))).
  split.
  - intros Hclient Hslice. rewrite Hclient.
    destruct (slice_to 2 (o_randomID env (moment w + 2))) as [suffix|]; [|congruence].
    match goal with |- context [defer (Delete env) _ ?w0] => set (made := w0) end.
    destruct (defer_Delete env (steps env artifact) made) as [_ Hsnd].
    destruct (Hquiet env artifact made) as (more & Hmore & Hclear).
    exists ([EvNewForConfig None; EvUnixNano (o_unixNano env (S (moment w)));
             EvRandomID (o_randomID env (moment w + 2))] ++ more),
           (snd (steps env artifact made)).
    assert (Hperformed : Forall notTeardown
              ([EvNewForConfig None; EvUnixNano (o_unixNano env (S (moment w)));
                EvRandomID (o_randomID env (moment w + 2))] ++ more))
      by (apply Forall_app; split; [apply Hthree; split; reflexivity | exact Hclear]).
    assert (Hleft : trace (snd (steps env artifact made)) =
              trace w ++ [EvNewForConfig None; EvUnixNano (o_unixNano env (S (moment w)));
                          EvRandomID (o_randomID env (moment w + 2))] ++ more)
      by (rewrite Hmore; unfold made, emit; cbn [trace]; now rewrite <- !app_assoc).
    repeat split; [exact Hleft | exact Hperformed | exact Hsnd |].
    rewrite Hsnd, Delete_invoked_once, Hleft. f_equal.
    now apply deleteInvocations_quiet.
  - intros [Hclient|Hslice].
    + destruct (o_newForConfig env (moment w)) as [e|]; [|congruence].
      exists [EvNewForConfig (Some e)]. cbn [snd emit trace].
      assert (Hq : Forall notTeardown [EvNewForConfig (ObjectMetaRest := ObjectMetaRest)
                                         (LanguageRest := LanguageRest)
                                         (ContextRest := ContextRest) (Some e)])
        by (repeat constructor).
      repeat split; [exact Hq | now apply deleteInvocations_quiet].
    + rewrite Hslice.
      destruct (o_newForConfig env (moment w)) as [e|].
      * exists [EvNewForConfig (Some e)]. cbn [snd emit trace].
        assert (Hq : Forall notTeardown [EvNewForConfig (ObjectMetaRest := ObjectMetaRest)
                                           (LanguageRest := LanguageRest)
                                           (ContextRest := ContextRest) (Some e)])
          by (repeat constructor).
        repeat split; [exact Hq | now apply deleteInvocations_quiet].
      * exists [EvNewForConfig None; EvUnixNano (o_unixNano env (S (moment w)));
                EvRandomID (o_randomID env (moment w + 2))].
        cbn [snd emit trace]. rewrite <- !app_assoc. cbn [app].
        assert (Hq : Forall notTeardown
                  [EvNewForConfig (ObjectMetaRest := ObjectMetaRest)
                     (LanguageRest := LanguageRest) (ContextRest := ContextRest) None;
                   EvUnixNano (o_unixNano env (S (moment w)));
                   EvRandomID (o_randomID env (moment w + 2))])
          by (apply Hthree; split; reflexivity).
        repeat split; [exact Hq | now apply deleteInvocations_quiet].
Qed.

(** C8 (as the code has it): [Delete] first asks for the deletion of the
    service (the network endpoint); it asks for the deletion of the pod (the
    compute unit) afterwards only when the service's deletion returned no
    error, and then returns what the pod's deletion returned; when the
    service's deletion returns an error, [Delete] returns that error and
    the pod's deletion is not attempted. *)
Theorem Delete_service_then_pod (env : Oracle) (w : World) :
  let serviceErr := o_serviceDelete env (moment w) in
  let podErr := o_podDelete env (S (moment w)) in
  trace (snd (Delete env w)) =
    trace w ++
    EvServiceDelete (Service_Name (service (nginx w))) serviceErr ::
    match serviceErr with
    | None => [EvPodDelete (Pod_Name (pod (nginx w))) podErr]
    | Some _ => []
    end /\
  fst (Delete env w) =
    Ret match serviceErr with
        | None => podErr
        | Some e => Some e
        end.
Proof.
  cbv zeta. rewrite Delete_run.
  destruct (o_serviceDelete env (moment w)) as [e|]; cbn [fst snd emit trace].
  - now split.
  - rewrite <- app_assoc. now split.
Qed.

(** C7 (as the code has it): what [Delete] returns during teardown is
    dropped by [RunCBIBuild]: whatever the two deletions answer, a [nil] or
    an error, [RunCBIBuild] returns the same image reference and the same
    error, those of the build's steps.  The error of [Delete] neither
    replaces the result of the build nor reaches the caller. *)
Theorem RunCBIBuild_result_ignores_teardown
        (env : Oracle) (artifact : Artifact) (w : World)
        (serviceDelete podDelete : nat -> option error) :
  fst (RunCBIBuild (with_teardown serviceDelete podDelete env) artifact w) =
    fst (RunCBIBuild env artifact w).
Proof.
  destruct RunCBIBuild_shape as (steps & Hrun & _ & Hsame).
  rewrite !Hrun.
  change (o_newForConfig (with_teardown serviceDelete podDelete env))
    with (o_newForConfig env).
  change (NewTempNginx (with_teardown serviceDelete podDelete env))
    with (NewTempNginx env).
  destruct (o_newForConfig env (moment w)) as [e|]; [reflexivity|].
  destruct (NewTempNginx env "default" (emit (EvNewForConfig None) w)) as [[[]|reason] w0];
    [|reflexivity].
  rewrite Hsame.
  destruct (defer_Delete (with_teardown serviceDelete podDelete env) (steps env artifact) w0)
    as [-> _].
  now destruct (defer_Delete env (steps env artifact) w0) as [-> _].
Qed.

(** ** [Build] over a list of artifacts *)

Lemma buildArtifacts_cons (env : Oracle) (artifact : Artifact) (rest : list Artifact)
      (res : BuildResult) (w : World) :
  buildArtifacts env (artifact :: rest) res w =
    match RunCBIBuild env artifact w with
    | (Panic reason, w1) => (Panic reason, w1)
    | (Ret (_, Some e), w1) =>
        (Ret (None, Some (Wrapf e "running cbi build for %s" [ArgString (ImageName artifact)])),
         w1)
    | (Ret (initialTag, None), w1) =>
        let d := o_remoteDigest env (moment w1) in
        let w2 := emit (EvRemoteDigest initialTag d) w1 in
        match snd d with
        | Some e => (Ret (None, Some (Wrap e "getting digest")), w2)
        | None =>
            let t := o_generateTag env (S (moment w1)) in
            let w3 := emit (EvGenerateFullyQualifiedImageName
                              (Workspace artifact) (ImageName artifact) (fst d) t) w2 in
            match snd t with
            | Some e => (Ret (None, Some (Wrap e "generating tag")), w3)
            | None =>
                let a := o_addTag env (S (S (moment w1))) in
                let w4 := emit (EvAddTag initialTag (fst t) a) w3 in
                match a with
                | Some e => (Ret (None, Some (Wrap e "tagging image")), w4)
                | None =>
                    buildArtifacts env rest
                      (mkBuildResult
                         (Builds res ++ [mkBuild (ImageName artifact) (fst t) artifact]))
                      w4
                end
            end
        end
    end.
Proof.
  cbn [buildArtifacts]. unfold bind at 1.
  destruct (RunCBIBuild env artifact w) as [[[initialTag [e|]]|reason] w1]; try reflexivity.
  rewrite bind_ask. cbv zeta.
  destruct (o_remoteDigest env (moment w1)) as [dgst [e|]]; cbn [fst snd]; [reflexivity|].
  rewrite bind_ask, moment_emit.
  destruct (o_generateTag env (S (moment w1))) as [full [e|]]; cbn [fst snd]; [reflexivity|].
  rewrite bind_ask, !moment_emit.
  now destruct (o_addTag env (S (S (moment w1)))) as [e|].
Qed.

(** The loop, once the earlier artifacts were built, goes on with the rest. *)
Lemma buildArtifacts_app (env : Oracle) (earlier rest : list Artifact)
      (res res1 : BuildResult) (w w1 : World) :
  buildArtifacts env earlier res w = (Ret (Some res1, None), w1) ->
  buildArtifacts env (earlier ++ rest) res w = buildArtifacts env rest res1 w1.
Proof.
  revert res w. induction earlier as [|artifact earlier IH]; intros res w Hearlier.
  - cbn in Hearlier. injection Hearlier as -> ->. reflexivity.
  - rewrite <- app_comm_cons. rewrite buildArtifacts_cons in *.
    destruct (RunCBIBuild env artifact w) as [[[initialTag [e|]]|reason] w0];
      try discriminate.
    cbv zeta in *.
    destruct (snd (o_remoteDigest env (moment w0))); [discriminate|].
    destruct (snd (o_generateTag env (S (moment w0)))); [discriminate|].
    destruct (o_addTag env (S (S (moment w0)))); [discriminate|].
    now apply IH.
Qed.

(** A failing step ends the loop with a [nil] result and the step's error. *)
Lemma buildArtifacts_fails (env : Oracle) (artifact : Artifact) (rest : list Artifact)
      (res : BuildResult) (w w' : World) (e : error) :
  stepFails env artifact w e w' ->
  buildArtifacts env (artifact :: rest) res w = (Ret (None, Some e), w').
Proof.
  intros Hfails. rewrite buildArtifacts_cons.
  destruct Hfails as [tag e w1 Hrun | tag dgst e w1 Hrun Hd
                     | tag dgst full e w1 Hrun Hd Ht | tag dgst full e w1 Hrun Hd Ht Ha];
    rewrite Hrun; cbv zeta; rewrite ?Hd; cbn [fst snd]; rewrite ?Ht; cbn [fst snd];
    rewrite ?Ha; reflexivity.
Qed.

(** [Build] on one artifact: [RunCBIBuild], and then nothing that deletes. *)
Lemma Build_single (env : Oracle) (b : CBIBuild) (artifact : Artifact) (w : World)
      (cbiT : cbiBuildJobTemplateV1Alpha1) :
  GetBuildJobTemplate env b = inl cbiT ->
  o_clientConfig env (moment w) = None ->
  exists tail,
    trace (snd (CBIBuilder_Build env b [artifact] w)) =
      trace (snd (RunCBIBuild env artifact (configured cbiT w))) ++ tail /\
    Forall notTeardown tail.
Proof.
  intros Hget Hconfig. unfold CBIBuilder_Build. rewrite Hget.
  unfold bind at 1. cbn [setTemplate]. unfold bind at 1, GetClientConfig.
  rewrite bind_ask.
  change (moment (mkWorld (trace w) cbiT (nginx w) (job w))) with (moment w).
  rewrite Hconfig.
  change (emit (EvClientConfig None) (mkWorld (trace w) cbiT (nginx w) (job w)))
    with (configured cbiT w).
  unfold ret at 1. cbv beta iota. rewrite buildArtifacts_cons.
  destruct (RunCBIBuild env artifact (configured cbiT w)) as [[[initialTag [e|]]|reason] w1];
    cbn [snd]; try (exists []; rewrite app_nil_r; now split).
  cbv zeta.
  destruct (snd (o_remoteDigest env (moment w1))) as [e1|]; cbn [snd emit trace].
  { eexists [_]. split; [reflexivity | repeat constructor]. }
  destruct (snd (o_generateTag env (S (moment w1)))) as [e2|]; cbn [snd emit trace].
  { eexists [_; _]. rewrite <- app_assoc. split; [reflexivity | repeat constructor]. }
  destruct (o_addTag env (S (S (moment w1)))) as [e3|]; cbn [snd emit trace buildArtifacts ret];
    eexists [_; _; _]; rewrite <- !app_assoc; (split; [reflexivity | repeat constructor]).
Qed.

(** C1: once [RunCBIBuild] has constructed the handle of the staging
    resource (the client was created and [NewTempNginx] returned), it runs
    the steps of the build, none of which deletes anything, and then, on
    whatever outcome these steps had (a return with or without an error, or
    a panic), it invokes [Delete] on the handle: exactly one invocation of
    [Delete] is added to the trace.  When the handle is not constructed,
    [Delete] is not invoked.  So a [Build] of a single artifact that gets as
    far as constructing the handle invokes [Delete] exactly once, whether
    the build succeeds or fails. *)
Theorem RunCBIBuild_deletes_once (env : Oracle) (artifact : Artifact) (w : World) :
  (o_newForConfig env (moment w) = None ->
   slice_to 2 (o_randomID env (moment w + 2)) <> None ->
   exists performed left,
     trace left = trace w ++ performed /\
     Forall notTeardown performed /\
     snd (RunCBIBuild env artifact w) = snd (Delete env left) /\
     deleteInvocations (trace (snd (RunCBIBuild env artifact w))) =
       S (deleteInvocations (trace w))) /\
  (o_newForConfig env (moment w) <> None \/
   slice_to 2 (o_randomID env (moment w + 2)) = None ->
   exists performed,
     trace (snd (RunCBIBuild env artifact w)) = trace w ++ performed /\
     Forall notTeardown performed /\
     deleteInvocations (trace (snd (RunCBIBuild env artifact w))) =
       deleteInvocations (trace w)) /\
  (forall (b : CBIBuild) (cbiT : cbiBuildJobTemplateV1Alpha1),
      GetBuildJobTemplate env b = inl cbiT ->
      o_clientConfig env (moment w) = None ->
      o_newForConfig env (S (moment w)) = None ->
      slice_to 2 (o_randomID env (moment w + 3)) <> None ->
      deleteInvocations (trace (snd (CBIBuilder_Build env b [artifact] w))) =
        S (deleteInvocations (trace w))).
Proof.
  destruct (RunCBIBuild_teardown env artifact w) as [Hmade Hnot].
  split; [exact Hmade|]. split; [exact Hnot|].
  intros b cbiT Hget Hconfig Hclient Hslice.
  destruct (Build_single env b artifact w cbiT Hget Hconfig) as (tail & -> & Hquiet).
  rewrite deleteInvocations_quiet by exact Hquiet.
  assert (Hmoment : moment (configured cbiT w) = S (moment w))
    by (unfold configured, moment; cbn [trace]; rewrite length_app; cbn; lia).
  destruct (RunCBIBuild_teardown env artifact (configured cbiT w)) as [Hbuilt _].
  rewrite Hmoment in Hbuilt.
  replace (S (moment w) + 2)%nat with (moment w + 3)%nat in Hbuilt by lia.
  destruct (Hbuilt Hclient Hslice) as (performed & left & _ & _ & _ & ->).
  f_equal. unfold configured. cbn [trace].
  apply deleteInvocations_quiet. repeat constructor.
Qed.

(** C2: when [Build] has built the earlier artifacts of a list (it would
    return their results [res]) and the build step of the next artifact
    fails, [Build] on the whole list returns a [nil] result, not [res], and
    the non-[nil] wrapped error of that step; it stops in the world of the
    failure, so nothing is attempted for the remaining artifacts. *)
Theorem Build_aborts_on_first_failure
        (env : Oracle) (b : CBIBuild) (earlier remaining : list Artifact) (artifact : Artifact)
        (w w1 w2 : World) (res : BuildResult) (e : error) :
  CBIBuilder_Build env b earlier w = (Ret (Some res, None), w1) ->
  stepFails env artifact w1 e w2 ->
  CBIBuilder_Build env b (earlier ++ artifact :: remaining) w = (Ret (None, Some e), w2).
Proof.
  unfold CBIBuilder_Build. intros Hearlier Hfails.
  destruct (GetBuildJobTemplate env b) as [cbiT|e0]; [|discriminate].
  unfold bind in *.
  destruct (setTemplate cbiT w) as [[[]|reason] w0]; [|discriminate].
  destruct (GetClientConfig env w0) as [[[e0|]|reason] w0']; try discriminate.
  rewrite (buildArtifacts_app env earlier (artifact :: remaining) _ _ _ _ Hearlier).
  now apply buildArtifacts_fails.
Qed.

(** ** The readiness poll *)

Section Readiness.

Variable env : Oracle.

Lemma readyCondition_runs (w : World) :
  readyCondition env w = (Ret (readinessVerdict (o_buildJobGet env (moment w))), observed env w).
Proof.
  unfold readyCondition, bind, getJob, ask, setJob, ret, readinessVerdict, observed, moment,
    emit, nameOf.
  destruct (o_buildJobGet env (List.length (trace w))) as [fetched [e|]];
    cbn [fst snd trace template nginx job]; [reflexivity|].
  now destruct (String.eqb (Status_Job (BuildJob_Status fetched)) "").
Qed.

Lemma moment_observed (w : World) : moment (observed env w) = S (moment w).
Proof. unfold observed, moment. cbn [trace]. rewrite length_app. cbn. lia. Qed.

Lemma moment_after_observed (k : nat) (w : World) :
  moment (after (observed env) k w) = (moment w + k)%nat.
Proof.
  unfold after. induction k as [|k IH]; [cbn; lia|].
  rewrite Nat.iter_succ, moment_observed, IH. lia.
Qed.

Lemma job_after_observed (k : nat) (w : World) :
  job (after (observed env) (S k) w) = fst (o_buildJobGet env (moment w + k)).
Proof.
  unfold after. rewrite Nat.iter_succ. unfold observed at 1. cbn [job].
  fold (after (observed env) k w). now rewrite moment_after_observed.
Qed.

Lemma readinessVerdict_notYet (r : BuildJob * option error) :
  readinessVerdict r = (false, None) <-> notYetAccepted r.
Proof.
  unfold readinessVerdict, notYetAccepted. destruct r as [j [e|]]; cbn [fst snd].
  - split; [discriminate | intros [? _]; discriminate].
  - destruct (String.eqb_spec (Status_Job (BuildJob_Status j)) "") as [Hj|Hj].
    + now split.
    + split; [discriminate | intros [_ ?]; contradiction].
Qed.

Lemma readinessVerdict_accepted (r : BuildJob * option error) :
  accepted r -> readinessVerdict r = (true, None).
Proof.
  unfold readinessVerdict, accepted. destruct r as [j [e|]]; cbn [fst snd].
  - intros [? _]; discriminate.
  - intros [_ Hj]. apply String.eqb_neq in Hj. now rewrite Hj.
Qed.

Lemma readinessVerdict_error (r : BuildJob * option error) (e : error) :
  snd r = Some e ->
  readinessVerdict r = (false, Some (Errorf "not found: %s" [ArgString (nameOf (fst r))])).
Proof. unfold readinessVerdict. now intros ->. Qed.

(** The readiness poll, from the first fetch that decides it. *)
Lemma readiness_decided (w : World) (k : nat) :
  let n := poller (Millisecond * 500) (Minute * 3) (o_ticks env (moment w)) in
  let fetch := fun j : nat => o_buildJobGet env (moment w + j)%nat in
  (k <= S n)%nat ->
  (forall j, (j < k)%nat -> notYetAccepted (fetch j)) ->
  ~ notYetAccepted (fetch k) ->
  PollImmediate env (Millisecond * 500) (Minute * 3) (readyCondition env) w =
    (Ret (resolve (readinessVerdict (fetch k))), after (observed env) (S k) w).
Proof.
  intros n fetch Hk Hpending Hdecided. rewrite PollImmediate_WaitFor. fold n.
  set (verdict := fun w' : World => readinessVerdict (o_buildJobGet env (moment w'))).
  assert (Hat : forall j, verdict (after (observed env) j w) = readinessVerdict (fetch j))
    by (intros j; unfold verdict, fetch; now rewrite moment_after_observed).
  rewrite <- Hat.
  apply (WaitFor_decided (readyCondition env) verdict (observed env) readyCondition_runs);
    [exact Hk | |].
  - intros j Hj. rewrite Hat. apply readinessVerdict_notYet. now apply Hpending.
  - rewrite Hat. intros Hv. exact (Hdecided (proj1 (readinessVerdict_notYet _) Hv)).
Qed.

Lemma readiness_expired (w : World) :
  let n := poller (Millisecond * 500) (Minute * 3) (o_ticks env (moment w)) in
  let fetch := fun j : nat => o_buildJobGet env (moment w + j)%nat in
  (forall j, (j <= S n)%nat -> notYetAccepted (fetch j)) ->
  PollImmediate env (Millisecond * 500) (Minute * 3) (readyCondition env) w =
    (Ret (Some ErrWaitTimeout), after (observed env) (S (S n)) w).
Proof.
  intros n fetch Hpending. rewrite PollImmediate_WaitFor. fold n.
  set (verdict := fun w' : World => readinessVerdict (o_buildJobGet env (moment w'))).
  apply (WaitFor_timeout (readyCondition env) verdict (observed env) readyCondition_runs).
  intros j Hj. unfold verdict. rewrite moment_after_observed.
  apply readinessVerdict_notYet. now apply Hpending.
Qed.

(** [runCBIBuildV1Alpha1] around its readiness poll. *)
Lemma runCBIBuildV1Alpha1_submitted (kubeNS : string) (buildJob : BuildJob) (w : World) :
  snd (o_buildJobCreate env (moment w)) = None ->
  exists proceed : option error -> M (option error),
    runCBIBuildV1Alpha1 env kubeNS buildJob w =
      defer (tell (EvBuildJobDelete (nameOf (fst (o_buildJobCreate env (moment w))))))
        (bind (PollImmediate env (Millisecond * 500) (Minute * 3) (readyCondition env)) proceed)
        (submitted env buildJob w) /\
    (forall e, proceed (Some e) = ret (Some e)) /\
    (forall w', exists rest,
        trace (snd (proceed None w')) = trace w' ++ EvSleep (10 * Second) :: rest).
Proof.
  intros Hcreate. eexists. split; [|split].
  - unfold runCBIBuildV1Alpha1. rewrite bind_ask.
    destruct (o_buildJobCreate env (moment w)) as [created err] eqn:Hc.
    cbn [fst snd] in *. subst err.
    unfold bind at 1. cbn [setJob emit trace template nginx job].
    unfold submitted. rewrite Hc. cbn [fst]. unfold nameOf. reflexivity.
  - reflexivity.
  - intros w'. cbv beta iota.
    match goal with
    | |- context [bind getJob ?f w'] => change (bind getJob f w') with (f (job w') w')
    end.
    cbv beta. unfold bind at 1.
    change (waitJobPodReady (Status_Job (BuildJob_Status (job w'))) w')
      with (@Ret (option error) None, emit (EvSleep (10 * Second)) w').
    cbv beta iota.
    match goal with
    | |- context [trace (snd (?m (emit ?e w')))] =>
        assert (Hrest : appends notTeardown m)
    end.
    { appending. all: apply waitJobCompletion_quiet. }
    destruct (Hrest (emit (EvSleep (10 * Second)) w')) as (rest & -> & _).
    exists rest. cbn [emit trace]. now rewrite <- app_assoc.
Qed.

Lemma defer_tell {A} (e : Event) (body : M A) (w : World) :
  defer (tell e) body w = (fst (body w), emit e (snd (body w))).
Proof. unfold defer, tell. now destruct (body w). Qed.

Lemma runCBIBuildV1Alpha1_poll_fails (kubeNS : string) (buildJob : BuildJob)
      (w w' : World) (e : error) :
  snd (o_buildJobCreate env (moment w)) = None ->
  PollImmediate env (Millisecond * 500) (Minute * 3) (readyCondition env)
    (submitted env buildJob w) = (Ret (Some e), w') ->
  runCBIBuildV1Alpha1 env kubeNS buildJob w =
    (Ret (Some e),
     emit (EvBuildJobDelete (nameOf (fst (o_buildJobCreate env (moment w))))) w').
Proof.
  intros Hcreate Hpoll.
  destruct (runCBIBuildV1Alpha1_submitted kubeNS buildJob w Hcreate)
    as (proceed & -> & Hfail & _).
  rewrite defer_tell. unfold bind. rewrite Hpoll, Hfail. reflexivity.
Qed.

Lemma runCBIBuildV1Alpha1_poll_passes (kubeNS : string) (buildJob : BuildJob)
      (w w' : World) :
  snd (o_buildJobCreate env (moment w)) = None ->
  PollImmediate env (Millisecond * 500) (Minute * 3) (readyCondition env)
    (submitted env buildJob w) = (Ret None, w') ->
  exists rest,
    trace (snd (runCBIBuildV1Alpha1 env kubeNS buildJob w)) =
      trace w' ++ EvSleep (10 * Second) :: rest.
Proof.
  intros Hcreate Hpoll.
  destruct (runCBIBuildV1Alpha1_submitted kubeNS buildJob w Hcreate)
    as (proceed & -> & _ & Hpass).
  rewrite defer_tell. unfold bind. rewrite Hpoll. cbn [snd emit trace].
  destruct (Hpass w') as (rest & ->).
  eexists. rewrite <- app_assoc. cbn [app]. reflexivity.
Qed.

(** C6: the readiness poll of [runCBIBuildV1Alpha1] (every 500 ms, for at
    most 3 minutes, hence at most 360 ticks after the immediate first try)
    ends with [nil] at the first fetch whose [status.job] is not empty,
    and the function goes on to wait for the job's pod; a fetch that
    returns an error ends the poll at once with the error "not found", no
    further fetch is made and the function returns that error after its
    deferred deletion of the job description; when no fetch it makes shows
    a [status.job], the poll ends with [ErrWaitTimeout] and so does the
    function. *)
Theorem runCBIBuildV1Alpha1_readiness (kubeNS : string) (buildJob : BuildJob) (w0 : World) :
  let w := submitted env buildJob w0 in
  let poll := PollImmediate env (Millisecond * 500) (Minute * 3) (readyCondition env) in
  let n := poller (Millisecond * 500) (Minute * 3) (o_ticks env (moment w)) in
  let fetch := fun j : nat => o_buildJobGet env (moment w + j)%nat in
  let cleanup := EvBuildJobDelete (nameOf (fst (o_buildJobCreate env (moment w0)))) in
  snd (o_buildJobCreate env (moment w0)) = None ->
  (forall k, (k <= S n)%nat ->
             (forall j, (j < k)%nat -> notYetAccepted (fetch j)) ->
             accepted (fetch k) ->
             fst (poll w) = Ret None /\
             moment (snd (poll w)) = (moment w + S k)%nat /\
             job (snd (poll w)) = fst (fetch k) /\
             exists rest,
               trace (snd (runCBIBuildV1Alpha1 env kubeNS buildJob w0)) =
                 trace (snd (poll w)) ++ EvSleep (10 * Second) :: rest) /\
  (forall k e, (k <= S n)%nat ->
               (forall j, (j < k)%nat -> notYetAccepted (fetch j)) ->
               snd (fetch k) = Some e ->
               let notFound := Errorf "not found: %s" [ArgString (nameOf (fst (fetch k)))] in
               fst (poll w) = Ret (Some notFound) /\
               moment (snd (poll w)) = (moment w + S k)%nat /\
               runCBIBuildV1Alpha1 env kubeNS buildJob w0 =
                 (Ret (Some notFound), emit cleanup (snd (poll w)))) /\
  ((forall j, (j <= S n)%nat -> notYetAccepted (fetch j)) ->
   fst (poll w) = Ret (Some ErrWaitTimeout) /\
   moment (snd (poll w)) = (moment w + n + 2)%nat /\
   runCBIBuildV1Alpha1 env kubeNS buildJob w0 =
     (Ret (Some ErrWaitTimeout), emit cleanup (snd (poll w)))) /\
  Z.of_nat n <= 360 /\
  Millisecond * 500 = 500 * 1000000 /\
  Minute * 3 = 3 * (60 * (1000 * 1000000)).
Proof.
  intros w poll n fetch cleanup Hcreate. subst fetch. cbv beta.
  split; [|split; [|split]].
  - intros k Hk Hpending [Herr Hjob].
    assert (Hrun : poll w = (Ret None, after (observed env) (S k) w)).
    { unfold poll. rewrite (readiness_decided w k Hk Hpending).
      - now rewrite (readinessVerdict_accepted _ (conj Herr Hjob)).
      - intros [_ Hempty]. contradiction. }
    rewrite Hrun. cbn [fst snd].
    repeat split.
    + apply moment_after_observed.
    + apply job_after_observed.
    + now apply (runCBIBuildV1Alpha1_poll_passes kubeNS buildJob w0).
  - intros k e Hk Hpending Herr notFound.
    assert (Hrun : poll w = (Ret (Some notFound), after (observed env) (S k) w)).
    { unfold poll. rewrite (readiness_decided w k Hk Hpending).
      - now rewrite (readinessVerdict_error _ e Herr).
      - intros [Hnil _]. congruence. }
    rewrite Hrun. cbn [fst snd].
    repeat split.
    + apply moment_after_observed.
    + now apply runCBIBuildV1Alpha1_poll_fails.
  - intros Hpending.
    assert (Hrun : poll w = (Ret (Some ErrWaitTimeout), after (observed env) (S (S n)) w))
      by (apply readiness_expired; exact Hpending).
    rewrite Hrun. cbn [fst snd].
    repeat split.
    + rewrite moment_after_observed. lia.
    + now apply runCBIBuildV1Alpha1_poll_fails.
  - repeat split.
    unfold n, poller. change (Minute * 3 / (Millisecond * 500)) with 360. lia.
Qed.

End Readiness.

(** * Further properties of the builder *)

(** ** Running a computation step by step *)

Lemma bind_getNginx {B} (f : _ -> M B) (w : World) :
  bind getNginx f w = f (nginx w) w.
Proof. reflexivity. Qed.

Lemma bind_getJob {B} (f : _ -> M B) (w : World) :
  bind getJob f w = f (job w) w.
Proof. reflexivity. Qed.

Lemma bind_setNginx {B} (x : TempNginx) (f : unit -> M B) (w : World) :
  bind (setNginx x) f w = f tt (mkWorld (trace w) (template w) x (job w)).
Proof. reflexivity. Qed.

Lemma bind_setJob {B} (j : BuildJob) (f : unit -> M B) (w : World) :
  bind (setJob j) f w = f tt (mkWorld (trace w) (template w) (nginx w) j).
Proof. reflexivity. Qed.

Lemma bind_tell {B} (e : Event) (f : unit -> M B) (w : World) :
  bind (tell e) f w = f tt (emit e w).
Proof. reflexivity. Qed.

(** ** [TempNginx.Create] *)

(** [Create], run: the pod, then the service, then the wait for the pod;
    the first error ends it.  The handle takes the objects the two clients
    answered with, also when they answered with an error. *)
Lemma Create_run (env : Oracle) (w : World) :
  let p := o_podCreate env (moment w) in
  let s := o_serviceCreate env (S (moment w)) in
  let r := o_waitForPodReady env (S (S (moment w))) in
  let x := nginx w in
  Create env w =
    match snd p with
    | Some e =>
        (Ret (Some e),
         mkWorld (trace w ++ [EvPodCreate (pod x) p])
           (template w) (mkTempNginx (ns x) (fst p) (service x)) (job w))
    | None =>
        match snd s with
        | Some e =>
            (Ret (Some e),
             mkWorld (trace w ++ [EvPodCreate (pod x) p; EvServiceCreate (service x) s])
               (template w) (mkTempNginx (ns x) (fst p) (fst s)) (job w))
        | None =>
            (Ret r,
             mkWorld (trace w ++ [EvPodCreate (pod x) p; EvServiceCreate (service x) s;
                                  EvWaitForPodReady (Pod_Name (fst p)) r])
               (template w) (mkTempNginx (ns x) (fst p) (fst s)) (job w))
        end
    end.
Proof.
  cbv zeta. unfold Create.
  rewrite bind_getNginx, bind_ask.
  destruct (o_podCreate env (moment w)) as [p [e|]]; cbn [fst snd].
  - reflexivity.
  - rewrite bind_setNginx, bind_getNginx. cbn [nginx]. rewrite bind_ask.
    change (moment (mkWorld (trace (emit (EvPodCreate (pod (nginx w)) (p, None)) w))
                      (template (emit (EvPodCreate (pod (nginx w)) (p, None)) w))
                      (mkTempNginx (ns (nginx w)) p (service (nginx w)))
                      (job (emit (EvPodCreate (pod (nginx w)) (p, None)) w))))
      with (moment (emit (EvPodCreate (pod (nginx w)) (p, None)) w)).
    rewrite moment_emit.
    destruct (o_serviceCreate env (S (moment w))) as [s [e|]]; cbn [fst snd service ns pod].
    + unfold emit, ret. cbn [trace template nginx job]. now rewrite <- app_assoc.
    + rewrite bind_setNginx, bind_getNginx. cbn [nginx pod Pod_Name]. rewrite bind_ask.
      unfold moment, emit. cbn [trace template nginx job].
      rewrite !length_app. cbn [List.length].
      replace (List.length (trace w) + 1 + 1)%nat with (S (S (List.length (trace w)))) by lia.
      rewrite <- !app_assoc. cbn [app].
      now destruct (o_waitForPodReady env (S (S (List.length (trace w))))).
Qed.

Lemma sprintf_tempnginx_inj (n1 n2 : Z) (c1 c2 : string) :
  String.length c1 = String.length c2 ->
  sprintf_tempnginx n1 c1 = sprintf_tempnginx n2 c2 -> n1 = n2 /\ c1 = c2.
Proof.
  unfold sprintf_tempnginx. intros Hlen H. cbn in H.
  injection H as H.
  apply append_inj_same_tail_length in H; [|cbn; now rewrite Hlen].
  destruct H as [Hd Hc]. injection Hc as ->.
  split; [now apply fmt_d_inj | reflexivity].
Qed.

(** X1: [NewTempNginx] names the pod and the service of the handle alike,
    [tempnginx-<clock>-<first two bytes of the random identifier>], and
    leaves the handle's namespace empty, whatever namespace it is given; it
    panics when the random identifier has fewer than two bytes.  Two handles
    carry the same name only when their clock readings and their two random
    bytes agree. *)
Theorem NewTempNginx_names (env : Oracle) (namespace : string) (w : World) :
  let nanos := o_unixNano env (moment w) in
  let id := o_randomID env (S (moment w)) in
  (forall suffix,
      slice_to 2 id = Some suffix ->
      fst (NewTempNginx env namespace w) = Ret tt /\
      Pod_Name (pod (nginx (snd (NewTempNginx env namespace w)))) =
        sprintf_tempnginx nanos suffix /\
      Service_Name (service (nginx (snd (NewTempNginx env namespace w)))) =
        sprintf_tempnginx nanos suffix /\
      ns (nginx (snd (NewTempNginx env namespace w))) = "" /\
      forall (env2 : Oracle) (namespace2 : string) (w2 : World),
        fst (NewTempNginx env2 namespace2 w2) = Ret tt ->
        Pod_Name (pod (nginx (snd (NewTempNginx env2 namespace2 w2)))) =
          sprintf_tempnginx nanos suffix ->
        o_unixNano env2 (moment w2) = nanos /\
        slice_to 2 (o_randomID env2 (S (moment w2))) = Some suffix) /\
  (slice_to 2 id = None ->
   fst (NewTempNginx env namespace w) = Panic "slice bounds out of range" /\
   nginx (snd (NewTempNginx env namespace w)) = nginx w).
Proof.
  cbv zeta. rewrite NewTempNginx_run. cbv zeta. split.
  - intros suffix Hs. rewrite Hs. cbn [fst snd nginx pod service ns Pod_Name Service_Name].
    do 4 (split; [reflexivity|]).
    intros env2 namespace2 w2. rewrite NewTempNginx_run. cbv zeta.
    destruct (slice_to 2 (o_randomID env2 (S (moment w2)))) as [suffix2|] eqn:Hs2;
      [|discriminate].
    cbn [fst snd nginx pod Pod_Name]. intros _ Hsame.
    apply sprintf_tempnginx_inj in Hsame.
    + destruct Hsame as [-> ->]. now split.
    + now rewrite (slice_to_length _ _ _ Hs2), (slice_to_length _ _ _ Hs).
  - intros Hs. rewrite Hs. now split.
Qed.

(** X2: [Create] asks for the creation of the handle's pod, then of its
    service, then waits for the pod the cluster answered with, and stops at
    the first error, which it returns as it is: it returns [nil] exactly
    when all three succeed.  The handle takes the objects the cluster
    answered with, the pod's as soon as its creation was asked for and the
    service's likewise, also when the answer carried an error; its namespace
    stays.  After a failed creation of the pod nothing else is attempted;
    after a failed creation of the service the wait is not attempted and the
    pod stays, for [Create] deletes nothing. *)
Theorem Create_stops_at_first_error (env : Oracle) (w : World) :
  let p := o_podCreate env (moment w) in
  let s := o_serviceCreate env (S (moment w)) in
  let r := o_waitForPodReady env (S (S (moment w))) in
  let x := nginx w in
  (fst (Create env w) = Ret None <-> snd p = None /\ snd s = None /\ r = None) /\
  (forall e, snd p = Some e ->
             fst (Create env w) = Ret (Some e) /\
             trace (snd (Create env w)) = trace w ++ [EvPodCreate (pod x) p] /\
             nginx (snd (Create env w)) = mkTempNginx (ns x) (fst p) (service x)) /\
  (forall e, snd p = None -> snd s = Some e ->
             fst (Create env w) = Ret (Some e) /\
             trace (snd (Create env w)) =
               trace w ++ [EvPodCreate (pod x) p; EvServiceCreate (service x) s] /\
             nginx (snd (Create env w)) = mkTempNginx (ns x) (fst p) (fst s)) /\
  (snd p = None -> snd s = None ->
             fst (Create env w) = Ret r /\
             trace (snd (Create env w)) =
               trace w ++ [EvPodCreate (pod x) p; EvServiceCreate (service x) s;
                           EvWaitForPodReady (Pod_Name (fst p)) r] /\
             moment (snd (Create env w)) = (moment w + 3)%nat /\
             nginx (snd (Create env w)) = mkTempNginx (ns x) (fst p) (fst s)) /\
  template (snd (Create env w)) = template w /\
  job (snd (Create env w)) = job w /\
  (exists performed,
      trace (snd (Create env w)) = trace w ++ performed /\ Forall notTeardown performed).
Proof.
  cbv zeta. split; [|split; [|split; [|split; [|split; [|split]]]]].
  - rewrite Create_run. cbv zeta.
    destruct (snd (o_podCreate env (moment w))) as [e1|];
      [split; [discriminate | intros (? & _); discriminate]|].
    destruct (snd (o_serviceCreate env (S (moment w)))) as [e2|];
      [split; [discriminate | intros (_ & ? & _); discriminate]|].
    cbn [fst]. split.
    + intros H. injection H as H. now repeat split.
    + intros (_ & _ & ->). reflexivity.
  - intros e Hp. rewrite Create_run. cbv zeta. rewrite Hp. now repeat split.
  - intros e Hp Hs. rewrite Create_run. cbv zeta. rewrite Hp, Hs. now repeat split.
  - intros Hp Hs. rewrite Create_run. cbv zeta. rewrite Hp, Hs.
    split; [reflexivity|]. split; [reflexivity|]. split; [|reflexivity].
    unfold moment. cbn [snd trace]. rewrite length_app. cbn. lia.
  - rewrite Create_run. cbv zeta.
    destruct (snd (o_podCreate env (moment w))); [reflexivity|].
    now destruct (snd (o_serviceCreate env (S (moment w)))).
  - rewrite Create_run. cbv zeta.
    destruct (snd (o_podCreate env (moment w))); [reflexivity|].
    now destruct (snd (o_serviceCreate env (S (moment w)))).
  - apply Create_quiet.
Qed.

(** [Copy], run: [kubectl cp], then [kubectl exec ... chmod]; the second
    only after the first succeeded. *)
Lemma Copy_run (env : Oracle) (dstRemote srcLocal : string) (w : World) :
  let x := nginx w in
  let cp := ["kubectl"; "cp"; srcLocal;
             (ns x ++ "/" ++ Pod_Name (pod x) ++ ":" ++ dstRemote)%string] in
  let chmod := ["kubectl"; "--namespace"; ns x; "exec"; Pod_Name (pod x);
                "chmod"; "0644"; dstRemote] in
  let r1 := o_run env (moment w) in
  let r2 := o_run env (S (moment w)) in
  Copy env dstRemote srcLocal w =
    match snd r1 with
    | Some e => (Ret (Some (Wrapf e "output=%q" [ArgString (fst r1)])), emit (EvRun cp r1) w)
    | None =>
        (Ret match snd r2 with
             | Some e => Some (Wrapf e "output=%q" [ArgString (fst r2)])
             | None => None
             end,
         emit (EvRun chmod r2) (emit (EvRun cp r1) w))
    end.
Proof.
  cbv zeta. unfold Copy. rewrite bind_getNginx. cbn [runCommands].
  rewrite bind_ask.
  destruct (o_run env (moment w)) as [b1 [e1|]]; cbn [fst snd]; [reflexivity|].
  rewrite bind_ask, moment_emit.
  now destruct (o_run env (S (moment w))) as [b2 [e2|]].
Qed.

(** X3: [Copy] runs [kubectl cp <local file> <ns>/<pod>:<remote path>]
    and, only when that succeeded, [kubectl --namespace <ns> exec <pod> chmod
    0644 <remote path>], for the namespace and the pod of the handle; it runs
    nothing else.  A failing command ends it with that command's error
    wrapped together with the output the command wrote, and [Copy] returns
    [nil] exactly when both commands succeed.  The handle, the template and
    the job description are as they were. *)
Theorem Copy_two_commands (env : Oracle) (dstRemote srcLocal : string) (w : World) :
  let x := nginx w in
  let cp := ["kubectl"; "cp"; srcLocal;
             (ns x ++ "/" ++ Pod_Name (pod x) ++ ":" ++ dstRemote)%string] in
  let chmod := ["kubectl"; "--namespace"; ns x; "exec"; Pod_Name (pod x);
                "chmod"; "0644"; dstRemote] in
  let r1 := o_run env (moment w) in
  let r2 := o_run env (S (moment w)) in
  (forall e, snd r1 = Some e ->
             fst (Copy env dstRemote srcLocal w) =
               Ret (Some (Wrapf e "output=%q" [ArgString (fst r1)])) /\
             trace (snd (Copy env dstRemote srcLocal w)) = trace w ++ [EvRun cp r1] /\
             moment (snd (Copy env dstRemote srcLocal w)) = S (moment w)) /\
  (forall e, snd r1 = None -> snd r2 = Some e ->
             fst (Copy env dstRemote srcLocal w) =
               Ret (Some (Wrapf e "output=%q" [ArgString (fst r2)])) /\
             moment (snd (Copy env dstRemote srcLocal w)) = S (S (moment w))) /\
  (snd r1 = None ->
   trace (snd (Copy env dstRemote srcLocal w)) = trace w ++ [EvRun cp r1; EvRun chmod r2]) /\
  (fst (Copy env dstRemote srcLocal w) = Ret None <-> snd r1 = None /\ snd r2 = None) /\
  nginx (snd (Copy env dstRemote srcLocal w)) = nginx w /\
  template (snd (Copy env dstRemote srcLocal w)) = template w /\
  job (snd (Copy env dstRemote srcLocal w)) = job w.
Proof.
  cbv zeta. rewrite Copy_run. cbv zeta.
  split; [|split; [|split; [|split]]].
  - intros e H1. rewrite H1. cbn [fst snd]. rewrite moment_emit. now repeat split.
  - intros e H1 H2. rewrite H1, H2. cbn [fst snd]. now rewrite !moment_emit.
  - intros H1. rewrite H1. cbn [snd emit trace]. now rewrite <- app_assoc.
  - destruct (snd (o_run env (moment w))) as [e1|]; cbn [fst].
    + split; [discriminate | intros [? _]; discriminate].
    + destruct (snd (o_run env (S (moment w)))) as [e2|].
      * split; [discriminate | intros [_ ?]; discriminate].
      * now split.
  - destruct (snd (o_run env (moment w))); now repeat split.
Qed.

(** X4: the namespace of the staging resource's handle is never set:
    [NewTempNginx] leaves it empty and [Create] keeps it, so [Copy] on such
    a handle addresses the pod as [/<pod>:<path>] and passes an empty
    [--namespace] to [kubectl exec]. *)
Theorem Copy_without_namespace (env : Oracle) (dstRemote srcLocal : string) (w : World) :
  ns (nginx w) = "" ->
  ns (nginx (snd (Create env w))) = "" /\
  exists rest,
    trace (snd (Copy env dstRemote srcLocal w)) =
      trace w ++
      EvRun ["kubectl"; "cp"; srcLocal;
             ("/" ++ Pod_Name (pod (nginx w)) ++ ":" ++ dstRemote)%string]
        (o_run env (moment w)) :: rest /\
    (rest = [] \/
     rest = [EvRun ["kubectl"; "--namespace"; ""; "exec"; Pod_Name (pod (nginx w));
                    "chmod"; "0644"; dstRemote]
               (o_run env (S (moment w)))]).
Proof.
  intros Hns. split.
  - rewrite Create_run. cbv zeta.
    destruct (snd (o_podCreate env (moment w))); [exact Hns|].
    destruct (snd (o_serviceCreate env (S (moment w)))); exact Hns.
  - rewrite Copy_run. cbv zeta. rewrite Hns.
    destruct (snd (o_run env (moment w))); cbn [snd emit trace].
    + exists []. split; [reflexivity | now left].
    + eexists [_]. rewrite <- app_assoc. split; [reflexivity | now right].
Qed.

(** X5: when the deletion of the service fails whenever it is asked for,
    [RunCBIBuild] never asks for the deletion of a pod: what [Create]
    created stays behind. *)
Theorem RunCBIBuild_leaves_pod (env : Oracle) (artifact : Artifact) (w : World) :
  (forall n, o_serviceDelete env n <> None) ->
  filter isPodDelete (trace (snd (RunCBIBuild env artifact w))) =
    filter isPodDelete (trace w).
Proof.
  intros Hfails.
  assert (Hquiet : forall performed : list Event,
             Forall notTeardown performed -> filter isPodDelete performed = []).
  { intros performed Hq. induction Hq as [|e l [_ He] _ IH]; [reflexivity|].
    cbn. now rewrite He. }
  destruct (RunCBIBuild_teardown env artifact w) as [Hmade Hnot].
  destruct (o_newForConfig env (moment w)) as [e|] eqn:Hclient.
  - destruct Hnot as (performed & -> & Hq & _); [left; discriminate|].
    rewrite filter_app, (Hquiet _ Hq). apply app_nil_r.
  - destruct (slice_to 2 (o_randomID env (moment w + 2))) as [suffix|] eqn:Hslice.
    + destruct Hmade as (performed & left & Hleft & Hq & -> & _);
        [reflexivity | discriminate |].
      rewrite Delete_run.
      destruct (o_serviceDelete env (moment left)) as [e|] eqn:Hd;
        [|now destruct (Hfails (moment left))].
      cbn [snd emit trace]. rewrite Hleft, !filter_app, (Hquiet _ Hq). cbn.
      now rewrite !app_nil_r.
    + destruct Hnot as (performed & -> & Hq & _); [now right|].
      rewrite filter_app, (Hquiet _ Hq). apply app_nil_r.
Qed.

(** ** [runCBIBuildV1Alpha1], run *)

Lemma PollImmediate_returns (env : Oracle) (interval timeout : Z) (fn : ConditionFunc)
      (verdict : World -> bool * option error) (next : World -> World) (w : World) :
  (forall w', fn w' = (Ret (verdict w'), next w')) ->
  exists err, fst (PollImmediate env interval timeout fn w) = Ret err.
Proof.
  intros Hfn. rewrite PollImmediate_WaitFor.
  generalize (S (poller interval timeout (o_ticks env (moment w)))). intros ticks.
  revert w. induction ticks as [|ticks IH]; intros w;
    rewrite (WaitFor_step fn verdict next Hfn);
    destruct (verdict w) as [[|] [e|]]; try (eexists; reflexivity).
  apply IH.
Qed.

Lemma waitJobCompletion_runs (env : Oracle) (jobName : string) :
  exists fn : ConditionFunc,
    (forall w', fn w' = (Ret (completionVerdict jobName (o_jobGet env (moment w'))),
                         polled env jobName w')) /\
    forall w, waitJobCompletion env jobName w =
              WaitFor (S (poller (Millisecond * 500) (Minute * 60) (o_ticks env (moment w))))
                fn w.
Proof.
  eexists. split; [|intros w; unfold waitJobCompletion; apply PollImmediate_WaitFor].
  intros w'. unfold bind, ask, ret, completionVerdict, polled, moment.
  destruct (o_jobGet env (List.length (trace w'))) as [j [e|]]; cbn [fst snd]; [reflexivity|].
  destruct (JobStatus_CompletionTime (Job_Status j)); [|reflexivity].
  now destruct (Z.eqb (JobStatus_Failed (Job_Status j)) 0).
Qed.

Lemma waitJobCompletion_returns (env : Oracle) (jobName : string) (w : World) :
  exists err, fst (waitJobCompletion env jobName w) = Ret err.
Proof.
  destruct (waitJobCompletion_runs env jobName) as (fn & Hfn & Hrun).
  rewrite Hrun. generalize (S (poller (Millisecond * 500) (Minute * 60) (o_ticks env (moment w)))).
  intros ticks. revert w. induction ticks as [|ticks IH]; intros w;
    rewrite (WaitFor_step fn _ _ Hfn);
    destruct (completionVerdict jobName (o_jobGet env (moment w))) as [[|] [e|]];
    try (eexists; reflexivity).
  apply IH.
Qed.

Lemma readiness_returns (env : Oracle) (w : World) :
  exists err, fst (PollImmediate env (Millisecond * 500) (Minute * 3) (readyCondition env) w)
              = Ret err.
Proof.
  apply (PollImmediate_returns env _ _ (readyCondition env)
           (fun w' => readinessVerdict (o_buildJobGet env (moment w'))) (observed env)).
  apply readyCondition_runs.
Qed.

Lemma defer_tell_bind {A B} (e : Event) (m : M A) (f : A -> M B) (w : World) :
  defer (tell e) (bind m f) w =
    match m w with
    | (Ret a, w1) => defer (tell e) (f a) w1
    | (Panic reason, w1) => (Panic reason, emit e w1)
    end.
Proof. unfold defer, bind. now destruct (m w) as [[a|reason] w1]. Qed.

Lemma runCBIBuildV1Alpha1_run (env : Oracle) (kubeNS : string) (buildJob : BuildJob) (w : World) :
  let created := o_buildJobCreate env (moment w) in
  let cleanup := EvBuildJobDelete (nameOf (fst created)) in
  runCBIBuildV1Alpha1 env kubeNS buildJob w =
    match snd created with
    | Some e => (Ret (Some e), submitted env buildJob w)
    | None =>
        let polling := PollImmediate env (Millisecond * 500) (Minute * 3) (readyCondition env)
                         (submitted env buildJob w) in
        match fst polling with
        | Panic reason => (Panic reason, emit cleanup (snd polling))
        | Ret (Some e) => (Ret (Some e), emit cleanup (snd polling))
        | Ret None =>
            let w1 := snd polling in
            let jobName := Status_Job (BuildJob_Status (job w1)) in
            let w2 := emit (EvSleep (10 * Second)) w1 in
            let argv := cmdFollowJobLog kubeNS jobName in
            match o_start env (moment w2) with
            | Some e => (Ret (Some e), emit cleanup (emit (EvStart argv (Some e)) w2))
            | None =>
                let waiting := waitJobCompletion env jobName (emit (EvStart argv None) w2) in
                (fst waiting, emit cleanup (emit EvKill (snd waiting)))
            end
        end
    end.
Proof.
  cbv zeta. unfold runCBIBuildV1Alpha1. rewrite bind_ask.
  destruct (o_buildJobCreate env (moment w)) as [created err] eqn:Hc.
  cbn [fst snd]. rewrite bind_setJob.
  replace (mkWorld (trace (emit (EvBuildJobCreate buildJob (created, err)) w))
             (template (emit (EvBuildJobCreate buildJob (created, err)) w))
             (nginx (emit (EvBuildJobCreate buildJob (created, err)) w)) created)
    with (submitted env buildJob w)
    by (unfold submitted; rewrite Hc; reflexivity).
  destruct err as [e|]; [reflexivity|].
  rewrite defer_tell_bind.
  destruct (PollImmediate env (Millisecond * 500) (Minute * 3) (readyCondition env)
              (submitted env buildJob w)) as [[[e|]|reason] w1]; cbn [fst snd];
    try reflexivity.
  rewrite defer_tell_bind. cbn [getJob].
  rewrite defer_tell_bind.
  change (waitJobPodReady (Status_Job (BuildJob_Status (job w1))) w1)
    with (@Ret (option error) None, emit (EvSleep (10 * Second)) w1).
  cbv beta iota.
  rewrite defer_tell_bind. cbn [getJob]. rewrite defer_tell_bind.
  unfold ask at 1. cbn [emit job].
  fold (moment (emit (EvSleep (10 * Second)) w1)).
  destruct (o_start env (moment (emit (EvSleep (10 * Second)) w1))) as [e|]; [reflexivity|].
  rewrite defer_tell, defer_tell. f_equal.
  - unfold bind. cbn [getJob emit job].
    destruct (waitJobCompletion env (Status_Job (BuildJob_Status (job w1))) _)
      as [[[e|]|reason] w3]; reflexivity.
  - f_equal. f_equal. unfold bind. cbn [getJob emit job].
    destruct (waitJobCompletion env (Status_Job (BuildJob_Status (job w1))) _)
      as [[[e|]|reason] w3]; reflexivity.
Qed.

(** ** What the monitor acquires, it releases *)

Lemma occurrences_app (kind : Event -> bool) (l1 l2 : list Event) :
  occurrences kind (l1 ++ l2) = (occurrences kind l1 + occurrences kind l2)%nat.
Proof. unfold occurrences. now rewrite filter_app, length_app. Qed.

Lemma occurrences_cons (kind : Event -> bool) (e : Event) (l : list Event) :
  occurrences kind (e :: l) = ((if kind e then 1 else 0) + occurrences kind l)%nat.
Proof. unfold occurrences. cbn. now destruct (kind e). Qed.

Lemma occurrences_nil (kind : Event -> bool) : occurrences kind [] = 0%nat.
Proof. reflexivity. Qed.

Lemma occurrences_neutral (l : list Event) :
  Forall neutral l ->
  occurrences isJobCreated l = 0%nat /\ occurrences isJobDeleted l = 0%nat /\
  occurrences isLogStarted l = 0%nat /\ occurrences isLogKilled l = 0%nat.
Proof.
  unfold occurrences.
  induction 1 as [|e l (H1 & H2 & H3 & H4) _ (IH1 & IH2 & IH3 & IH4)]; cbn;
    [now repeat split|].
  rewrite H1, H2, H3, H4. now repeat split.
Qed.

Ltac appending_neutral :=
  repeat first
    [ apply appends_ret | apply appends_getJob | apply appends_setJob
    | apply appends_bind | apply appends_ask | apply appends_PollImmediate
    | progress intros
    | match goal with
      | |- neutral _ => repeat split
      | |- appends _ (match ?x with _ => _ end) => destruct x
      | |- appends _ (if ?x then _ else _) => destruct x
      end ].

Lemma readiness_neutral (env : Oracle) :
  appends neutral (PollImmediate env (Millisecond * 500) (Minute * 3) (readyCondition env)).
Proof. unfold readyCondition. appending_neutral. Qed.

Lemma waitJobCompletion_neutral (env : Oracle) (jobName : string) :
  appends neutral (waitJobCompletion env jobName).
Proof. unfold waitJobCompletion. appending_neutral. Qed.

(** X6: whatever the surroundings answer, [runCBIBuildV1Alpha1] deletes
    the job description exactly when it created it and kills the log
    follower exactly when it started it, each at most once; the deletion of
    a created job description is the last operation of the function, and
    after a failed creation nothing else is attempted. *)
Theorem runCBIBuildV1Alpha1_releases (env : Oracle) (kubeNS : string) (buildJob : BuildJob)
        (w : World) :
  let created := o_buildJobCreate env (moment w) in
  let final := snd (runCBIBuildV1Alpha1 env kubeNS buildJob w) in
  exists performed,
    trace final = trace w ++ performed /\
    occurrences isJobDeleted performed = occurrences isJobCreated performed /\
    occurrences isLogKilled performed = occurrences isLogStarted performed /\
    (occurrences isJobCreated performed <= 1)%nat /\
    (occurrences isLogStarted performed <= 1)%nat /\
    (snd created = None ->
     exists earlier,
       performed = earlier ++ [EvBuildJobDelete (nameOf (fst created))]) /\
    (forall e, snd created = Some e ->
               performed = [EvBuildJobCreate buildJob created] /\
               fst (runCBIBuildV1Alpha1 env kubeNS buildJob w) = Ret (Some e)).
Proof.
  cbv zeta. rewrite runCBIBuildV1Alpha1_run. cbv zeta.
  destruct (o_buildJobCreate env (moment w)) as [created [e|]] eqn:Hc; cbn [fst snd].
  - exists [EvBuildJobCreate buildJob (created, Some e)].
    unfold submitted. rewrite Hc. cbn [trace].
    split; [reflexivity|]. do 4 (split; [cbn; lia|]). split; [discriminate|].
    intros e0 H. injection H as ->. now split.
  - destruct (readiness_neutral env (submitted env buildJob w)) as (gets & Hgets & Hneutral).
    destruct (occurrences_neutral gets Hneutral) as (G1 & G2 & G3 & G4).
    assert (Hsub : trace (submitted env buildJob w) =
                   trace w ++ [EvBuildJobCreate buildJob (created, None)])
      by (unfold submitted; now rewrite Hc).
    rewrite Hsub in Hgets.
    destruct (PollImmediate env (Millisecond * 500) (Minute * 3) (readyCondition env)
                (submitted env buildJob w)) as [[[e|]|reason] w1]; cbn [fst snd] in *.
    + exists ((EvBuildJobCreate buildJob (created, None) :: gets) ++
              [EvBuildJobDelete (nameOf created)]).
      cbn [emit trace]. rewrite Hgets, <- !app_assoc. cbn [app].
      split; [reflexivity|].
      rewrite ?occurrences_app, ?occurrences_cons, ?occurrences_nil, ?G1, ?G2, ?G3, ?G4. cbn.
      do 4 (split; [lia|]). split; [|intros e0 H; discriminate H].
      intros _. exists (EvBuildJobCreate buildJob (created, None) :: gets). reflexivity.
    + destruct (o_start env (moment (emit (EvSleep (10 * Second)) w1))) as [e|].
      * exists (([EvBuildJobCreate buildJob (created, None)] ++ gets ++
                 [EvSleep (10 * Second);
                  EvStart (cmdFollowJobLog kubeNS (Status_Job (BuildJob_Status (job w1))))
                    (Some e)]) ++ [EvBuildJobDelete (nameOf created)]).
        cbn [snd emit trace]. rewrite Hgets, <- !app_assoc. cbn [app].
        split; [reflexivity|].
        rewrite ?occurrences_app, ?occurrences_cons, ?occurrences_nil, ?G1, ?G2, ?G3, ?G4. cbn.
        do 4 (split; [lia|]). split; [|intros e0 H; discriminate H].
        intros _.
        exists (EvBuildJobCreate buildJob (created, None) ::
                gets ++ [EvSleep (10 * Second);
                         EvStart (cmdFollowJobLog kubeNS
                                    (Status_Job (BuildJob_Status (job w1)))) (Some e)]).
        rewrite <- app_comm_cons, <- app_assoc. reflexivity.
      * destruct (waitJobCompletion_neutral env (Status_Job (BuildJob_Status (job w1)))
                    (emit (EvStart (cmdFollowJobLog kubeNS
                                      (Status_Job (BuildJob_Status (job w1)))) None)
                       (emit (EvSleep (10 * Second)) w1)))
          as (fetches & Hfetches & Hneutral2).
        destruct (occurrences_neutral fetches Hneutral2) as (F1 & F2 & F3 & F4).
        exists ([EvBuildJobCreate buildJob (created, None)] ++ gets ++
                [EvSleep (10 * Second);
                 EvStart (cmdFollowJobLog kubeNS (Status_Job (BuildJob_Status (job w1)))) None]
                ++ fetches ++ [EvKill] ++ [EvBuildJobDelete (nameOf created)]).
        cbn [snd emit trace]. rewrite Hfetches. cbn [emit trace]. rewrite Hgets.
        split; [now rewrite <- !app_assoc|].
        rewrite ?occurrences_app, ?occurrences_cons, ?occurrences_nil, ?G1, ?G2, ?G3, ?G4,
          ?F1, ?F2, ?F3, ?F4. cbn.
        do 4 (split; [lia|]). split; [|intros e0 H; discriminate H].
        intros _.
        exists (EvBuildJobCreate buildJob (created, None) ::
                gets ++ [EvSleep (10 * Second);
                         EvStart (cmdFollowJobLog kubeNS
                                    (Status_Job (BuildJob_Status (job w1)))) None]
                ++ fetches ++ [EvKill]).
        rewrite <- app_comm_cons, <- !app_assoc. reflexivity.
    + exists ((EvBuildJobCreate buildJob (created, None) :: gets) ++
              [EvBuildJobDelete (nameOf created)]).
      cbn [emit trace]. rewrite Hgets, <- !app_assoc. cbn [app].
      split; [reflexivity|].
      rewrite ?occurrences_app, ?occurrences_cons, ?occurrences_nil, ?G1, ?G2, ?G3, ?G4. cbn.
      do 4 (split; [lia|]). split; [|intros e0 H; discriminate H].
      intros _. exists (EvBuildJobCreate buildJob (created, None) :: gets). reflexivity.
Qed.

(** ** Polls, from their results *)

Section ConditionsAgain.

Variable fn : @ConditionFunc ObjectMetaRest LanguageRest ContextRest.
Variable verdict : World -> bool * option error.
Variable next : World -> World.
Hypothesis fn_runs : forall w, fn w = (Ret (verdict w), next w).

(** A wait ends in the world of one of its evaluations. *)
Lemma WaitFor_world (ticks : nat) (w : World) :
  exists k, (k <= ticks)%nat /\
            snd (WaitFor ticks fn w) = after next (S k) w /\
            (forall j, (j < k)%nat -> verdict (after next j w) = (false, None)).
Proof.
  revert w. induction ticks as [|ticks IH]; intros w;
    rewrite (WaitFor_step fn verdict next fn_runs).
  - exists 0%nat. split; [lia|]. split; [|intros j Hj; lia].
    now destruct (verdict w) as [[|] [e|]].
  - destruct (verdict w) as [[|] [e|]] eqn:Hv;
      try (exists 0%nat; split; [lia|]; split; [reflexivity | intros j Hj; lia]).
    destruct (IH (next w)) as (k & Hk & Hw & Hpending).
    exists (S k). split; [lia|]. split.
    + rewrite Hw. apply (after_next next).
    + intros [|j] Hj; [exact Hv|].
      rewrite <- (after_next next). apply Hpending. lia.
Qed.

(** A wait that returns [nil] saw its condition hold last, and not before. *)
Lemma WaitFor_nil (ticks : nat) (w w' : World) :
  WaitFor ticks fn w = (Ret None, w') ->
  exists k, (k <= ticks)%nat /\
            verdict (after next k w) = (true, None) /\ w' = after next (S k) w /\
            (forall j, (j < k)%nat -> verdict (after next j w) = (false, None)).
Proof.
  revert w. induction ticks as [|ticks IH]; intros w;
    rewrite (WaitFor_step fn verdict next fn_runs); intros H.
  - exists 0%nat. split; [lia|].
    change (after next 0 w) with w. change (after next 1 w) with (next w).
    destruct (verdict w) as [[|] [e|]]; try discriminate. injection H as <-.
    repeat split. intros j Hj. lia.
  - destruct (verdict w) as [[|] [e|]] eqn:Hv; try discriminate.
    + exists 0%nat. split; [lia|].
      change (after next 0 w) with w. change (after next 1 w) with (next w).
      split; [exact Hv|]. split; [now injection H as <-|]. intros j Hj. lia.
    + destruct (IH (next w) H) as (k & Hk & Hlast & -> & Hpending).
      exists (S k). split; [lia|]. rewrite <- !(after_next next).
      split; [exact Hlast|]. split; [reflexivity|].
      intros [|j] Hj; [exact Hv|]. rewrite <- (after_next next). apply Hpending. lia.
Qed.

End ConditionsAgain.

(** The worlds of the completion poll: fetch after fetch of the same job,
    and nothing else. *)
Lemma after_polled (env : Oracle) (jobName : string) (k : nat) (w : World) :
  after (polled env jobName) k w =
    mkWorld (trace w ++ map (fun i => EvJobGet jobName (o_jobGet env (moment w + i)))
                            (seq 0 k))
      (template w) (nginx w) (job w).
Proof.
  induction k as [|k IH].
  - unfold after. cbn. rewrite app_nil_r. now destruct w.
  - unfold after in *. rewrite Nat.iter_succ, IH. unfold polled at 1, emit, moment.
    cbn [trace template nginx job].
    rewrite seq_S, map_app, app_assoc, length_app, length_map, length_seq. reflexivity.
Qed.

Lemma after_observed_trace (env : Oracle) (k : nat) (w : World) :
  exists gets, trace (after (observed env) k w) = trace w ++ gets /\
               List.length gets = k /\
               Forall (fun e => isSubmission e = false) gets /\
               template (after (observed env) k w) = template w /\
               nginx (after (observed env) k w) = nginx w.
Proof.
  induction k as [|k (gets & Ht & Hl & Hq & Htm & Hn)].
  - exists []. unfold after. cbn. now rewrite app_nil_r.
  - unfold after in *. rewrite Nat.iter_succ. unfold observed at 1 3 4. cbn [trace template nginx].
    rewrite Ht. eexists (gets ++ [_]). rewrite app_assoc. split; [reflexivity|].
    rewrite length_app. cbn. split; [lia|]. split; [|now split].
    apply Forall_app. split; [exact Hq | now repeat constructor].
Qed.

Lemma completion_at (env : Oracle) (jobName : string) (w : World) (j : nat) :
  completionVerdict jobName (o_jobGet env (moment (after (polled env jobName) j w))) =
    completionVerdict jobName (o_jobGet env (moment w + j)).
Proof. now rewrite moment_after_polled. Qed.

(** X7: [waitJobCompletion] performs between one and [n + 2] fetches of the
    job's status, where [n] is the number of ticks its poller delivers, at
    most 7200; it performs nothing else, and leaves the template, the
    staging handle and the job description as they were. *)
Theorem waitJobCompletion_only_fetches (env : Oracle) (jobName : string) (w : World) :
  let n := poller (Millisecond * 500) (Minute * 60) (o_ticks env (moment w)) in
  let final := snd (waitJobCompletion env jobName w) in
  exists fetches,
    (1 <= fetches <= n + 2)%nat /\
    Z.of_nat fetches <= 7202 /\
    trace final =
      trace w ++ map (fun i => EvJobGet jobName (o_jobGet env (moment w + i))) (seq 0 fetches) /\
    (forall i, (S i < fetches)%nat -> jobPending (o_jobGet env (moment w + i))) /\
    template final = template w /\ nginx final = nginx w /\ job final = job w.
Proof.
  cbv zeta.
  destruct (waitJobCompletion_runs env jobName) as (fn & Hfn & Hrun). rewrite Hrun.
  set (n := poller (Millisecond * 500) (Minute * 60) (o_ticks env (moment w))).
  destruct (WaitFor_world fn _ _ Hfn (S n) w) as (k & Hk & -> & Hpending).
  exists (S k). rewrite after_polled. cbn [trace template nginx job].
  split; [lia|]. split.
  - assert (Z.of_nat n <= 7200)
      by (unfold n, poller; change (Minute * 60 / (Millisecond * 500)) with 7200; lia).
    lia.
  - split; [reflexivity|]. split; [|now repeat split].
    intros i Hi. apply (proj1 (completionVerdict_pending jobName _)).
    rewrite <- (completion_at env jobName w i). apply Hpending. lia.
Qed.

Lemma completion_decided (env : Oracle) (jobName : string) (w : World) (k : nat) :
  let n := poller (Millisecond * 500) (Minute * 60) (o_ticks env (moment w)) in
  let fetch := fun j : nat => o_jobGet env (moment w + j)%nat in
  (k <= S n)%nat ->
  (forall j, (j < k)%nat -> jobPending (fetch j)) ->
  ~ jobPending (fetch k) ->
  waitJobCompletion env jobName w =
    (Ret (resolve (completionVerdict jobName (fetch k))), after (polled env jobName) (S k) w).
Proof.
  intros n fetch Hk Hpending Hdecided.
  destruct (waitJobCompletion_runs env jobName) as (fn & Hfn & Hrun). rewrite Hrun. fold n.
  unfold fetch. rewrite <- (completion_at env jobName w k).
  apply (WaitFor_decided fn _ _ Hfn); [exact Hk | |].
  - intros j Hj. rewrite completion_at.
    apply (proj2 (completionVerdict_pending jobName _)). now apply Hpending.
  - rewrite completion_at. intros Hv.
    exact (Hdecided (proj1 (completionVerdict_pending jobName _) Hv)).
Qed.

(** X8: a fetch of the job's status that returns an error ends
    [waitJobCompletion] at once: the fetches before it showed no completion
    time, the error returned is ["not found: <job>"], whatever the error of
    the fetch was, and no further fetch is made. *)
Theorem waitJobCompletion_fetch_error (env : Oracle) (jobName : string) (w : World)
        (k : nat) (e : error) :
  let n := poller (Millisecond * 500) (Minute * 60) (o_ticks env (moment w)) in
  let fetch := fun j : nat => o_jobGet env (moment w + j)%nat in
  (k <= S n)%nat ->
  (forall j, (j < k)%nat -> jobPending (fetch j)) ->
  snd (fetch k) = Some e ->
  fst (waitJobCompletion env jobName w) =
    Ret (Some (Errorf "not found: %s" [ArgString jobName])) /\
  moment (snd (waitJobCompletion env jobName w)) = (moment w + S k)%nat.
Proof.
  intros n fetch Hk Hpending Herr.
  rewrite (completion_decided env jobName w k Hk Hpending).
  - cbn [fst snd]. rewrite moment_after_polled. split; [|reflexivity].
    unfold completionVerdict, resolve. unfold fetch in Herr. now rewrite Herr.
  - intros [Hnil _]. unfold fetch in *. congruence.
Qed.

Lemma readiness_nil (env : Oracle) (w w' : World) :
  PollImmediate env (Millisecond * 500) (Minute * 3) (readyCondition env) w = (Ret None, w') ->
  Status_Job (BuildJob_Status (job w')) <> "" /\
  template w' = template w /\ nginx w' = nginx w /\
  exists gets, trace w' = trace w ++ gets /\ Forall (fun e => isSubmission e = false) gets.
Proof.
  rewrite PollImmediate_WaitFor. intros H.
  destruct (WaitFor_nil (readyCondition env)
              (fun w0 => readinessVerdict (o_buildJobGet env (moment w0)))
              (observed env) (readyCondition_runs env) _ _ _ H) as (k & _ & Hlast & -> & _).
  split.
  - unfold after. rewrite Nat.iter_succ. unfold observed at 1. cbn [job].
    fold (after (observed env) k w).
    unfold readinessVerdict in Hlast.
    destruct (o_buildJobGet env (moment (after (observed env) k w))) as [j [e|]];
      cbn [fst snd] in *; [discriminate|].
    destruct (String.eqb_spec (Status_Job (BuildJob_Status j)) ""); [discriminate | assumption].
  - destruct (after_observed_trace env (S k) w) as (gets & Ht & _ & Hq & Htm & Hn).
    repeat split; [exact Htm | exact Hn | now exists gets].
Qed.



(** ** A build that succeeded, traced back *)

Lemma bind_Ret {A B} (m : M A) (f : A -> M B) (w w' : World) (b : B) :
  bind m f w = (Ret b, w') -> exists a w1, m w = (Ret a, w1) /\ f a w1 = (Ret b, w').
Proof.
  unfold bind. destruct (m w) as [[a|reason] w1]; [|discriminate].
  intros H. now exists a, w1.
Qed.

Lemma defer_Ret {A B} (cleanup : M B) (body : M A) (w w' : World) (a : A) :
  defer cleanup body w = (Ret a, w') ->
  exists w1, body w = (Ret a, w1) /\ w' = snd (cleanup w1).
Proof.
  unfold defer. destruct (body w) as [r w1].
  destruct (cleanup w1) as [[b|reason] w2] eqn:Hc; [|discriminate].
  intros H. injection H as Hr Hw. subst r w'. exists w1. now rewrite Hc.
Qed.

Lemma ret_Ret {A} (a b : A) (w w' : World) : ret a w = (Ret b, w') -> a = b /\ w = w'.
Proof. unfold ret. intros H. now injection H. Qed.

Ltac returned H := apply ret_Ret in H; destruct H as [H ?]; try discriminate H.

(** [Fulfill] that returned [nil]. *)
Lemma Fulfill_nil (env : Oracle) (imageName url : string) (w w' : World) :
  Fulfill env imageName url w = (Ret None, w') ->
  exists name naming,
    w' = mkWorld (trace w ++ naming)
           (mkTemplate (fulfilled name imageName url (templateOf w))) (nginx w) (job w) /\
    name <> "" /\
    (nameOf (templateOf w) <> "" -> name = nameOf (templateOf w) /\ naming = []) /\
    (naming = [] \/ exists nanos id, naming = [EvUnixNano nanos; EvRandomID id]).
Proof.
  destruct (string_dec (nameOf (templateOf w)) "") as [Hn|Hn].
  - destruct (slice_to 1 (o_randomID env (S (moment w)))) as [c|] eqn:Hc.
    + rewrite (Fulfill_unnamed env imageName url w c Hn Hc). intros H. injection H as <-.
      eexists _, _. split; [reflexivity|]. split; [apply sprintf_skaffold_nonempty|].
      split; [congruence|]. right. eexists _, _. reflexivity.
    + rewrite (Fulfill_stuck env imageName url w Hn Hc). discriminate.
  - rewrite (Fulfill_named env imageName url w Hn). intros H. injection H as <-.
    exists (nameOf (templateOf w)), []. rewrite app_nil_r. repeat split; try assumption.
    now left.
Qed.

Lemma waitJobCompletion_world (env : Oracle) (jobName : string) (w : World) :
  exists fetches,
    snd (waitJobCompletion env jobName w) =
      mkWorld (trace w ++ fetches) (template w) (nginx w) (job w) /\
    Forall (fun e => isSubmission e = false) fetches.
Proof.
  destruct (waitJobCompletion_runs env jobName) as (fn & Hfn & Hrun). rewrite Hrun.
  destruct (WaitFor_world fn _ _ Hfn
              (S (poller (Millisecond * 500) (Minute * 60) (o_ticks env (moment w)))) w)
    as (k & _ & -> & _).
  rewrite after_polled. eexists. split; [reflexivity|].
  apply Forall_forall. intros e He. apply in_map_iff in He.
  now destruct He as (i & <- & _).
Qed.

(** [runCBIBuildV1Alpha1] that returned [nil]: the job description was
    submitted first, and the template and the staging handle are as they
    were. *)
Lemma runCBIBuildV1Alpha1_nil (env : Oracle) (kubeNS : string) (buildJob : BuildJob)
      (w w' : World) :
  runCBIBuildV1Alpha1 env kubeNS buildJob w = (Ret None, w') ->
  exists created later,
    trace w' = trace w ++ EvBuildJobCreate buildJob (created, None) :: later /\
    Forall (fun e => isSubmission e = false) later /\
    template w' = template w /\ nginx w' = nginx w.
Proof.
  rewrite runCBIBuildV1Alpha1_run. cbv zeta. unfold submitted.
  destruct (o_buildJobCreate env (moment w)) as [created [e|]]; cbn [fst snd]; [discriminate|].
  destruct (PollImmediate env (Millisecond * 500) (Minute * 3) (readyCondition env) _)
    as [[[e|]|reason] w1] eqn:Hpoll; cbn [fst snd]; try discriminate.
  destruct (readiness_nil env _ _ Hpoll) as (_ & Htemplate & Hnginx & gets & Htrace & Hgets).
  destruct (o_start env _) as [e|]; [discriminate|].
  match goal with |- context [waitJobCompletion env ?n ?w0] =>
    destruct (waitJobCompletion_world env n w0) as (fetches & Hworld & Hfetches);
    destruct (waitJobCompletion env n w0) as [o w3] end.
  cbn [fst snd] in *. intros H. injection H as -> <-. subst w3.
  cbn [emit trace template nginx job] in *.
  exists created.
  exists (gets ++ [EvSleep (10 * Second);
                   EvStart (cmdFollowJobLog kubeNS (Status_Job (BuildJob_Status (job w1)))) None]
          ++ fetches ++ [EvKill; EvBuildJobDelete (nameOf created)]).
  rewrite Htrace, Htemplate, Hnginx.
  cbn [trace template nginx]. rewrite <- !app_assoc. cbn [app].
  split; [reflexivity|]. split; [|now split].
  apply Forall_app. split; [exact Hgets|]. repeat constructor.
  apply Forall_app. split; [exact Hfetches|]. now repeat constructor.
Qed.

(** [RunCBIBuild] that returned a reference and no error, traced back
    through every step. *)
Lemma RunCBIBuild_succeeded (env : Oracle) (artifact : Artifact) (w w' : World) (ref : string) :
  RunCBIBuild env artifact w = (Ret (ref, None), w') ->
  exists (nanos : Z) (id suffix file digest tag name : string) (p : Pod) (s : Service)
         (packed : Event) (o1 o2 : string) (created : BuildJob)
         (naming later teardown : list Event),
    let staged := sprintf_tempnginx nanos suffix in
    let dest := ("/usr/share/nginx/html/" ++ "sha256" ++ "-" ++ digest ++ ".tar.gz")%string in
    let url := ("http://" ++ Service_Name s ++ "/" ++ Base dest)%string in
    ref = (ImageName artifact ++ ":" ++ tag)%string /\
    slice_to 2 id = Some suffix /\
    trace w' =
      trace w ++
      [EvNewForConfig None; EvUnixNano nanos; EvRandomID id;
       EvTempFile "" "skaffold-cbi-temp" (file, None);
       EvPodCreate (mkPod staged) (p, None);
       EvServiceCreate (mkService staged) (s, None);
       EvWaitForPodReady (Pod_Name p) None;
       packed;
       EvRun ["kubectl"; "cp"; file; ("" ++ "/" ++ Pod_Name p ++ ":" ++ dest)%string] (o1, None);
       EvRun ["kubectl"; "--namespace"; ""; "exec"; Pod_Name p; "chmod"; "0644"; dest] (o2, None);
       EvRandomID tag] ++
      naming ++
      [EvCBINewForConfig None;
       EvBuildJobCreate (fulfilled name ref url (templateOf w)) (created, None)] ++
      later ++ [EvRemove file] ++ teardown /\
    (packed = match Artifact_DockerArtifact artifact with
              | Some d => EvCreateDockerTarGzContext (DockerfilePath d) (Workspace artifact)
                            (digest, None)
              | None => EvCreateTarGz (Workspace artifact) (digest, None)
              end) /\
    name <> "" /\
    (nameOf (templateOf w) <> "" -> name = nameOf (templateOf w) /\ naming = []) /\
    (naming = [] \/ exists nanos' id', naming = [EvUnixNano nanos'; EvRandomID id']) /\
    Forall (fun e => isSubmission e = false) later /\
    ((exists e, teardown = [EvServiceDelete (Service_Name s) (Some e)]) \/
     (exists r, teardown = [EvServiceDelete (Service_Name s) None;
                            EvPodDelete (Pod_Name p) r])) /\
    template w' = mkTemplate (fulfilled name ref url (templateOf w)).
Proof.
  intros Hrun. unfold RunCBIBuild in Hrun. rewrite bind_getTemplate in Hrun.
  unfold APIVersion in Hrun. rewrite String.eqb_refl in Hrun. cbn [negb] in Hrun.
  rewrite bind_ask in Hrun.
  destruct (o_newForConfig env (moment w)) as [e|]; [returned Hrun|].
  apply bind_Ret in Hrun. destruct Hrun as (u & w2 & Hnew & Hrun).
  rewrite NewTempNginx_run in Hnew. cbv zeta in Hnew.
  destruct (slice_to 2 _) as [suffix|] eqn:Hsuffix in Hnew; [|discriminate].
  injection Hnew as _ <-.
  apply defer_Ret in Hrun. destruct Hrun as (w3 & Hrun & ->).
  rewrite bind_ask in Hrun.
  match type of Hrun with context [o_tempFile env ?n] =>
    destruct (o_tempFile env n) as [file [e|]] end; [returned Hrun|].
  apply defer_Ret in Hrun. destruct Hrun as (w4 & Hrun & ->).
  apply bind_Ret in Hrun. destruct Hrun as (createErr & w5 & Hcreate & Hrun).
  apply bind_Ret in Hrun. destruct Hrun as ([digest tarErr] & w6 & Hpack & Hrun).
  apply bind_Ret in Hrun. destruct Hrun as (err & w7 & Hwait & Hrun).
  destruct err as [e|]; [returned Hrun|].
  assert (Hboth : createErr = None /\ tarErr = None /\ w7 = w6).
  { unfold Wait in Hwait. destruct createErr, tarErr; try discriminate.
    injection Hwait as <-. now repeat split. }
  destruct Hboth as (-> & -> & ->). clear Hwait.
  rewrite Create_run in Hcreate. cbv zeta in Hcreate.
  match type of Hcreate with context [o_podCreate env ?n] =>
    destruct (o_podCreate env n) as [p [e|]] end; cbn [fst snd] in Hcreate; [discriminate|].
  match type of Hcreate with context [o_serviceCreate env ?n] =>
    destruct (o_serviceCreate env n) as [s [e|]] end; cbn [fst snd] in Hcreate; [discriminate|].
  match type of Hcreate with context [o_waitForPodReady env ?n] =>
    destruct (o_waitForPodReady env n) as [e|] end; [discriminate|].
  injection Hcreate as <-.
  cbn [emit trace template nginx job ns pod service] in *.
  rewrite bind_getNginx in Hrun. cbv zeta in Hrun. cbn [nginx service] in Hrun.
  match type of Hpack with createContext _ _ ?made = _ =>
    assert (Hpacked : exists packed,
               packed = match Artifact_DockerArtifact artifact with
                        | Some d => EvCreateDockerTarGzContext (DockerfilePath d)
                                      (Workspace artifact) (digest, None)
                        | None => EvCreateTarGz (Workspace artifact) (digest, None)
                        end /\
               w6 = emit packed made)
  end.
  { unfold createContext in Hpack.
    destruct (Artifact_DockerArtifact artifact) as [d|]; rewrite bind_ask in Hpack;
      match type of Hpack with context [o_createTarGz env ?n] =>
        destruct (o_createTarGz env n) as [dg [e|]] end;
      returned Hpack; injection Hpack as ->; subst w6;
      eexists; split; reflexivity. }
  destruct Hpacked as (packed & Hpacked & ->). clear Hpack.
  cbn [emit trace template nginx job ns pod service] in Hrun.
  apply bind_Ret in Hrun. destruct Hrun as (err & w8 & Hcopy & Hrun).
  destruct err as [e|]; [returned Hrun|].
  rewrite Copy_run in Hcopy. cbv zeta in Hcopy.
  match type of Hcopy with context [o_run env ?n] =>
    destruct (o_run env n) as [o1 [e|]] end; cbn [fst snd] in Hcopy; [discriminate|].
  match type of Hcopy with context [snd (o_run env ?n)] =>
    destruct (o_run env n) as [o2 [e|]] end; cbn [fst snd] in Hcopy; [discriminate|].
  injection Hcopy as <-.
  unfold RandomID in Hrun. rewrite bind_ask in Hrun.
  match type of Hrun with context [o_randomID env ?n] =>
    set (tag := o_randomID env n) in Hrun end.
  apply bind_Ret in Hrun. destruct Hrun as (err & w9 & Hfulfill & Hrun).
  destruct err as [e|]; [returned Hrun|].
  apply Fulfill_nil in Hfulfill. destruct Hfulfill as (name & naming & -> & Hname & Hkept & Hnaming).
  rewrite bind_getTemplate, bind_ask in Hrun.
  match type of Hrun with context [o_cbiNewForConfig env ?n] =>
    destruct (o_cbiNewForConfig env n) as [e|] end; [returned Hrun|].
  apply bind_Ret in Hrun. destruct Hrun as (err & w10 & Hjob & Hrun).
  destruct err as [e|]; [returned Hrun|].
  returned Hrun. injection Hrun as <-. subst w10.
  apply runCBIBuildV1Alpha1_nil in Hjob.
  destruct Hjob as (created & later & Htrace & Hlater & Htemplate & Hnginx).
  unfold templateOf in *.
  cbn [emit trace template nginx job ns pod service bj] in *.
  rewrite Delete_run. unfold tell. cbn [snd emit trace template nginx job].
  rewrite Hnginx. cbn [pod service].
  match goal with |- context [o_serviceDelete env ?n] =>
    destruct (o_serviceDelete env n) as [e|] end;
    cbn [snd emit trace template]; rewrite Htrace, Htemplate;
    cbn [trace template]; rewrite <- !app_assoc; cbn [app].
  all: do 2 eexists;
    exists suffix, file, digest, tag, name, p, s, packed, o1, o2, created, naming, later;
    eexists.
  all: split; [reflexivity|]. all: split; [exact Hsuffix|]. all: split; [reflexivity|].
  all: split; [exact Hpacked|]. all: split; [exact Hname|]. all: split; [exact Hkept|].
  all: split; [exact Hnaming|]. all: split; [exact Hlater|].
  all: split; [|reflexivity].
  - left. eexists. reflexivity.
  - right. eexists. reflexivity.
Qed.

(** X10: when [RunCBIBuild] returns a reference and no error, the reference
    is the artifact's image name, a colon and a tag drawn from the random
    source; exactly one job description was submitted to the cluster, it
    was accepted, and it asks to push to exactly that reference, from an
    HTTP context; it is the template with nothing else changed (beside the
    defaults of [Fulfill]), and the template object, which the caller
    shares with later builds, is left holding it. *)
Theorem RunCBIBuild_returns_what_it_submits
        (env : Oracle) (artifact : Artifact) (w : World) (ref : string) :
  fst (RunCBIBuild env artifact w) = Ret (ref, None) ->
  exists (tag : string) (submittedJob created : BuildJob) (before later : list Event),
    ref = (ImageName artifact ++ ":" ++ tag)%string /\
    trace (snd (RunCBIBuild env artifact w)) =
      trace w ++ before ++ EvBuildJobCreate submittedJob (created, None) :: later /\
    In (EvRandomID tag) before /\
    Forall (fun e => isSubmission e = false) before /\
    Forall (fun e => isSubmission e = false) later /\
    targetOf submittedJob = ref /\
    pushOf submittedJob = true /\
    contextKindOf submittedJob = "HTTP" /\
    nameOf submittedJob <> "" /\
    sameElsewhere (templateOf w) submittedJob /\
    template (snd (RunCBIBuild env artifact w)) = mkTemplate submittedJob.
Proof.
  intros H. destruct (RunCBIBuild env artifact w) as [out w'] eqn:Hrun.
  cbn [fst snd] in *. subst out.
  destruct (RunCBIBuild_succeeded env artifact w w' ref Hrun)
    as (nanos & id & suffix & file & digest & tag & name & p & s & packed & o1 & o2 &
        created & naming & later & teardown & Hsteps).
  cbv zeta in Hsteps.
  destruct Hsteps as (Href & _ & Htrace & Hpacked & Hname & Hkept & Hnaming & Hlater &
                      Hteardown & Htemplate).
  set (dest := ("/usr/share/nginx/html/" ++ "sha256" ++ "-" ++ digest ++ ".tar.gz")%string)
    in *.
  set (url := ("http://" ++ Service_Name s ++ "/" ++ Base dest)%string) in *.
  exists tag, (fulfilled name ref url (templateOf w)), created,
    ([EvNewForConfig None; EvUnixNano nanos; EvRandomID id;
      EvTempFile "" "skaffold-cbi-temp" (file, None);
      EvPodCreate (mkPod (sprintf_tempnginx nanos suffix)) (p, None);
      EvServiceCreate (mkService (sprintf_tempnginx nanos suffix)) (s, None);
      EvWaitForPodReady (Pod_Name p) None;
      packed;
      EvRun ["kubectl"; "cp"; file; ("" ++ "/" ++ Pod_Name p ++ ":" ++ dest)%string] (o1, None);
      EvRun ["kubectl"; "--namespace"; ""; "exec"; Pod_Name p; "chmod"; "0644"; dest] (o2, None);
      EvRandomID tag] ++ naming ++ [EvCBINewForConfig None]),
    (later ++ [EvRemove file] ++ teardown).
  split; [exact Href|]. split; [|split; [|split; [|split]]].
  - rewrite Htrace, <- !app_assoc. reflexivity.
  - apply in_or_app. left. do 10 right. now left.
  - apply Forall_app. split; [|apply Forall_app; split].
    + repeat constructor. rewrite Hpacked. now destruct (Artifact_DockerArtifact artifact).
    + destruct Hnaming as [->|(nanos' & id' & ->)]; repeat constructor.
    + repeat constructor.
  - apply Forall_app. split; [exact Hlater|]. repeat constructor.
    destruct Hteardown as [(e & ->)|(r & ->)]; repeat constructor.
  - unfold targetOf, pushOf, contextKindOf, nameOf, sameElsewhere, fulfilled.
    cbn. repeat split; [exact Hname | exact Htemplate].
Qed.

(** X11: when [RunCBIBuild] returns no error, what the job is told to fetch
    is what was uploaded: the temporary file was copied, by [kubectl cp],
    into the pod the cluster answered with, under
    [/usr/share/nginx/html/sha256-<digest>.tar.gz] for the digest of the
    packed context, and the job's context URL is [http://], the name of the
    service the cluster answered with, [/] and the last element of that
    path.  The temporary file is removed after the job has run, and the
    teardown that follows names that service and that pod. *)
Theorem RunCBIBuild_serves_what_it_uploads
        (env : Oracle) (artifact : Artifact) (w : World) (ref : string) :
  fst (RunCBIBuild env artifact w) = Ret (ref, None) ->
  exists (file digest output : string) (p0 p : Pod) (s0 s : Service)
         (submittedJob created : BuildJob) (opening between later teardown : list Event),
    let dest := ("/usr/share/nginx/html/sha256-" ++ digest ++ ".tar.gz")%string in
    trace (snd (RunCBIBuild env artifact w)) =
      trace w ++ opening ++
      [EvRun ["kubectl"; "cp"; file; ("/" ++ Pod_Name p ++ ":" ++ dest)%string] (output, None)] ++
      between ++ [EvBuildJobCreate submittedJob (created, None)] ++
      later ++ [EvRemove file] ++ teardown /\
    In (EvTempFile "" "skaffold-cbi-temp" (file, None)) opening /\
    In (EvPodCreate p0 (p, None)) opening /\
    In (EvServiceCreate s0 (s, None)) opening /\
    Pod_Name p0 = Service_Name s0 /\
    ((exists d, Artifact_DockerArtifact artifact = Some d /\
                In (EvCreateDockerTarGzContext (DockerfilePath d) (Workspace artifact)
                      (digest, None)) opening) \/
     (Artifact_DockerArtifact artifact = None /\
      In (EvCreateTarGz (Workspace artifact) (digest, None)) opening)) /\
    contextURLOf submittedJob = ("http://" ++ Service_Name s ++ "/" ++ Base dest)%string /\
    ((exists e, teardown = [EvServiceDelete (Service_Name s) (Some e)]) \/
     (exists r, teardown = [EvServiceDelete (Service_Name s) None;
                            EvPodDelete (Pod_Name p) r])).
Proof.
  intros H. destruct (RunCBIBuild env artifact w) as [out w'] eqn:Hrun.
  cbn [fst snd] in *. subst out.
  destruct (RunCBIBuild_succeeded env artifact w w' ref Hrun)
    as (nanos & id & suffix & file & digest & tag & name & p & s & packed & o1 & o2 &
        created & naming & later & teardown & Hsteps).
  cbv zeta in Hsteps.
  destruct Hsteps as (Href & _ & Htrace & Hpacked & _ & _ & _ & _ & Hteardown & _).
  set (dest := ("/usr/share/nginx/html/" ++ "sha256" ++ "-" ++ digest ++ ".tar.gz")%string)
    in *.
  set (url := ("http://" ++ Service_Name s ++ "/" ++ Base dest)%string) in *.
  exists file, digest, o1, (mkPod (sprintf_tempnginx nanos suffix)), p,
    (mkService (sprintf_tempnginx nanos suffix)), s,
    (fulfilled name ref url (templateOf w)), created,
    [EvNewForConfig None; EvUnixNano nanos; EvRandomID id;
     EvTempFile "" "skaffold-cbi-temp" (file, None);
     EvPodCreate (mkPod (sprintf_tempnginx nanos suffix)) (p, None);
     EvServiceCreate (mkService (sprintf_tempnginx nanos suffix)) (s, None);
     EvWaitForPodReady (Pod_Name p) None;
     packed],
    ([EvRun ["kubectl"; "--namespace"; ""; "exec"; Pod_Name p; "chmod"; "0644"; dest]
        (o2, None);
      EvRandomID tag] ++ naming ++ [EvCBINewForConfig None]),
    later, teardown.
  cbv zeta. split; [|split; [|split; [|split; [|split; [|split; [|split]]]]]].
  - rewrite Htrace, <- !app_assoc. reflexivity.
  - do 3 right. now left.
  - do 4 right. now left.
  - do 5 right. now left.
  - reflexivity.
  - rewrite Hpacked. destruct (Artifact_DockerArtifact artifact) as [d|].
    + left. exists d. split; [reflexivity|]. do 7 right. now left.
    + right. split; [reflexivity|]. do 7 right. now left.
  - reflexivity.
  - exact Hteardown.
Qed.

(** X12: a result of [RunCBIBuild] that carries an error carries the empty
    reference, whichever step failed. *)
Theorem RunCBIBuild_error_has_no_reference
        (env : Oracle) (artifact : Artifact) (w : World) (ref : string) (e : error) :
  fst (RunCBIBuild env artifact w) = Ret (ref, Some e) -> ref = "".
Proof.
  intros H. destruct (RunCBIBuild env artifact w) as [out w'] eqn:Hrun.
  cbn [fst] in H. subst out.
  assert (Hfailed : forall (e0 : error) (w0 w1 : World),
             ret (A := string * option error) ("", Some e0) w0 = (Ret (ref, Some e), w1) ->
             ref = "").
  { intros e0 w0 w1 Hret. apply ret_Ret in Hret. destruct Hret as [Hret _].
    now injection Hret. }
  unfold RunCBIBuild in Hrun. rewrite bind_getTemplate in Hrun.
  unfold APIVersion in Hrun. rewrite String.eqb_refl in Hrun. cbn [negb] in Hrun.
  rewrite bind_ask in Hrun.
  destruct (o_newForConfig env (moment w)) as [e0|]; [exact (Hfailed _ _ _ Hrun)|].
  apply bind_Ret in Hrun. destruct Hrun as (u & w2 & _ & Hrun).
  apply defer_Ret in Hrun. destruct Hrun as (w3 & Hrun & _).
  rewrite bind_ask in Hrun.
  destruct (o_tempFile env (moment w2)) as [file [e0|]]; [exact (Hfailed _ _ _ Hrun)|].
  apply defer_Ret in Hrun. destruct Hrun as (w4 & Hrun & _).
  apply bind_Ret in Hrun. destruct Hrun as (createErr & w5 & _ & Hrun).
  apply bind_Ret in Hrun. destruct Hrun as ([digest tarErr] & w6 & _ & Hrun).
  apply bind_Ret in Hrun. destruct Hrun as ([e0|] & w7 & _ & Hrun);
    [exact (Hfailed _ _ _ Hrun)|].
  rewrite bind_getNginx in Hrun. cbv zeta in Hrun.
  apply bind_Ret in Hrun. destruct Hrun as ([e0|] & w8 & _ & Hrun);
    [exact (Hfailed _ _ _ Hrun)|].
  unfold RandomID in Hrun. rewrite bind_ask in Hrun.
  apply bind_Ret in Hrun. destruct Hrun as ([e0|] & w9 & _ & Hrun);
    [exact (Hfailed _ _ _ Hrun)|].
  rewrite bind_getTemplate, bind_ask in Hrun.
  destruct (o_cbiNewForConfig env _) as [e0|]; [exact (Hfailed _ _ _ Hrun)|].
  apply bind_Ret in Hrun. destruct Hrun as ([e0|] & w10 & _ & Hrun);
    [exact (Hfailed _ _ _ Hrun)|].
  apply ret_Ret in Hrun. destruct Hrun as [Hrun _]. discriminate Hrun.
Qed.

(** ** The temporary file *)

Ltac appending_files :=
  repeat first
    [ apply appends_ret | apply appends_panic
    | apply appends_getTemplate | apply appends_setTemplate
    | apply appends_getNginx | apply appends_setNginx
    | apply appends_getJob | apply appends_setJob
    | apply appends_slice | apply appends_assign | apply appends_Wait
    | apply appends_bind | apply appends_defer
    | apply appends_ask | apply appends_tell
    | apply appends_PollImmediate
    | progress intros
    | match goal with
      | |- keepsFiles _ => split; reflexivity
      | |- appends _ (match ?x with _ => _ end) => destruct x
      | |- appends _ (if ?x then _ else _) => destruct x
      end ].

Lemma occurrences_keepsFiles (l : list Event) :
  Forall keepsFiles l ->
  occurrences isRemove l = 0%nat /\ occurrences isTempFile l = 0%nat /\
  (forall file, ~ In (EvRemove file) l).
Proof.
  unfold occurrences.
  induction 1 as [|e l [H1 H2] _ (IH1 & IH2 & IH3)]; cbn; [now repeat split|].
  rewrite H1, H2. repeat split; try assumption.
  intros file [->|Hin]; [discriminate | exact (IH3 file Hin)].
Qed.

(** X13: [RunCBIBuild] removes the temporary file exactly when it created
    it, whatever the outcome, a panic included: among the operations of a
    call there is at most one creation of a temporary file that succeeded,
    as many removals, and a removal names the file that was created and
    comes after its creation. *)
Theorem RunCBIBuild_removes_its_file (env : Oracle) (artifact : Artifact) (w : World) :
  exists performed,
    trace (snd (RunCBIBuild env artifact w)) = trace w ++ performed /\
    occurrences isRemove performed = occurrences isTempFile performed /\
    (occurrences isTempFile performed <= 1)%nat /\
    (forall file, In (EvRemove file) performed ->
       exists before between after,
         performed = before ++ EvTempFile "" "skaffold-cbi-temp" (file, None) ::
                     between ++ EvRemove file :: after).
Proof.
  unfold RunCBIBuild. rewrite bind_getTemplate. unfold APIVersion.
  rewrite String.eqb_refl. cbn [negb]. rewrite bind_ask.
  destruct (o_newForConfig env (moment w)) as [e|].
  { exists [EvNewForConfig (Some e)]. cbn. repeat split; [lia|].
    intros file [H|[]]. discriminate H. }
  assert (Hnew : appends keepsFiles (NewTempNginx env "default"))
    by (unfold NewTempNginx, UnixNano, RandomID; appending_files).
  assert (Hdel : appends keepsFiles (Delete env)) by (unfold Delete; appending_files).
  unfold bind at 1.
  destruct (Hnew (emit (EvNewForConfig None) w)) as (ev1 & Ht1 & Hk1).
  destruct (occurrences_keepsFiles ev1 Hk1) as (Hr1 & Hf1 & Hin1).
  destruct (NewTempNginx env "default" (emit (EvNewForConfig None) w)) as [[[]|reason] w2];
    cbn [snd] in Ht1.
  2: { exists (EvNewForConfig None :: ev1). cbn [snd]. rewrite Ht1. cbn [emit trace].
       rewrite <- app_assoc. split; [reflexivity|].
       rewrite !occurrences_cons, Hr1, Hf1. cbn. repeat split; [lia|].
       intros file [H|H]; [discriminate H | destruct (Hin1 file H)]. }
  unfold defer at 1. rewrite bind_ask.
  destruct (o_tempFile env (moment w2)) as [file [e|]].
  - unfold ret.
    destruct (Hdel (emit (EvTempFile "" "skaffold-cbi-temp" (file, Some e)) w2))
      as (ev2 & Ht2 & Hk2).
    destruct (occurrences_keepsFiles ev2 Hk2) as (Hr2 & Hf2 & Hin2).
    exists (EvNewForConfig None :: ev1 ++ EvTempFile "" "skaffold-cbi-temp" (file, Some e) :: ev2).
    split.
    + destruct (Delete env _) as [[b|reason] w4]; cbn [snd] in *;
        rewrite Ht2; cbn [emit trace]; rewrite Ht1; cbn [emit trace];
        rewrite <- !app_assoc; reflexivity.
    + rewrite !occurrences_cons, !occurrences_app, !occurrences_cons, Hr1, Hf1, Hr2, Hf2.
      cbn. repeat split; [lia|].
      intros f [H|H]; [discriminate H|]. apply in_app_or in H.
      destruct H as [H|[H|H]]; [destruct (Hin1 f H) | discriminate H | destruct (Hin2 f H)].
  - match goal with |- context [defer (tell _) ?body _] =>
      assert (Hbody : appends keepsFiles body) end.
    { unfold Create, createContext, Copy, Fulfill, UnixNano, RandomID, runCBIBuildV1Alpha1,
        readyCondition, waitJobPodReady, waitJobCompletion.
      cbn [runCommands]. appending_files. }
    rewrite defer_tell.
    destruct (Hbody (emit (EvTempFile "" "skaffold-cbi-temp" (file, None)) w2))
      as (ev3 & Ht3 & Hk3).
    destruct (occurrences_keepsFiles ev3 Hk3) as (Hr3 & Hf3 & Hin3).
    match goal with |- context [fst (?body ?w0)] =>
      destruct (body w0) as [r w3] end.
    cbn [fst snd] in *.
    destruct (Hdel (emit (EvRemove file) w3)) as (ev2 & Ht2 & Hk2).
    destruct (occurrences_keepsFiles ev2 Hk2) as (Hr2 & Hf2 & Hin2).
    exists (EvNewForConfig None :: ev1 ++ EvTempFile "" "skaffold-cbi-temp" (file, None) ::
            ev3 ++ EvRemove file :: ev2).
    split.
    + destruct (Delete env _) as [[b|reason] w4]; cbn [snd] in *;
        rewrite Ht2; cbn [emit trace]; rewrite Ht3; cbn [emit trace];
        rewrite Ht1; cbn [emit trace]; rewrite <- !app_assoc; reflexivity.
    + rewrite !occurrences_cons, !occurrences_app, !occurrences_cons, !occurrences_app,
        !occurrences_cons, Hr1, Hf1, Hr2, Hf2, Hr3, Hf3.
      cbn. repeat split; [lia|].
      intros f [H|H]; [discriminate H|]. apply in_app_or in H.
      destruct H as [H|[H|H]]; [destruct (Hin1 f H) | discriminate H |].
      apply in_app_or in H.
      destruct H as [H|[H|H]]; [destruct (Hin3 f H) | | destruct (Hin2 f H)].
      injection H as <-.
      exists (EvNewForConfig None :: ev1), ev3, ev2. reflexivity.
Qed.

(** ** [Build]: what a result holds *)

(** One turn of the loop of [Build] that went through. *)
Lemma buildArtifacts_turn (env : Oracle) (artifact : Artifact) (rest : list Artifact)
      (res res' : BuildResult) (w w' : World) :
  buildArtifacts env (artifact :: rest) res w = (Ret (Some res', None), w') ->
  exists (ref dgst tag : string) (w1 : World),
    RunCBIBuild env artifact w = (Ret (ref, None), w1) /\
    buildArtifacts env rest
      (mkBuildResult (Builds res ++ [mkBuild (ImageName artifact) tag artifact]))
      (mkWorld (trace w1 ++ [EvRemoteDigest ref (dgst, None);
                             EvGenerateFullyQualifiedImageName (Workspace artifact)
                               (ImageName artifact) dgst (tag, None);
                             EvAddTag ref tag None])
         (template w1) (nginx w1) (job w1)) = (Ret (Some res', None), w').
Proof.
  rewrite buildArtifacts_cons.
  destruct (RunCBIBuild env artifact w) as [[[ref [e|]]|reason] w1]; try discriminate.
  cbv zeta.
  destruct (o_remoteDigest env (moment w1)) as [dgst [e|]]; cbn [fst snd]; [discriminate|].
  destruct (o_generateTag env (S (moment w1))) as [tag [e|]]; cbn [fst snd]; [discriminate|].
  destruct (o_addTag env (S (S (moment w1)))) as [e|]; [discriminate|].
  intros H. exists ref, dgst, tag, w1. split; [reflexivity|].
  rewrite <- H. unfold emit. cbn [trace template nginx job].
  now rewrite <- !app_assoc.
Qed.

Lemma buildArtifacts_built (env : Oracle) (artifacts : list Artifact) :
  forall (res res' : BuildResult) (w w' : World),
    buildArtifacts env artifacts res w = (Ret (Some res', None), w') ->
    exists added performed,
      Builds res' = Builds res ++ added /\
      map Build_Artifact added = artifacts /\
      trace w' = trace w ++ performed /\
      Forall (fun b =>
                Build_ImageName b = ImageName (Build_Artifact b) /\
                exists initialTag dgst before between,
                  performed =
                    before ++
                    [EvRemoteDigest (ImageName (Build_Artifact b) ++ ":" ++ initialTag)
                       (dgst, None);
                     EvGenerateFullyQualifiedImageName (Workspace (Build_Artifact b))
                       (ImageName (Build_Artifact b)) dgst (Build_Tag b, None);
                     EvAddTag (ImageName (Build_Artifact b) ++ ":" ++ initialTag)
                       (Build_Tag b) None] ++ between)
             added.
Proof.
  induction artifacts as [|artifact rest IH]; intros res res' w w' H.
  - cbn in H. apply ret_Ret in H. destruct H as [H ->]. injection H as <-.
    exists [], []. rewrite !app_nil_r. now repeat split.
  - apply buildArtifacts_turn in H. destruct H as (ref & dgst & tag & w1 & Hrun & H).
    apply IH in H. destruct H as (added & performed & Hres & Harts & Htrace & Hall).
    cbn [Builds trace] in *.
    destruct (RunCBIBuild_succeeded env artifact w w1 ref Hrun)
      as (nanos & id & suffix & file & digest & initialTag & name & p & s & packed & o1 & o2 &
          created & naming & later & teardown & Hsteps).
    cbv zeta in Hsteps. destruct Hsteps as (-> & _ & Hperformed & _).
    match type of Hperformed with _ = trace w ++ ?l => set (first := l) in * end.
    exists (mkBuild (ImageName artifact) tag artifact :: added).
    eexists (first ++ [_; _; _] ++ performed).
    split; [|split; [|split]].
    + rewrite Hres, <- app_assoc. reflexivity.
    + cbn [map Build_Artifact]. now rewrite Harts.
    + rewrite Htrace, Hperformed, <- !app_assoc. reflexivity.
    + constructor.
      * cbn [Build_ImageName Build_Artifact Build_Tag]. split; [reflexivity|].
        exists initialTag, dgst, first, performed. reflexivity.
      * revert Hall. apply Forall_impl. intros b (Hname & tag0 & dgst0 & before & between & ->).
        split; [exact Hname|].
        exists tag0, dgst0. eexists (first ++ [_; _; _] ++ before), between.
        rewrite <- !app_assoc. reflexivity.
Qed.

(** X14: a result of [Build] lists the artifacts it was given, one build
    each and in their order, under the artifact's own image name; the tag of
    each build is the one the tagger generated for the artifact's workspace
    and image name from the digest of the image that [RunCBIBuild] pushed,
    [<image name>:<initial tag>], and that tag was added to that image:
    the three operations follow one another in the trace. *)
Theorem Build_result_follows_artifacts
        (env : Oracle) (b : CBIBuild) (artifacts : list Artifact) (w : World)
        (res : BuildResult) :
  fst (CBIBuilder_Build env b artifacts w) = Ret (Some res, None) ->
  map Build_Artifact (Builds res) = artifacts /\
  Forall (fun bld =>
            Build_ImageName bld = ImageName (Build_Artifact bld) /\
            exists initialTag dgst before after,
              trace (snd (CBIBuilder_Build env b artifacts w)) =
                before ++
                [EvRemoteDigest (ImageName (Build_Artifact bld) ++ ":" ++ initialTag)
                   (dgst, None);
                 EvGenerateFullyQualifiedImageName (Workspace (Build_Artifact bld))
                   (ImageName (Build_Artifact bld)) dgst (Build_Tag bld, None);
                 EvAddTag (ImageName (Build_Artifact bld) ++ ":" ++ initialTag)
                   (Build_Tag bld) None] ++ after)
         (Builds res).
Proof.
  destruct (CBIBuilder_Build env b artifacts w) as [out w'] eqn:Hloop.
  cbn [fst snd]. intros ->. unfold CBIBuilder_Build in Hloop.
  destruct (GetBuildJobTemplate env b) as [cbiT|e0]; [|discriminate].
  unfold bind at 1 in Hloop. cbn [setTemplate] in Hloop. unfold bind at 1 in Hloop.
  destruct (GetClientConfig env _) as [[[e0|]|reason] w0]; try discriminate.
  apply buildArtifacts_built in Hloop.
  destruct Hloop as (added & performed & Hres & Harts & Htrace & Hall).
  cbn [Builds app] in Hres. rewrite Hres. split; [exact Harts|].
  revert Hall. apply Forall_impl. intros bld (Hname & tag0 & dgst0 & before & between & ->).
  split; [exact Hname|].
  exists tag0, dgst0, (trace w0 ++ before), between.
  rewrite Htrace, <- !app_assoc. reflexivity.
Qed.

Lemma buildArtifacts_verdict (env : Oracle) (artifacts : list Artifact) :
  forall (res : BuildResult) (w : World) (r : option BuildResult) (err : option error),
    fst (buildArtifacts env artifacts res w) = Ret (r, err) ->
    (r = None /\ err <> None) \/ (r <> None /\ err = None).
Proof.
  induction artifacts as [|artifact rest IH]; intros res w r err.
  - cbn. intros H. injection H as <- <-. now right.
  - rewrite buildArtifacts_cons.
    destruct (RunCBIBuild env artifact w) as [[[ref [e|]]|reason] w1]; cbn [fst];
      try discriminate.
    { intros H. injection H as <- <-. now left. }
    cbv zeta.
    destruct (snd (o_remoteDigest env (moment w1))) as [e|]; cbn [fst].
    { intros H. injection H as <- <-. now left. }
    destruct (snd (o_generateTag env (S (moment w1)))) as [e|]; cbn [fst].
    { intros H. injection H as <- <-. now left. }
    destruct (o_addTag env (S (S (moment w1)))) as [e|]; cbn [fst].
    { intros H. injection H as <- <-. now left. }
    apply IH.
Qed.

(** X15: [Build] returns a result or an error, never both and never
    neither: the result is [nil] exactly when the error is not. *)
Theorem Build_result_or_error
        (env : Oracle) (b : CBIBuild) (artifacts : list Artifact) (w : World)
        (r : option BuildResult) (err : option error) :
  fst (CBIBuilder_Build env b artifacts w) = Ret (r, err) ->
  (r = None /\ err <> None) \/ (r <> None /\ err = None).
Proof.
  unfold CBIBuilder_Build.
  destruct (GetBuildJobTemplate env b) as [cbiT|e0].
  2: { cbn. intros H. injection H as <- <-. now left. }
  unfold bind at 1. cbn [setTemplate]. unfold bind at 1.
  destruct (GetClientConfig env _) as [[[e0|]|reason] w0]; try discriminate.
  - cbn. intros H. injection H as <- <-. now left.
  - apply buildArtifacts_verdict.
Qed.

(** ** The template is shared by the builds of one [Build] *)

Lemma submissions_app (l1 l2 : list Event) :
  submissions (l1 ++ l2) = submissions l1 ++ submissions l2.
Proof. apply flat_map_app. Qed.

Lemma submissions_none (l : list Event) :
  Forall (fun e => isSubmission e = false) l -> submissions l = [].
Proof.
  unfold submissions.
  induction 1 as [|e l He _ IH]; [reflexivity|].
  cbn [flat_map]. rewrite IH. destruct e; try reflexivity. discriminate He.
Qed.

(** The one submission of a [RunCBIBuild] that succeeded, and the name it
    leaves in the template. *)
Lemma RunCBIBuild_submission (env : Oracle) (artifact : Artifact) (w w' : World) (ref : string) :
  RunCBIBuild env artifact w = (Ret (ref, None), w') ->
  exists performed j,
    trace w' = trace w ++ performed /\
    submissions performed = [j] /\
    nameOf j <> "" /\
    (nameOf (templateOf w) <> "" -> nameOf j = nameOf (templateOf w)) /\
    template w' = mkTemplate j.
Proof.
  intros Hrun.
  destruct (RunCBIBuild_succeeded env artifact w w' ref Hrun)
    as (nanos & id & suffix & file & digest & tag & name & p & s & packed & o1 & o2 &
        created & naming & later & teardown & Hsteps).
  cbv zeta in Hsteps.
  destruct Hsteps as (_ & _ & Htrace & Hpacked & Hname & Hkept & Hnaming & Hlater &
                      Hteardown & Htemplate).
  eexists. match type of Htemplate with _ = mkTemplate ?j => exists j end.
  split; [exact Htrace|]. split; [|split; [exact Hname|split]].
  - rewrite !submissions_app, (submissions_none later Hlater).
    assert (Hn : submissions naming = [])
      by (destruct Hnaming as [->|(nanos' & id' & ->)]; reflexivity).
    assert (Ht : submissions teardown = [])
      by (destruct Hteardown as [(e & ->)|(r & ->)]; reflexivity).
    rewrite Hn, Ht, Hpacked.
    destruct (Artifact_DockerArtifact artifact); reflexivity.
  - intros Hnamed. now destruct (Hkept Hnamed) as [-> _].
  - exact Htemplate.
Qed.

Lemma buildArtifacts_named (env : Oracle) (artifacts : list Artifact) (name : string) :
  name <> "" ->
  forall (res res' : BuildResult) (w w' : World),
    nameOf (templateOf w) = name ->
    buildArtifacts env artifacts res w = (Ret (Some res', None), w') ->
    exists performed,
      trace w' = trace w ++ performed /\
      map nameOf (submissions performed) = repeat name (List.length artifacts).
Proof.
  intros Hname. induction artifacts as [|artifact rest IH]; intros res res' w w' Hw H.
  - cbn in H. apply ret_Ret in H. destruct H as [_ ->].
    exists []. now rewrite app_nil_r.
  - apply buildArtifacts_turn in H. destruct H as (ref & dgst & tag & w1 & Hrun & H).
    apply RunCBIBuild_submission in Hrun.
    destruct Hrun as (first & j & Hfirst & Hj & _ & Hkept & Htemplate).
    apply IH in H.
    2: { unfold templateOf. cbn [template]. rewrite Htemplate. cbn [bj].
         rewrite Hkept; [exact Hw | now rewrite Hw]. }
    destruct H as (performed & Htrace & Hnames). cbn [trace] in Htrace.
    eexists (first ++ [_; _; _] ++ performed). split.
    + rewrite Htrace, Hfirst, <- !app_assoc. reflexivity.
    + rewrite !submissions_app, Hj, !map_app, Hnames.
      cbn [submissions flat_map app map List.length repeat].
      rewrite Hkept; [now rewrite Hw | now rewrite Hw].
Qed.

(** X16: the builds of one [Build] share the template object, and with it
    the name of the job: when [Build] returns a result, it submitted one job
    description for each artifact, and all of them under one non-empty name;
    that is the name the template declares, if it declares one, and
    otherwise the name generated for the first artifact, which the later
    builds find in the template and reuse. *)
Theorem Build_submits_under_one_name
        (env : Oracle) (b : CBIBuild) (artifacts : list Artifact) (w : World)
        (res : BuildResult) :
  fst (CBIBuilder_Build env b artifacts w) = Ret (Some res, None) ->
  exists name performed,
    name <> "" /\
    trace (snd (CBIBuilder_Build env b artifacts w)) = trace w ++ performed /\
    map nameOf (submissions performed) = repeat name (List.length artifacts) /\
    (forall cbiT, GetBuildJobTemplate env b = inl cbiT -> nameOf (bj cbiT) <> "" ->
                  name = nameOf (bj cbiT)).
Proof.
  destruct (CBIBuilder_Build env b artifacts w) as [out w'] eqn:Hloop.
  cbn [fst snd]. intros ->. unfold CBIBuilder_Build in Hloop.
  destruct (GetBuildJobTemplate env b) as [cbiT|e0]; [|discriminate].
  unfold bind at 1 in Hloop. cbn [setTemplate] in Hloop.
  unfold bind at 1, GetClientConfig in Hloop. rewrite bind_ask in Hloop.
  match type of Hloop with context [o_clientConfig env ?n] =>
    destruct (o_clientConfig env n) as [e0|] end; [discriminate|].
  unfold ret at 1 in Hloop. cbv beta iota in Hloop.
  match type of Hloop with buildArtifacts _ _ _ ?w0 = _ => set (start := w0) in * end.
  assert (Hstart : trace start = trace w ++ [EvClientConfig None] /\ templateOf start = bj cbiT)
    by (split; reflexivity).
  destruct Hstart as [Hstart Htemplate]. clearbody start.
  destruct artifacts as [|artifact rest].
  - cbn in Hloop. apply ret_Ret in Hloop. destruct Hloop as [_ <-].
    destruct (string_dec (nameOf (bj cbiT)) "") as [Hn|Hn].
    + exists "skaffold", [EvClientConfig None]. repeat split; [discriminate | exact Hstart |].
      intros t Ht. injection Ht as <-. congruence.
    + exists (nameOf (bj cbiT)), [EvClientConfig None].
      repeat split; [exact Hn | exact Hstart |]. intros t Ht. now injection Ht as <-.
  - apply buildArtifacts_turn in Hloop. destruct Hloop as (ref & dgst & tag & w1 & Hrun & H).
    apply RunCBIBuild_submission in Hrun.
    destruct Hrun as (first & j & Hfirst & Hj & Hname & Hkept & Hleft).
    apply (buildArtifacts_named env rest (nameOf j) Hname) in H.
    2: { unfold templateOf. cbn [template]. now rewrite Hleft. }
    destruct H as (performed & Htrace & Hnames). cbn [trace] in Htrace.
    exists (nameOf j). eexists ([_] ++ first ++ [_; _; _] ++ performed).
    split; [exact Hname|]. split; [|split].
    + rewrite Htrace, Hfirst, Hstart, <- !app_assoc. reflexivity.
    + rewrite !submissions_app, Hj, !map_app, Hnames. reflexivity.
    + intros t Ht Hnamed. injection Ht as <-. rewrite Htemplate in Hkept. now apply Hkept.
Qed.

(** ** [kubernetes.GetClientset] *)

Lemma GetClientset_run (env : Oracle) (w : World) :
  GetClientset env w =
    match o_clientConfig env (moment w) with
    | Some e =>
        (Ret (Some (Errorf "Error creating kubeConfig: %s" [ArgError e])),
         emit (EvClientConfig (Some e)) w)
    | None =>
        match o_newForConfig env (S (moment w)) with
        | Some e =>
            (Ret (Some (Wrap e "Error creating new client from kubeConfig.ClientConfig()")),
             emit (EvNewForConfig (Some e)) (emit (EvClientConfig None) w))
        | None => (Ret None, emit (EvNewForConfig None) (emit (EvClientConfig None) w))
        end
    end.
Proof.
  unfold GetClientset, GetClientConfig. unfold bind at 1. rewrite bind_ask.
  destruct (o_clientConfig env (moment w)) as [e|]; [reflexivity|].
  unfold ret at 1. cbv beta iota. rewrite bind_ask, moment_emit.
  now destruct (o_newForConfig env (S (moment w))).
Qed.

(** X17: [GetClientset] asks for a client only after the configuration was
    read without an error, and returns [nil] exactly when both answered
    without one.  Its error tells the stage that failed: the error of the
    configuration formatted into ["Error creating kubeConfig: %s"], after
    which nothing else is asked, or the error of the client wrapped as
    ["Error creating new client from kubeConfig.ClientConfig()"]. *)
Theorem GetClientset_stages (env : Oracle) (w : World) :
  let config := o_clientConfig env (moment w) in
  let client := o_newForConfig env (S (moment w)) in
  (fst (GetClientset env w) = Ret None <-> config = None /\ client = None) /\
  (forall e, config = Some e ->
     fst (GetClientset env w) =
       Ret (Some (Errorf "Error creating kubeConfig: %s" [ArgError e])) /\
     trace (snd (GetClientset env w)) = trace w ++ [EvClientConfig (Some e)]) /\
  (forall e, config = None -> client = Some e ->
     fst (GetClientset env w) =
       Ret (Some (Wrap e "Error creating new client from kubeConfig.ClientConfig()")) /\
     trace (snd (GetClientset env w)) =
       trace w ++ [EvClientConfig None; EvNewForConfig (Some e)]).
Proof.
  cbv zeta. rewrite GetClientset_run.
  destruct (o_clientConfig env (moment w)) as [e|].
  - cbn [fst snd emit trace]. split; [|split].
    + split; [discriminate | intros [H _]; discriminate H].
    + intros e0 H. injection H as <-. now split.
    + intros e0 H. discriminate H.
  - destruct (o_newForConfig env (S (moment w))) as [e|];
      cbn [fst snd emit trace]; (split; [|split]).
    + split; [discriminate | intros [_ H]; discriminate H].
    + intros e0 H. discriminate H.
    + intros e0 _ H. injection H as <-. rewrite <- app_assoc. now split.
    + now split.
    + intros e0 H. discriminate H.
    + intros e0 _ H. discriminate H.
Qed.
End Properties.

(** * The schema's defaults *)

Section SchemaProperties.

Import v1alpha2.

Local Open Scope list_scope.
Local Open Scope nat_scope.

(** ** Loads and stores *)

Lemma load_nil {X : Type} (zero : X) (a : nat) : load zero a [] = zero.
Proof. now destruct a. Qed.

Lemma load_store_same {X : Type} (zero : X) (a : nat) (v : X) (cells : list X) :
  load zero a (store zero a v cells) = v.
Proof.
  revert cells. induction a as [|a IH]; intros [|x cells]; cbn; try reflexivity; apply IH.
Qed.

Lemma load_store_other {X : Type} (zero : X) (a b : nat) (v : X) (cells : list X) :
  a <> b -> load zero b (store zero a v cells) = load zero b cells.
Proof.
  revert b cells. induction a as [|a IH]; intros [|b] [|x cells] H; cbn;
    try reflexivity; try (now destruct H).
  - now destruct b.
  - change (load zero b (store zero a v []) = zero).
    rewrite IH by congruence. apply load_nil.
  - apply IH. congruence.
Qed.

Lemma store_load {X : Type} (zero : X) (a : nat) (cells : list X) :
  a < List.length cells -> store zero a (load zero a cells) cells = cells.
Proof.
  revert cells. induction a as [|a IH]; intros [|x cells] H; cbn in *; try lia.
  - reflexivity.
  - f_equal. apply IH. lia.
Qed.

Lemma store_store {X : Type} (zero : X) (a : nat) (v v' : X) (cells : list X) :
  store zero a v' (store zero a v cells) = store zero a v' cells.
Proof.
  revert cells. induction a as [|a IH]; intros [|x cells]; cbn; try reflexivity;
    f_equal; apply IH.
Qed.

Lemma length_store {X : Type} (zero : X) (a : nat) (v : X) (cells : list X) :
  a < List.length (store zero a v cells) /\
  List.length cells <= List.length (store zero a v cells).
Proof.
  revert cells. induction a as [|a IH]; intros [|x cells]; cbn; try lia.
  - specialize (IH []). cbn in IH. lia.
  - specialize (IH cells). lia.
Qed.

Lemma load_new {X : Type} (zero : X) (a : nat) (cells : list X) :
  load zero a (cells ++ [zero]) = load zero a cells.
Proof.
  unfold load. destruct (Nat.lt_ge_cases a (List.length cells)) as [Hlt|Hge].
  - now apply app_nth1.
  - rewrite (nth_overflow cells zero Hge).
    destruct (Nat.eq_dec a (List.length cells)) as [->|Hne].
    + apply nth_middle.
    + apply nth_overflow. rewrite length_app. cbn. lia.
Qed.

Lemma Heap_eta (h : Heap) : mkHeap (artifacts h) (dockerArtifacts h) (kanikoBuilds h) = h.
Proof. now destruct h. Qed.

(** [&DockerArtifact{}] gives the first address past the Docker artifacts
    of the heap; the struct there is the zero value, and every struct of
    the heap is as it was. *)
Lemma new_DockerArtifact_fresh (h : Heap) :
  let (d, h') := new_DockerArtifact h in
  d = List.length (dockerArtifacts h) /\
  d < List.length (dockerArtifacts h') /\
  dockerArtifactAt h' d = zeroDockerArtifact /\
  (forall x, dockerArtifactAt h' x = dockerArtifactAt h x) /\
  artifacts h' = artifacts h /\ kanikoBuilds h' = kanikoBuilds h.
Proof.
  unfold new_DockerArtifact, dockerArtifactAt. cbn [dockerArtifacts artifacts kanikoBuilds].
  split; [reflexivity|]. split; [rewrite length_app; cbn; lia|].
  split; [rewrite load_new; unfold load; now apply nth_overflow|].
  split; [intros x; apply load_new | now split].
Qed.

(** ** The loop over the artifacts *)

Lemma pointer_eq_dec (p q : pointer) : {p = q} + {p <> q}.
Proof. unfold pointer. decide equality. apply Nat.eq_dec. Qed.

Lemma forEachArtifact_returns (body : nat -> Heap -> Heap) (l : list pointer) (h : Heap) :
  ~ In None l -> exists h', forEachArtifact body l h = Ret h'.
Proof.
  revert h. induction l as [|[a|] l IH]; intros h Hnil; cbn [forEachArtifact].
  - now exists h.
  - apply IH. intros Hin. apply Hnil. now right.
  - destruct Hnil. now left.
Qed.

Lemma forEachArtifact_panics (body : nat -> Heap -> Heap) (l : list pointer) (h : Heap) :
  In None l ->
  forEachArtifact body l h = Panic "invalid memory address or nil pointer dereference".
Proof.
  revert h. induction l as [|[a|] l IH]; intros h Hin; cbn [forEachArtifact].
  - destruct Hin.
  - apply IH. destruct Hin as [Hin|Hin]; [discriminate | exact Hin].
  - reflexivity.
Qed.

Lemma forEachArtifact_pointers (body : nat -> Heap -> Heap) (l : list pointer) (h h' : Heap) :
  forEachArtifact body l h = Ret h' -> ~ In None l.
Proof.
  intros Hrun Hin. rewrite (forEachArtifact_panics body l h Hin) in Hrun. discriminate.
Qed.

(** What the body establishes of the artifact it runs on, and no turn
    undoes, holds of every artifact after the loop. *)
Lemma forEachArtifact_establishes (Pre P : nat -> Heap -> Prop) (body : nat -> Heap -> Heap) :
  (forall a b h, Pre a h -> Pre a (body b h)) ->
  (forall a h, Pre a h -> P a (body a h)) ->
  (forall a b h, P a h -> P a (body b h)) ->
  forall l h h', forEachArtifact body l h = Ret h' ->
                 (forall a, In (Some a) l -> Pre a h) ->
                 forall a, In (Some a) l -> P a h'.
Proof.
  intros Hpre Hbody Hkept. induction l as [|[x|] l IH]; intros h h' Hrun Hbefore a Hin;
    cbn [forEachArtifact] in Hrun.
  - destruct Hin.
  - destruct (in_dec pointer_eq_dec (Some a) l) as [Hrest|Hrest].
    + apply (IH (body x h) h' Hrun); [|exact Hrest].
      intros b Hb. apply Hpre, Hbefore. now right.
    + destruct Hin as [Hx|Hin]; [|now destruct Hrest]. injection Hx as ->.
      assert (Hnow : P a (body a h)) by (apply Hbody, Hbefore; now left).
      revert Hnow Hrun. generalize (body a h). clear -Hkept.
      induction l as [|[y|] l IH]; intros h Hnow Hrun; cbn [forEachArtifact] in Hrun.
      * now injection Hrun as <-.
      * apply (IH (body y h)); [now apply Hkept | exact Hrun].
      * discriminate.
  - discriminate.
Qed.

(** A heap no turn of the loop changes is the heap after the loop. *)
Lemma forEachArtifact_fixed (body : nat -> Heap -> Heap) (l : list pointer) (h : Heap) :
  ~ In None l -> (forall a, In (Some a) l -> body a h = h) ->
  forEachArtifact body l h = Ret h.
Proof.
  induction l as [|[a|] l IH]; intros Hnil Hfixed; cbn [forEachArtifact].
  - reflexivity.
  - rewrite (Hfixed a) by now left. apply IH.
    + intros Hin. apply Hnil. now right.
    + intros b Hb. apply Hfixed. now right.
  - destruct Hnil. now left.
Qed.

(** ** What the steps of the defaults keep *)

Lemma keeps_refl (lib : Library) (h : Heap) : keeps lib h h.
Proof.
  split; [intros a; now repeat split|]. split; [lia|]. intros d. split; [reflexivity | now left].
Qed.

Lemma keeps_trans (lib : Library) (h1 h2 h3 : Heap) :
  keeps lib h1 h2 -> keeps lib h2 h3 -> keeps lib h1 h3.
Proof.
  intros [Ha [Hl Hd]] [Ha' [Hl' Hd']]. split; [|split; [lia|]].
  - intros a. destruct (Ha a) as (Hname & Hws & Htype), (Ha' a) as (Hname' & Hws' & Htype').
    split; [congruence|]. split.
    + intros H. pose proof (Hws H) as E. rewrite <- E in H. now rewrite (Hws' H).
    + intros H. pose proof (Htype H) as E. rewrite <- E in H. now rewrite (Htype' H).
  - intros d. destruct (Hd d) as (Hpath & Hcell), (Hd' d) as (Hpath' & Hcell'). split.
    + intros H. pose proof (Hpath H) as E. rewrite <- E in H. now rewrite (Hpath' H).
    + destruct Hcell as [Hcell|Hcell], Hcell' as [Hcell'|Hcell']; rewrite Hcell', ?Hcell;
        cbn [BuildArgs]; auto.
Qed.

(** A step that leaves the artifacts and the Docker artifacts alone. *)
Lemma keeps_same (lib : Library) (h h' : Heap) :
  artifacts h' = artifacts h -> dockerArtifacts h' = dockerArtifacts h -> keeps lib h h'.
Proof.
  intros Ha Hd. unfold keeps, keepsArtifacts, keepsDockerArtifacts, artifactAt, dockerArtifactAt.
  rewrite Ha, Hd. split; [intros a; now repeat split|]. split; [lia|].
  intros d. split; [reflexivity | now left].
Qed.

Lemma defaultToDockerArtifact_keeps (lib : Library) (a : nat) (h : Heap) :
  keeps lib h (defaultToDockerArtifact a h) /\
  kanikoBuilds (defaultToDockerArtifact a h) = kanikoBuilds h /\
  (forall b, b <> a -> artifactAt (defaultToDockerArtifact a h) b = artifactAt h b) /\
  typed a (defaultToDockerArtifact a h).
Proof.
  unfold defaultToDockerArtifact, typed.
  destruct (ArtifactType_isZero (Artifact_ArtifactType (artifactAt h a))) eqn:Hzero;
    cbn [negb new_DockerArtifact].
  - unfold keeps, keepsArtifacts, keepsDockerArtifacts, set_artifactAt, artifactAt,
      dockerArtifactAt in *.
    cbn [artifacts dockerArtifacts kanikoBuilds].
    rewrite load_store_same. cbn [Artifact_ArtifactType].
    split; [split|split; [reflexivity|split; [|reflexivity]]].
    + intros b. destruct (Nat.eq_dec a b) as [<-|Hne].
      * rewrite load_store_same. cbn. rewrite Hzero. split; [reflexivity|].
        split; [reflexivity | discriminate].
      * rewrite (load_store_other _ a b _ _ Hne). now repeat split.
    + rewrite length_app. cbn. split; [lia|].
      intros d. rewrite load_new. split; [reflexivity | now left].
    + intros b Hne. apply load_store_other. congruence.
  - split; [apply keeps_refl|]. split; [reflexivity|]. split; [reflexivity | exact Hzero].
Qed.

Lemma setDefaultDockerfile_keeps (lib : Library) (a : nat) (h : Heap) :
  keeps lib h (setDefaultDockerfile lib a h) /\
  kanikoBuilds (setDefaultDockerfile lib a h) = kanikoBuilds h /\
  artifacts (setDefaultDockerfile lib a h) = artifacts h /\
  (typed a h -> hasDockerfile lib a (setDefaultDockerfile lib a h)).
Proof.
  unfold setDefaultDockerfile, hasDockerfile, typed.
  destruct (ArtifactType_DockerArtifact (Artifact_ArtifactType (artifactAt h a)))
    as [d|] eqn:Hd.
  - destruct (String.eqb_spec (DockerfilePath (dockerArtifactAt h d)) "") as [Hpath|Hpath].
    + unfold keeps, keepsArtifacts, keepsDockerArtifacts, set_dockerArtifactAt, artifactAt,
        dockerArtifactAt in *.
      cbn [artifacts dockerArtifacts kanikoBuilds].
      split; [split|split; [reflexivity|split; [reflexivity|]]].
      * intros b. now repeat split.
      * split; [apply length_store|].
        intros x. destruct (Nat.eq_dec d x) as [<-|Hne].
        -- rewrite load_store_same. split; [now intros H | now right].
        -- rewrite (load_store_other _ d x _ _ Hne). split; [reflexivity | now left].
      * intros Htyped. split; [exact Htyped|]. rewrite Hd. intros x [= <-].
        rewrite load_store_same. cbn [DockerfilePath].
        destruct (string_dec (DefaultDockerfilePath lib) "") as [Hdefault|Hdefault].
        -- right. split; [exact Hdefault | apply length_store].
        -- now left.
    + split; [apply keeps_refl|]. split; [reflexivity|]. split; [reflexivity|].
      intros Htyped. split; [exact Htyped|]. rewrite Hd. intros x [= <-]. now left.
  - split; [apply keeps_refl|]. split; [reflexivity|]. split; [reflexivity|].
    intros Htyped. split; [exact Htyped|]. rewrite Hd. discriminate.
Qed.

Lemma setDefaultWorkspace_keeps (lib : Library) (a : nat) (h : Heap) :
  keeps lib h (setDefaultWorkspace a h) /\
  kanikoBuilds (setDefaultWorkspace a h) = kanikoBuilds h /\
  (forall b, b <> a -> artifactAt (setDefaultWorkspace a h) b = artifactAt h b) /\
  hasWorkspace a (setDefaultWorkspace a h).
Proof.
  unfold setDefaultWorkspace, hasWorkspace.
  destruct (String.eqb_spec (Workspace (artifactAt h a)) "") as [Hws|Hws].
  - unfold keeps, keepsArtifacts, keepsDockerArtifacts, set_artifactAt, artifactAt,
      dockerArtifactAt in *.
    cbn [artifacts dockerArtifacts kanikoBuilds].
    rewrite load_store_same. cbn [Workspace].
    split; [split|split; [reflexivity|split; [|discriminate]]].
    + intros b. destruct (Nat.eq_dec a b) as [<-|Hne].
      * rewrite load_store_same. cbn. split; [reflexivity|]. split; [now intros H | reflexivity].
      * rewrite (load_store_other _ a b _ _ Hne). now repeat split.
    + split; [lia|]. intros d. split; [reflexivity | now left].
    + intros b Hne. apply load_store_other. congruence.
  - split; [apply keeps_refl|]. split; [reflexivity|]. split; [reflexivity | exact Hws].
Qed.

(** The three states, once brought about, are kept. *)
Lemma typed_kept (lib : Library) (a : nat) (h h' : Heap) :
  keeps lib h h' -> typed a h -> typed a h'.
Proof.
  intros [Ha _] H. unfold typed in *. destruct (Ha a) as (_ & _ & Htype).
  now rewrite (Htype H).
Qed.

Lemma hasWorkspace_kept (lib : Library) (a : nat) (h h' : Heap) :
  keeps lib h h' -> hasWorkspace a h -> hasWorkspace a h'.
Proof.
  intros [Ha _] H. unfold hasWorkspace in *. destruct (Ha a) as (_ & Hws & _).
  now rewrite (Hws H).
Qed.

Lemma hasDockerfile_kept (lib : Library) (a : nat) (h h' : Heap) :
  keeps lib h h' -> hasDockerfile lib a h -> hasDockerfile lib a h'.
Proof.
  intros Hkeeps [Htyped Hpath]. split; [exact (typed_kept lib a h h' Hkeeps Htyped)|].
  destruct Hkeeps as [Ha [Hl Hd]]. destruct (Ha a) as (_ & _ & Htype).
  rewrite (Htype Htyped). intros d Hptr. destruct (Hd d) as (Hsame & _).
  destruct (Hpath d Hptr) as [Hgiven|[Hdefault Hlt]].
  - left. now rewrite (Hsame Hgiven).
  - right. split; [exact Hdefault | lia].
Qed.

(** The three states make the bodies of the loops change nothing. *)
Lemma typed_fixed (a : nat) (h : Heap) : typed a h -> defaultToDockerArtifact a h = h.
Proof. unfold typed, defaultToDockerArtifact. now intros ->. Qed.

Lemma hasWorkspace_fixed (a : nat) (h : Heap) : hasWorkspace a h -> setDefaultWorkspace a h = h.
Proof.
  unfold hasWorkspace, setDefaultWorkspace. intros H.
  now rewrite (proj2 (String.eqb_neq _ _) H).
Qed.

Lemma hasDockerfile_fixed (lib : Library) (a : nat) (h : Heap) :
  hasDockerfile lib a h -> setDefaultDockerfile lib a h = h.
Proof.
  unfold hasDockerfile, setDefaultDockerfile. intros [_ Hpath].
  destruct (ArtifactType_DockerArtifact (Artifact_ArtifactType (artifactAt h a)))
    as [d|]; [|reflexivity].
  destruct (String.eqb_spec (DockerfilePath (dockerArtifactAt h d)) "") as [Hempty|Hgiven];
    [|reflexivity].
  destruct (Hpath d eq_refl) as [Hgiven|[Hdefault Hlt]]; [now destruct Hgiven|].
  unfold set_dockerArtifactAt. rewrite Hdefault.
  replace (mkDockerArtifact "" (BuildArgs (dockerArtifactAt h d))) with (dockerArtifactAt h d)
    by (destruct (dockerArtifactAt h d) as [path args]; cbn in *; now subst).
  unfold dockerArtifactAt. rewrite (store_load _ _ _ Hlt). apply Heap_eta.
Qed.

(** ** The configuration after the defaults *)

Ltac schema_fields :=
  cbn [Build Artifacts BuildConfig_TagPolicy BuildConfig_BuildType APIVersion Kind Deploy
       Profiles set_Build set_TagPolicy set_BuildType set_Profiles negb fst snd].

(** What [defaultToLocalBuild] and [setDefaultTagger] make of the
    configuration: nothing but the build type and the tag policy is
    written, and each only when it was not given. *)
Lemma defaulted_configuration (c : SkaffoldConfig) :
  let c' := setDefaultTagger (defaultToLocalBuild c) in
  APIVersion c' = APIVersion c /\ Kind c' = Kind c /\ Deploy c' = Deploy c /\
  Profiles c' = Profiles c /\
  Artifacts (Build c') = Artifacts (Build c) /\
  BuildType_KanikoBuild (BuildConfig_BuildType (Build c')) =
    BuildType_KanikoBuild (BuildConfig_BuildType (Build c)) /\
  BuildType_isZero (BuildConfig_BuildType (Build c')) = false /\
  TagPolicy_isZero (BuildConfig_TagPolicy (Build c')) = false /\
  (BuildType_isZero (BuildConfig_BuildType (Build c)) = true ->
   BuildConfig_BuildType (Build c') = mkBuildType (Some (mkLocalBuild None)) None None None) /\
  (TagPolicy_isZero (BuildConfig_TagPolicy (Build c)) = true ->
   BuildConfig_TagPolicy (Build c') = mkTagPolicy (Some mkGitTagger) None None) /\
  (BuildType_isZero (BuildConfig_BuildType (Build c)) = false ->
   BuildConfig_BuildType (Build c') = BuildConfig_BuildType (Build c)) /\
  (TagPolicy_isZero (BuildConfig_TagPolicy (Build c)) = false ->
   BuildConfig_TagPolicy (Build c') = BuildConfig_TagPolicy (Build c)) /\
  (BuildType_isZero (BuildConfig_BuildType (Build c)) = false ->
   TagPolicy_isZero (BuildConfig_TagPolicy (Build c)) = false -> c' = c).
Proof.
  destruct c as [av k [arts tp bt] dp ps]. cbv zeta.
  unfold setDefaultTagger, defaultToLocalBuild. schema_fields.
  destruct (BuildType_isZero bt) eqn:Hbt; schema_fields;
    destruct (TagPolicy_isZero tp) eqn:Htp; schema_fields;
    rewrite ?Hbt, ?Htp; repeat split; try reflexivity; try discriminate;
    destruct bt as [[l|] [g|] [kb|] [cb|]]; try discriminate; reflexivity.
Qed.

(** [setDefaultValues], run: the configuration is that of
    [defaultToLocalBuild] and [setDefaultTagger], the three loops follow
    one another on the heap, and the pull secret is expanded last. *)
Lemma setDefaultValues_run (lib : Library) (c c' : SkaffoldConfig) (h h' : Heap)
      (err : option error) :
  setDefaultValues lib c h = Ret (c', h', err) <->
  c' = setDefaultTagger (defaultToLocalBuild c) /\
  exists h1 h2 h3,
    forEachArtifact defaultToDockerArtifact (Artifacts (Build c)) h = Ret h1 /\
    forEachArtifact (setDefaultDockerfile lib) (Artifacts (Build c)) h1 = Ret h2 /\
    forEachArtifact (setDefaultWorkspace) (Artifacts (Build c)) h2 = Ret h3 /\
    expandKanikoSecretPath lib c' h3 = (h', err).
Proof.
  destruct (defaulted_configuration c) as (_ & _ & _ & _ & Harts & _).
  cbv zeta in Harts.
  assert (Hlocal : Artifacts (Build (defaultToLocalBuild c)) = Artifacts (Build c))
    by (unfold defaultToLocalBuild; now destruct (negb _)).
  unfold setDefaultValues, defaultToDockerArtifacts, setDefaultDockerfiles,
    setDefaultWorkspaces.
  rewrite Hlocal, Harts. split.
  - destruct (forEachArtifact defaultToDockerArtifact (Artifacts (Build c)) h) as [h1|]
      eqn:Hone; [|discriminate].
    destruct (forEachArtifact (setDefaultDockerfile lib) (Artifacts (Build c)) h1) as [h2|]
      eqn:Htwo; [|discriminate].
    destruct (forEachArtifact setDefaultWorkspace (Artifacts (Build c)) h2) as [h3|]
      eqn:Hthree; [|discriminate].
    destruct (expandKanikoSecretPath lib (setDefaultTagger (defaultToLocalBuild c)) h3)
      as [h4 err4] eqn:Hexpand.
    intros H. injection H as <- <- <-. split; [reflexivity|]. now exists h1, h2, h3.
  - intros (-> & h1 & h2 & h3 & -> & -> & -> & ->). reflexivity.
Qed.

(** The heap after the defaults: what the loops keep, what they bring
    about, and what the expansion of the pull secret writes. *)
Lemma setDefaultValues_heap (lib : Library) (c c' : SkaffoldConfig) (h h' : Heap)
      (err : option error) :
  setDefaultValues lib c h = Ret (c', h', err) ->
  exists h3,
    keeps lib h h3 /\ kanikoBuilds h3 = kanikoBuilds h /\
    (forall a, ~ In (Some a) (Artifacts (Build c)) -> artifactAt h3 a = artifactAt h a) /\
    (forall a, In (Some a) (Artifacts (Build c)) ->
               typed a h3 /\ hasDockerfile lib a h3 /\ hasWorkspace a h3) /\
    expandKanikoSecretPath lib c' h3 = (h', err).
Proof.
  intros Hrun. apply setDefaultValues_run in Hrun.
  destruct Hrun as (_ & h1 & h2 & h3 & Hone & Htwo & Hthree & Hexpand).
  exists h3.
  set (R := fun (l : list pointer) (x y : Heap) =>
              keeps lib x y /\ kanikoBuilds y = kanikoBuilds x /\
              forall a, ~ In (Some a) l -> artifactAt y a = artifactAt x a).
  assert (Hrefl : forall l x, R l x x).
  { intros l x. split; [apply keeps_refl|]. now split. }
  assert (Htrans : forall l x y z, R l x y -> R l y z -> R l x z).
  { intros l x y z (Hk & Hkb & Hout) (Hk' & Hkb' & Hout').
    split; [exact (keeps_trans lib x y z Hk Hk')|]. split; [congruence|].
    intros a Ha. rewrite (Hout' a Ha). now apply Hout. }
  assert (Hloop : forall body,
             (forall a x, keeps lib x (body a x) /\ kanikoBuilds (body a x) = kanikoBuilds x /\
                          forall b, b <> a -> artifactAt (body a x) b = artifactAt x b) ->
             forall l x y, forEachArtifact body l x = Ret y -> R l x y).
  { intros body Hbody. induction l as [|[a|] l IH]; intros x y Hl; cbn [forEachArtifact] in Hl.
    - injection Hl as <-. apply Hrefl.
    - destruct (Hbody a x) as (Hk & Hkb & Hout), (IH _ _ Hl) as (Hk' & Hkb' & Hout').
      split; [exact (keeps_trans lib _ _ _ Hk Hk')|]. split; [congruence|].
      intros b Hb. rewrite Hout'; [apply Hout|]; intros H; apply Hb; [left|right];
        congruence.
    - discriminate. }
  assert (R1 : R (Artifacts (Build c)) h h1).
  { apply (Hloop defaultToDockerArtifact); [|exact Hone].
    intros a x. destruct (defaultToDockerArtifact_keeps lib a x) as (H1 & H2 & H3 & _).
    split; [exact H1|]. split; [exact H2 | exact H3]. }
  assert (R2 : R (Artifacts (Build c)) h1 h2).
  { apply (Hloop (setDefaultDockerfile lib)); [|exact Htwo].
    intros a x. destruct (setDefaultDockerfile_keeps lib a x) as (H1 & H2 & H3 & _).
    split; [exact H1|]. split; [exact H2|]. intros b _. unfold artifactAt. now rewrite H3. }
  assert (R3 : R (Artifacts (Build c)) h2 h3).
  { apply (Hloop setDefaultWorkspace); [|exact Hthree].
    intros a x. destruct (setDefaultWorkspace_keeps lib a x) as (H1 & H2 & H3 & _).
    split; [exact H1|]. split; [exact H2 | exact H3]. }
  destruct (Htrans _ _ _ _ (Htrans _ _ _ _ R1 R2) R3) as (Hk & Hkb & Hout).
  split; [exact Hk|]. split; [exact Hkb|]. split; [exact Hout|]. split; [|exact Hexpand].
  assert (Htyped : forall a, In (Some a) (Artifacts (Build c)) -> typed a h1).
  { apply (forEachArtifact_establishes (fun _ _ => True) typed defaultToDockerArtifact)
      with (h := h); try exact Hone; try (now intros).
    - intros a x _. apply (defaultToDockerArtifact_keeps lib).
    - intros a b x. apply (typed_kept lib), (defaultToDockerArtifact_keeps lib). }
  assert (Hdocker : forall a, In (Some a) (Artifacts (Build c)) -> hasDockerfile lib a h2).
  { apply (forEachArtifact_establishes typed (hasDockerfile lib) (setDefaultDockerfile lib))
      with (h := h1); try exact Htwo; try exact Htyped.
    - intros a b x. apply (typed_kept lib), setDefaultDockerfile_keeps.
    - intros a x. apply setDefaultDockerfile_keeps.
    - intros a b x. apply hasDockerfile_kept, setDefaultDockerfile_keeps. }
  assert (Hws : forall a, In (Some a) (Artifacts (Build c)) -> hasWorkspace a h3).
  { apply (forEachArtifact_establishes (fun _ _ => True) hasWorkspace setDefaultWorkspace)
      with (h := h2); try exact Hthree; try (now intros).
    - intros a x _. apply (setDefaultWorkspace_keeps lib).
    - intros a b x. apply (hasWorkspace_kept lib), (setDefaultWorkspace_keeps lib). }
  intros a Ha. destruct R2 as (K2 & _), R3 as (K3 & _).
  split; [|split; [|exact (Hws a Ha)]].
  - exact (typed_kept lib a _ _ (keeps_trans lib _ _ _ K2 K3) (Htyped a Ha)).
  - exact (hasDockerfile_kept lib a _ _ K3 (Hdocker a Ha)).
Qed.

(** The expansion of the pull secret writes one Kaniko build at most, and
    that one only without an error. *)
Lemma expandKanikoSecretPath_keeps (lib : Library) (c : SkaffoldConfig) (h : Heap) :
  let (h', err) := expandKanikoSecretPath lib c h in
  artifacts h' = artifacts h /\ dockerArtifacts h' = dockerArtifacts h /\
  keepsKanikoBuilds c h h' /\
  (err <> None -> h' = h).
Proof.
  unfold expandKanikoSecretPath, keepsKanikoBuilds.
  destruct (BuildType_KanikoBuild (BuildConfig_BuildType (Build c))) as [k|];
    [|now repeat split].
  destruct (String.eqb_spec (PullSecret (kanikoBuildAt h k)) "") as [Hs|Hs];
    [now repeat split|].
  destruct (homedir_Expand lib (PullSecret (kanikoBuildAt h k))) as [absPath [e|]];
    [now repeat split|].
  unfold set_kanikoBuildAt, kanikoBuildAt in *. cbn [artifacts dockerArtifacts kanikoBuilds].
  split; [reflexivity|]. split; [reflexivity|]. split; [|now intros H].
  intros x. destruct (Nat.eq_dec k x) as [<-|Hne].
  - rewrite load_store_same. cbn [GCSBucket]. split; [reflexivity|].
    split; [now intros H | intros H; now destruct Hs].
  - rewrite (load_store_other _ k x _ _ Hne). now repeat split.
Qed.

(** X18: when [setDefaultValues] returns, with or without an error, the
    configuration has a build type and a tag policy, and every artifact has
    a workspace, an artifact type and, if it is a Docker artifact, a
    Dockerfile path (the default path is assumed not to be empty).  A
    configuration without any build type builds locally, one without any
    tag policy tags by git commit. *)
Theorem setDefaultValues_fills_in
        (lib : Library) (c c' : SkaffoldConfig) (h h' : Heap) (err : option error) :
  DefaultDockerfilePath lib <> "" ->
  setDefaultValues lib c h = Ret (c', h', err) ->
  BuildType_isZero (BuildConfig_BuildType (Build c')) = false /\
  TagPolicy_isZero (BuildConfig_TagPolicy (Build c')) = false /\
  Forall (defaulted h') (Artifacts (Build c')) /\
  (BuildType_isZero (BuildConfig_BuildType (Build c)) = true ->
   BuildConfig_BuildType (Build c') = mkBuildType (Some (mkLocalBuild None)) None None None) /\
  (TagPolicy_isZero (BuildConfig_TagPolicy (Build c)) = true ->
   BuildConfig_TagPolicy (Build c') = mkTagPolicy (Some mkGitTagger) None None).
Proof.
  intros Hdefault Hrun.
  destruct (setDefaultValues_heap lib c c' h h' err Hrun)
    as (h3 & _ & _ & _ & Hall & Hexpand).
  apply setDefaultValues_run in Hrun.
  destruct Hrun as (-> & h1 & _ & _ & Hone & _).
  destruct (defaulted_configuration c)
    as (_ & _ & _ & _ & Harts & _ & Hbt & Htp & Hlocal & Hgit & _).
  cbv zeta in *. rewrite Harts.
  split; [exact Hbt|]. split; [exact Htp|]. split; [|now split].
  pose proof (expandKanikoSecretPath_keeps lib (setDefaultTagger (defaultToLocalBuild c)) h3)
    as Hk.
  rewrite Hexpand in Hk. destruct Hk as (Ha & Hd & _).
  apply Forall_forall. intros [a|] Hin.
  - destruct (Hall a Hin) as (Htyped & [_ Hpath] & Hws).
    exists a. unfold typed, hasWorkspace, artifactAt, dockerArtifactAt in *.
    rewrite Ha, Hd. split; [reflexivity|]. split; [exact Hws|]. split; [exact Htyped|].
    intros d Hptr. destruct (Hpath d Hptr) as [Hgiven|[Hempty _]]; [exact Hgiven|].
    now destruct Hdefault.
  - destruct (forEachArtifact_pointers _ _ _ _ Hone Hin).
Qed.

(** X19: [setDefaultValues] overwrites nothing that was given.  In the
    configuration the API version, the kind, the deployment, the profiles
    and the pointers to the artifacts are as they were; a tag policy and a
    build type that were given are unchanged.  In the heap, which the
    profiles point into as the build does, every artifact keeps its image
    name, a workspace that was not empty and an artifact type that was
    given; an artifact the build does not point at is unchanged (one it
    shares with a profile is defaulted for the profile too); every Docker
    artifact keeps its build arguments and a Dockerfile path that was not
    empty; and of the Kaniko builds only the pull secret of the build's own
    may differ. *)
Theorem setDefaultValues_keeps_what_is_set
        (lib : Library) (c c' : SkaffoldConfig) (h h' : Heap) (err : option error) :
  setDefaultValues lib c h = Ret (c', h', err) ->
  APIVersion c' = APIVersion c /\ Kind c' = Kind c /\ Deploy c' = Deploy c /\
  Profiles c' = Profiles c /\
  Artifacts (Build c') = Artifacts (Build c) /\
  keepsArtifacts h h' /\
  (forall a, ~ In (Some a) (Artifacts (Build c)) -> artifactAt h' a = artifactAt h a) /\
  keepsDockerArtifacts lib h h' /\
  keepsKanikoBuilds c h h' /\
  (TagPolicy_isZero (BuildConfig_TagPolicy (Build c)) = false ->
   BuildConfig_TagPolicy (Build c') = BuildConfig_TagPolicy (Build c)) /\
  (BuildType_isZero (BuildConfig_BuildType (Build c)) = false ->
   BuildConfig_BuildType (Build c') = BuildConfig_BuildType (Build c)).
Proof.
  intros Hrun.
  destruct (setDefaultValues_heap lib c c' h h' err Hrun)
    as (h3 & Hkeeps & Hkaniko & Hout & _ & Hexpand).
  apply setDefaultValues_run in Hrun. destruct Hrun as (-> & _).
  destruct (defaulted_configuration c)
    as (Hav & Hkind & Hdeploy & Hprofiles & Harts & Hptr & _ & _ & _ & _ & Hbt & Htp & _).
  cbv zeta in *.
  pose proof (expandKanikoSecretPath_keeps lib (setDefaultTagger (defaultToLocalBuild c)) h3)
    as Hk.
  rewrite Hexpand in Hk. destruct Hk as (Ha & Hd & Hkb & _).
  destruct (keeps_trans lib h h3 h' Hkeeps (keeps_same lib h3 h' Ha Hd)) as [Hkeepa Hkeepd].
  do 5 (split; [assumption|]). split; [exact Hkeepa|]. split; [|split; [exact Hkeepd|]].
  - intros a Hin. rewrite <- (Hout a Hin). unfold artifactAt. now rewrite Ha.
  - split; [|now split].
    intros k. unfold keepsKanikoBuilds, kanikoBuildAt in *. rewrite Hptr in Hkb.
    rewrite <- Hkaniko. apply Hkb.
Qed.

(** X20: [setDefaultValues] panics, on a nil pointer, exactly when one of
    the artifacts is a [nil] pointer; on every other configuration it
    returns. *)
Theorem setDefaultValues_nil_artifact (lib : Library) (c : SkaffoldConfig) (h : Heap) :
  (In None (Artifacts (Build c)) <->
   setDefaultValues lib c h = Panic "invalid memory address or nil pointer dereference") /\
  (~ In None (Artifacts (Build c)) <-> exists r, setDefaultValues lib c h = Ret r).
Proof.
  assert (Hpanic : In None (Artifacts (Build c)) ->
            setDefaultValues lib c h = Panic "invalid memory address or nil pointer dereference").
  { intros Hin. unfold setDefaultValues, defaultToDockerArtifacts.
    assert (Hlocal : Artifacts (Build (defaultToLocalBuild c)) = Artifacts (Build c))
      by (unfold defaultToLocalBuild; now destruct (negb _)).
    rewrite Hlocal. now rewrite (forEachArtifact_panics _ _ h Hin). }
  assert (Hret : ~ In None (Artifacts (Build c)) -> exists r, setDefaultValues lib c h = Ret r).
  { intros Hnil.
    destruct (forEachArtifact_returns defaultToDockerArtifact _ h Hnil) as (h1 & Hone).
    destruct (forEachArtifact_returns (setDefaultDockerfile lib) _ h1 Hnil) as (h2 & Htwo).
    destruct (forEachArtifact_returns setDefaultWorkspace _ h2 Hnil) as (h3 & Hthree).
    destruct (expandKanikoSecretPath lib (setDefaultTagger (defaultToLocalBuild c)) h3)
      as [h4 err] eqn:Hexpand.
    exists (setDefaultTagger (defaultToLocalBuild c), h4, err).
    apply setDefaultValues_run. split; [reflexivity|]. now exists h1, h2, h3. }
  split; split.
  - exact Hpanic.
  - intros Hp. destruct (in_dec pointer_eq_dec None (Artifacts (Build c)))
      as [Hin|Hnil]; [exact Hin|].
    destruct (Hret Hnil) as (r & Hr). rewrite Hr in Hp. discriminate.
  - exact Hret.
  - intros (r & Hr) Hin. rewrite (Hpanic Hin) in Hr. discriminate.
Qed.

(** X21: applying the defaults again changes nothing, provided that
    [homedir.Expand] returns paths it leaves alone: a configuration that
    [setDefaultValues] returned without an error is returned as it is,
    with the heap as it is, by a second call. *)
Theorem setDefaultValues_idempotent (lib : Library) (c c' : SkaffoldConfig) (h h' : Heap) :
  (forall p q, homedir_Expand lib p = (q, None) -> homedir_Expand lib q = (q, None)) ->
  setDefaultValues lib c h = Ret (c', h', None) ->
  setDefaultValues lib c' h' = Ret (c', h', None).
Proof.
  intros Hstable Hrun.
  destruct (setDefaultValues_heap lib c c' h h' None Hrun)
    as (h3 & _ & _ & _ & Hall & Hexpand).
  apply setDefaultValues_run in Hrun.
  destruct Hrun as (-> & h1 & _ & _ & Hone & _).
  pose proof (forEachArtifact_pointers _ _ _ _ Hone) as Hnil.
  destruct (defaulted_configuration c)
    as (_ & _ & _ & _ & Harts & _ & Hbt & Htp & _).
  cbv zeta in *. set (c' := setDefaultTagger (defaultToLocalBuild c)) in *.
  destruct (defaulted_configuration c')
    as (_ & _ & _ & _ & _ & _ & _ & _ & _ & _ & _ & _ & Hsame).
  cbv zeta in Hsame. specialize (Hsame Hbt Htp).
  pose proof (expandKanikoSecretPath_keeps lib c' h3) as Hk.
  rewrite Hexpand in Hk. destruct Hk as (Ha & Hd & _).
  pose proof (keeps_same lib h3 h' Ha Hd) as Hkeeps.
  apply setDefaultValues_run. rewrite Hsame. split; [reflexivity|].
  exists h', h', h'. rewrite Harts.
  split; [|split; [|split]].
  - apply forEachArtifact_fixed; [exact Hnil|]. intros a Hin.
    apply typed_fixed, (typed_kept lib a h3 h' Hkeeps), Hall, Hin.
  - apply forEachArtifact_fixed; [exact Hnil|]. intros a Hin.
    apply hasDockerfile_fixed, (hasDockerfile_kept lib a h3 h' Hkeeps), Hall, Hin.
  - apply forEachArtifact_fixed; [exact Hnil|]. intros a Hin.
    apply hasWorkspace_fixed, (hasWorkspace_kept lib a h3 h' Hkeeps), Hall, Hin.
  - clear -Hexpand Hstable. unfold expandKanikoSecretPath in *.
    destruct (BuildType_KanikoBuild (BuildConfig_BuildType (Build c'))) as [k|];
      [|now injection Hexpand as <-].
    destruct (String.eqb (PullSecret (kanikoBuildAt h3 k)) "") eqn:Hs.
    + injection Hexpand as <-. now rewrite Hs.
    + destruct (homedir_Expand lib (PullSecret (kanikoBuildAt h3 k))) as [absPath [e|]]
        eqn:He; [discriminate|].
      injection Hexpand as <-.
      unfold kanikoBuildAt, set_kanikoBuildAt. cbn [kanikoBuilds artifacts dockerArtifacts].
      rewrite load_store_same. cbn [PullSecret GCSBucket].
      destruct (String.eqb absPath ""); [reflexivity|].
      rewrite (Hstable _ _ He). now rewrite store_store.
Qed.

(** X22: [Parse] returns one of two errors.  The decoder's error comes back
    as it is, with the configuration and the heap as the decoder left them
    and no default applied.  Otherwise defaults were asked for and the pull
    secret of the Kaniko build could not be expanded: the error names the
    secret, wrapped as ["applying default values"], and does not carry the
    cause [homedir.Expand] gave; the secret is left as it was written. *)
Theorem Parse_errors (lib : Library) (c c' : SkaffoldConfig) (contents : string)
        (useDefaults : bool) (h h' : Heap) (e : error) :
  Parse lib c contents useDefaults h = Ret (c', h', Some e) ->
  yaml_UnmarshalStrict lib contents c h = (c', h', Some e) \/
  (useDefaults = true /\
   exists decoded h0 k cause,
     yaml_UnmarshalStrict lib contents c h = (decoded, h0, None) /\
     BuildType_KanikoBuild (BuildConfig_BuildType (Build decoded)) = Some k /\
     BuildType_KanikoBuild (BuildConfig_BuildType (Build c')) = Some k /\
     kanikoBuildAt h' k = kanikoBuildAt h0 k /\
     PullSecret (kanikoBuildAt h0 k) <> "" /\
     snd (homedir_Expand lib (PullSecret (kanikoBuildAt h0 k))) = Some cause /\
     e = Wrap (Errorf "unable to expand pullSecret %s"
                 [ArgString (PullSecret (kanikoBuildAt h0 k))])
           "applying default values").
Proof.
  unfold Parse.
  destruct (yaml_UnmarshalStrict lib contents c h) as [[decoded h0] [e0|]].
  { intros H. injection H as <- <- <-. now left. }
  destruct useDefaults; [|discriminate].
  destruct (setDefaultValues lib decoded h0) as [[[c1 h1] [e1|]]|reason] eqn:Hrun;
    try discriminate.
  intros H. injection H as <- <- <-. right. split; [reflexivity|].
  destruct (setDefaultValues_heap lib decoded c1 h0 h1 (Some e1) Hrun)
    as (h3 & _ & Hkaniko & _ & _ & Hexpand).
  apply setDefaultValues_run in Hrun. destruct Hrun as (-> & _).
  destruct (defaulted_configuration decoded) as (_ & _ & _ & _ & _ & Hptr & _).
  cbv zeta in Hptr. unfold expandKanikoSecretPath in Hexpand. rewrite Hptr in *.
  destruct (BuildType_KanikoBuild (BuildConfig_BuildType (Build decoded))) as [k|] eqn:Hk;
    [|discriminate].
  unfold kanikoBuildAt in *. rewrite Hkaniko in *.
  destruct (String.eqb_spec (PullSecret (load zeroKanikoBuild k (kanikoBuilds h0))) "")
    as [Hs|Hs]; [discriminate|].
  destruct (homedir_Expand lib (PullSecret (load zeroKanikoBuild k (kanikoBuilds h0))))
    as [absPath [cause|]] eqn:Hcause; [|discriminate].
  injection Hexpand as <- <-. exists decoded, h0, k, cause.
  rewrite Hkaniko, Hcause. now repeat split.
Qed.

(** ** Profiles *)

Lemma profilesByName_app (ps : list Profile) (p : Profile) (name : string) :
  profilesByName (ps ++ [p]) name =
    if String.eqb name (Profile_Name p) then Some p else profilesByName ps name.
Proof. unfold profilesByName. now rewrite fold_left_app. Qed.

(** X23: [profilesByName] finds, under a name, the last profile of the list
    that bears it, and finds nothing exactly under the names no profile
    bears. *)
Theorem profilesByName_last_wins (ps : list Profile) (name : string) :
  profilesByName ps name =
    find (fun p => String.eqb name (Profile_Name p)) (List.rev ps) /\
  (profilesByName ps name = None <-> ~ In name (map Profile_Name ps)).
Proof.
  induction ps as [|p ps [IHfind IHnone]] using rev_ind; [split; [reflexivity|]|].
  - split; [intros _ [] | reflexivity].
  - rewrite profilesByName_app, rev_app_distr. cbn [List.rev app find].
    split; [now rewrite IHfind|].
    rewrite map_app, in_app_iff. cbn [map In].
    destruct (String.eqb_spec name (Profile_Name p)) as [->|Hne].
    + split; [discriminate|]. intros H. destruct H. right. now left.
    + rewrite IHnone. split.
      * intros H [Hin|[Heq|[]]]; [now apply H | now apply Hne].
      * intros H Hin. apply H. now left.
Qed.

Lemma profilesByName_absent (ps : list Profile) (name : string) :
  ~ In name (map Profile_Name ps) -> profilesByName ps name = None.
Proof.
  induction ps as [|p ps IH] using rev_ind; [reflexivity|].
  rewrite profilesByName_app, map_app, in_app_iff. cbn [map In]. intros H.
  destruct (String.eqb_spec name (Profile_Name p)) as [->|Hne].
  - destruct H. right. now left.
  - apply IH. intros Hin. apply H. now left.
Qed.

Lemma applyNamed_app (lib : Library) (byName : string -> option Profile)
      (known rest : list string) (c c1 : SkaffoldConfig) (h h1 : Heap) :
  applyNamed lib byName known c h = (c1, h1, None) ->
  applyNamed lib byName (known ++ rest) c h = applyNamed lib byName rest c1 h1.
Proof.
  revert c h. induction known as [|name known IH]; intros c h H.
  - cbn in H. now injection H as -> ->.
  - rewrite <- app_comm_cons. cbn [applyNamed] in *.
    destruct (byName name) as [profile|]; [|discriminate].
    destruct (applyProfile lib c profile h) as [[c0 h0] [e|]]; [discriminate|]. now apply IH.
Qed.

(** X24: a name that no profile of the configuration bears ends
    [ApplyProfiles] with ["couldn't find profile <name>"]; the profiles
    named before it have been applied by then and stay applied, the names
    after it are not looked at, the profiles are not cleared and the
    defaults are not applied. *)
Theorem ApplyProfiles_unknown_profile
        (lib : Library) (c c1 : SkaffoldConfig) (known rest : list string) (missing : string)
        (h h1 : Heap) :
  ~ In missing (map Profile_Name (Profiles c)) ->
  applyNamed lib (profilesByName (Profiles c)) known c h = (c1, h1, None) ->
  ApplyProfiles lib c (known ++ missing :: rest) h =
    Ret (c1, h1, Some (Errorf "couldn't find profile %s" [ArgString missing])).
Proof.
  intros Hmissing Hknown. unfold ApplyProfiles.
  rewrite (applyNamed_app lib _ known (missing :: rest) c c1 h h1 Hknown).
  cbn [applyNamed]. now rewrite (profilesByName_absent _ _ Hmissing).
Qed.

Lemma applyNamed_found (lib : Library) (byName : string -> option Profile)
      (names : list string) (c c1 : SkaffoldConfig) (h h1 : Heap) :
  applyNamed lib byName names c h = (c1, h1, None) ->
  Forall (fun name => byName name <> None) names.
Proof.
  revert c h. induction names as [|name names IH]; intros c h H; [constructor|].
  cbn [applyNamed] in H. destruct (byName name) as [profile|] eqn:Hfound; [|discriminate].
  destruct (applyProfile lib c profile h) as [[c0 h0] [e|]]; [discriminate|].
  constructor; [congruence | now apply (IH c0 h0)].
Qed.

(** X25: when [ApplyProfiles] returns without an error, every name it was
    given is the name of a profile the configuration had, the configuration
    has no profiles any more, and the defaults have been applied after the
    profiles: there is a build type and a tag policy. *)
Theorem ApplyProfiles_clears_profiles
        (lib : Library) (c c' : SkaffoldConfig) (profiles : list string) (h h' : Heap) :
  ApplyProfiles lib c profiles h = Ret (c', h', None) ->
  Forall (fun name => In name (map Profile_Name (Profiles c))) profiles /\
  Profiles c' = [] /\
  BuildType_isZero (BuildConfig_BuildType (Build c')) = false /\
  TagPolicy_isZero (BuildConfig_TagPolicy (Build c')) = false.
Proof.
  unfold ApplyProfiles.
  destruct (applyNamed lib (profilesByName (Profiles c)) profiles c h) as [[c1 h1] [e|]]
    eqn:Hloop; [discriminate|].
  destruct (setDefaultValues lib (set_Profiles [] c1) h1) as [[[c2 h2] [e|]]|reason] eqn:Hrun;
    try discriminate.
  intros H. injection H as <- <-. split.
  - apply applyNamed_found in Hloop. revert Hloop. apply Forall_impl. intros name Hfound.
    destruct (in_dec string_dec name (map Profile_Name (Profiles c))) as [Hin|Hout];
      [exact Hin|].
    destruct (Hfound (profilesByName_absent _ _ Hout)).
  - apply setDefaultValues_run in Hrun. destruct Hrun as (-> & _).
    destruct (defaulted_configuration (set_Profiles [] c1))
      as (_ & _ & _ & Hprofiles & _ & _ & Hbt & Htp & _).
    cbv zeta in *. now rewrite Hprofiles.
Qed.

End SchemaProperties.
(** * The dependencies of an S2I artifact *)

Section ResolverProperties.

Import s2i.

Local Open Scope list_scope.

Lemma walk_visitFile (fs : FileSystem) (a : v1alpha2.Artifact) (visits : list Visit) :
  forall files,
  exists seen rest,
    visits = seen ++ rest /\
    Forall (fun v => failure fs (v1alpha2.Workspace a) v = None) seen /\
    fst (walk (visitFile fs a) visits files) =
      files ++ flat_map (listed fs (v1alpha2.Workspace a)) seen /\
    match snd (walk (visitFile fs a) visits files) with
    | None => rest = []
    | Some e => exists v later, rest = v :: later /\
                                failure fs (v1alpha2.Workspace a) v = Some e
    end.
Proof.
  induction visits as [|v visits IH]; intros files.
  - exists [], []. cbn. rewrite app_nil_r. now repeat split.
  - cbn [walk].
    destruct (visitFile fs a v files) as [files' [e|]] eqn:Hv; cbn [fst snd].
    + exists [], (v :: visits). cbn [app flat_map]. rewrite app_nil_r.
      split; [reflexivity|]. split; [constructor|].
      unfold visitFile, failure in *.
      destruct (Visit_err v) as [e0|] eqn:Herr.
      { injection Hv as <- <-. split; [reflexivity|]. exists v, visits.
        now rewrite Herr. }
      destruct (Rel fs (v1alpha2.Workspace a) (Visit_path v)) as [relPath [e0|]] eqn:Hrel.
      { injection Hv as <- <-. split; [reflexivity|]. exists v, visits.
        now rewrite Herr, Hrel. }
      destruct (negb (IsDir (Visit_info v))); discriminate.
    + destruct (IH files') as (seen & rest & -> & Hseen & Hfiles & Hlast).
      exists (v :: seen), rest. split; [reflexivity|].
      unfold visitFile, failure, listed in *.
      destruct (Visit_err v) as [e0|] eqn:Herr; [discriminate|].
      destruct (Rel fs (v1alpha2.Workspace a) (Visit_path v)) as [relPath [e0|]] eqn:Hrel;
        [discriminate|].
      split; [constructor; [now rewrite Herr, Hrel | exact Hseen]|].
      split; [|exact Hlast].
      rewrite Hfiles. cbn [flat_map]. rewrite Hrel. cbn [fst].
      destruct (IsDir (Visit_info v)); cbn [negb] in Hv; injection Hv as <-;
        [reflexivity | now rewrite <- app_assoc].
Qed.

(** X26: [GetDependencies] lists the files of the workspace, and no
    directory: the paths, relative to the workspace, of what the walk came
    to before it ended, in the walk's order.  The walk ends at the first
    path that could not be read or made relative; the list gathered until
    then is returned together with that error.  Without an error the
    whole tree has been listed. *)
Theorem GetDependencies_lists_files (fs : FileSystem) (a : v1alpha2.Artifact) :
  exists seen rest,
    tree fs (v1alpha2.Workspace a) = seen ++ rest /\
    Forall (fun v => failure fs (v1alpha2.Workspace a) v = None) seen /\
    fst (GetDependencies fs a) = flat_map (listed fs (v1alpha2.Workspace a)) seen /\
    match snd (GetDependencies fs a) with
    | None => rest = []
    | Some e => exists v later, rest = v :: later /\
                                failure fs (v1alpha2.Workspace a) v = Some e
    end.
Proof.
  unfold GetDependencies, Walk.
  destruct (walk_visitFile fs a (tree fs (v1alpha2.Workspace a)) [])
    as (seen & rest & Htree & Hseen & Hfiles & Hlast).
  exists seen, rest. now repeat split.
Qed.

End ResolverProperties.

(** * The properties at concrete surroundings *)

Lemma Fulfill_overrides_witness :
  exists w',
    Fulfill calm "myapp:abc123" "http://svc/x.tar.gz" (worldWith presetJob) = (Ret None, w') /\
    targetOf (templateOf w') = "myapp:abc123" /\
    pushOf (templateOf w') = true /\
    contextKindOf (templateOf w') = "HTTP" /\
    contextURLOf (templateOf w') = "http://svc/x.tar.gz".
Proof.
  apply (Fulfill_overrides calm "myapp:abc123" "http://svc/x.tar.gz" (worldWith presetJob)).
  right. vm_compute. discriminate.
Defined.

Lemma Fulfill_empty_template_witness :
  exists w',
    Fulfill calm "myapp:abc123" "http://svc/x.tar.gz" dawn = (Ret None, w') /\
    kindOf (templateOf w') = "BuildJob" /\
    nameOf (templateOf w') = "skaffold-0-7".
Proof.
  destruct (Fulfill_empty_template calm "myapp:abc123" "http://svc/x.tar.gz" dawn)
    as (w' & c & Hrun & Hc & _ & Hkind & _ & _ & _ & _ & _ & Hname & _);
    try reflexivity.
  - vm_compute. discriminate.
  - exists w'. split; [exact Hrun|]. split; [exact Hkind|].
    rewrite Hname. vm_compute in Hc. injection Hc as <-. reflexivity.
Defined.

Lemma RunCBIBuild_deletes_once_witness :
  deleteInvocations (trace (snd (RunCBIBuild calm app1 dawn))) = 1%nat /\
  deleteInvocations (trace (snd (RunCBIBuild (uploadBreaks 0) app1 dawn))) = 1%nat /\
  deleteInvocations (trace (snd (CBIBuilder_Build (uploadBreaks 0) undeclared [app1] dawn))) =
    1%nat.
Proof.
  split; [|split].
  - destruct (RunCBIBuild_deletes_once calm app1 dawn) as [Hmade _].
    destruct Hmade as (performed & left & _ & _ & _ & Hcount);
      [reflexivity | vm_compute; discriminate | exact Hcount].
  - destruct (RunCBIBuild_deletes_once (uploadBreaks 0) app1 dawn) as [Hmade _].
    destruct Hmade as (performed & left & _ & _ & _ & Hcount);
      [reflexivity | vm_compute; discriminate | exact Hcount].
  - destruct (RunCBIBuild_deletes_once (uploadBreaks 0) app1 dawn) as (_ & _ & Hbuild).
    apply (Hbuild undeclared (mkTemplate emptyJob));
      [reflexivity | reflexivity | reflexivity | vm_compute; discriminate].
Defined.

Lemma Build_aborts_on_first_failure_witness :
  exists w2,
    CBIBuilder_Build (uploadBreaks 29) undeclared ([app1] ++ app2 :: [app3]) dawn =
      (Ret (None,
            Some (Wrapf
                    (Wrapf (External "exit status 1") "output=%q"
                       [ArgString "error: unable to upgrade connection"])
                    "running cbi build for %s" [ArgString "web"])),
       w2).
Proof.
  eexists.
  eapply (Build_aborts_on_first_failure (uploadBreaks 29) undeclared [app1] [app3] app2 dawn).
  - vm_compute. reflexivity.
  - eapply runFails. vm_compute. reflexivity.
Defined.

Lemma waitJobCompletion_resolves_witness :
  fst (waitJobCompletion (slow finished) "job-1" dawn) = Ret None /\
  fst (waitJobCompletion (slow failedTwice) "job-1" dawn) =
    Ret (Some (Errorf "job failed: %+v" [ArgJobStatus (Job_Status failedTwice)])) /\
  fst (waitJobCompletion stalled "job-1" dawn) = Ret (Some ErrWaitTimeout).
Proof.
  split; [|split].
  - pose proof (waitJobCompletion_resolves (slow finished) "job-1" dawn) as H.
    cbv zeta in H. destruct H as ((_ & Hnil) & _). apply Hnil.
    exists 3%nat. split; [vm_compute; lia|]. split.
    + intros j Hj. destruct j as [|[|[|j]]]; [split; reflexivity .. | lia].
    + split; [reflexivity|]. split; [intro H; discriminate H | reflexivity].
  - pose proof (waitJobCompletion_resolves (slow failedTwice) "job-1" dawn) as H.
    cbv zeta in H. destruct H as (_ & Hfailed & _). apply (Hfailed 3%nat).
    + vm_compute; lia.
    + intros j Hj. destruct j as [|[|[|j]]]; [split; reflexivity .. | lia].
    + split; [reflexivity|]. split; [intro H; discriminate H | vm_compute; discriminate].
  - pose proof (waitJobCompletion_resolves stalled "job-1" dawn) as H.
    cbv zeta in H. destruct H as (_ & _ & Hexpired & _). apply Hexpired.
    intros j _. split; reflexivity.
Defined.

Lemma runCBIBuildV1Alpha1_readiness_witness :
  fst (PollImmediate (slow finished) (Millisecond * 500) (Minute * 3)
         (readyCondition (slow finished)) (submitted (slow finished) emptyJob dawn)) = Ret None /\
  fst (runCBIBuildV1Alpha1 unreachable "default" emptyJob dawn) =
    Ret (Some (Errorf "not found: %s" [ArgString ""])) /\
  fst (runCBIBuildV1Alpha1 stalled "default" emptyJob dawn) = Ret (Some ErrWaitTimeout).
Proof.
  split; [|split].
  - pose proof (runCBIBuildV1Alpha1_readiness (slow finished) "default" emptyJob dawn) as H.
    cbv zeta in H. destruct (H eq_refl) as (Haccepted & _).
    destruct (Haccepted 2%nat) as (Hnil & _); [vm_compute; lia | | | exact Hnil].
    + intros j Hj. destruct j as [|[|j]]; [split; reflexivity .. | lia].
    + split; [reflexivity | intro H0; discriminate H0].
  - pose proof (runCBIBuildV1Alpha1_readiness unreachable "default" emptyJob dawn) as H.
    cbv zeta in H. destruct (H eq_refl) as (_ & Herror & _).
    destruct (Herror 2%nat (External "connection refused")) as (_ & _ & Hrun);
      [vm_compute; lia | | reflexivity | rewrite Hrun; reflexivity].
    intros j Hj. destruct j as [|[|j]]; [split; reflexivity .. | lia].
  - pose proof (runCBIBuildV1Alpha1_readiness stalled "default" emptyJob dawn) as H.
    cbv zeta in H. destruct (H eq_refl) as (_ & _ & Hexpired & _).
    destruct Hexpired as (_ & _ & Hrun); [|rewrite Hrun; reflexivity].
    intros j _. split; reflexivity.
Defined.

Lemma GetBuildJobTemplate_version_check_witness :
  GetBuildJobTemplate calm undeclared = inl (mkTemplate emptyJob) /\
  GetBuildJobTemplate calm declaredV1Alpha1 = inl (mkTemplate emptyJob) /\
  GetBuildJobTemplate calm declaredV2 =
    inr (Errorf "expected %q, got %q"
           [ArgString "cbi.containerbuilding.github.io/v1alpha1";
            ArgString "cbi.containerbuilding.github.io/v2"]) /\
  GetBuildJobTemplate calm declaredNumber =
    inr (Errorf "got non-string apiVersion: %v" [ArgString ""]).
Proof.
  split; [|split; [|split]].
  - destruct (GetBuildJobTemplate_version_check calm undeclared) as (Habsent & _).
    destruct Habsent as (_ & _ & Hdecoded).
    + intros item [<-|[]]. discriminate.
    + apply (Hdecoded "{}" emptyJob); reflexivity.
  - destruct (GetBuildJobTemplate_version_check calm declaredV1Alpha1) as (_ & _ & Hsame & _).
    rewrite Hsame; reflexivity.
  - destruct (GetBuildJobTemplate_version_check calm declaredV2) as (_ & _ & _ & Hother & _).
    destruct (Hother "cbi.containerbuilding.github.io/v2") as (_ & Hrejected);
      [reflexivity | discriminate | apply Hrejected; reflexivity].
  - destruct (GetBuildJobTemplate_version_check calm declaredNumber) as (_ & _ & _ & _ & Hvalue).
    destruct (Hvalue (VInt 1)) as (_ & Hrejected);
      [reflexivity | discriminate | apply Hrejected; reflexivity].
Defined.

(** * Where the code departs from the specification *)

(** [Delete] does not go on to the pod when the deletion of the service
    returns an error: it returns that error, and the pod stays. *)
Lemma Delete_leaves_pod_after_service_error :
  fst (Delete teardownBreaks staged) = Ret (Some (External "services not found")) /\
  trace (snd (Delete teardownBreaks staged)) =
    [EvServiceDelete "tempnginx-1-7f" (Some (External "services not found"))] /\
  (forall name err, ~ In (EvPodDelete name err) (trace (snd (Delete teardownBreaks staged)))).
Proof.
  split; [reflexivity|]. split; [reflexivity|].
  intros name err [H|[]]. discriminate H.
Qed.

(** The error [Delete] returns during teardown does not reach the caller
    of [RunCBIBuild]: the build whose teardown failed returns exactly what
    the build whose teardown succeeded returns. *)
Lemma teardown_error_not_surfaced :
  last (trace (snd (RunCBIBuild teardownBreaks app1 dawn))) EvKill =
    EvServiceDelete "tempnginx-1-7f" (Some (External "services not found")) /\
  last (trace (snd (RunCBIBuild calm app1 dawn))) EvKill =
    EvPodDelete "tempnginx-1-7f" None /\
  fst (RunCBIBuild teardownBreaks app1 dawn) = Ret ("myapp:7f3a9c", None) /\
  fst (RunCBIBuild calm app1 dawn) = Ret ("myapp:7f3a9c", None).
Proof. repeat split; vm_compute; reflexivity. Qed.

(** The name [Fulfill] assigns is not unique by itself: two empty templates
    fulfilled for two images, at two moments at which the clock shows the
    same reading and the random identifiers, though not the same, start
    with the same byte, carry the same name. *)
Lemma Fulfill_names_collide :
  fst (Fulfill coarse "myapp:abc123" "http://svc/x.tar.gz" dawn) = Ret None /\
  fst (Fulfill coarse "web:def456" "http://svc/y.tar.gz" afterwards) = Ret None /\
  moment dawn <> moment afterwards /\
  o_randomID coarse (S (moment dawn)) <> o_randomID coarse (S (moment afterwards)) /\
  targetOf (templateOf (snd (Fulfill coarse "myapp:abc123" "http://svc/x.tar.gz" dawn))) <>
    targetOf (templateOf (snd (Fulfill coarse "web:def456" "http://svc/y.tar.gz" afterwards))) /\
  nameOf (templateOf (snd (Fulfill coarse "myapp:abc123" "http://svc/x.tar.gz" dawn))) =
    "skaffold-1528000000000000000-7" /\
  nameOf (templateOf (snd (Fulfill coarse "web:def456" "http://svc/y.tar.gz" afterwards))) =
    "skaffold-1528000000000000000-7".
Proof.
  split; [vm_compute; reflexivity|]. split; [vm_compute; reflexivity|].
  split; [discriminate|]. split; [vm_compute; discriminate|].
  split; [vm_compute; discriminate|].
  split; vm_compute; reflexivity.
Qed.

(** * The further properties at concrete surroundings *)

Local Open Scope list_scope.

Lemma NewTempNginx_names_witness :
  fst (NewTempNginx calm "kube-system" dawn) = Ret tt /\
  Pod_Name (pod (nginx (snd (NewTempNginx calm "kube-system" dawn)))) = "tempnginx-0-7f" /\
  ns (nginx (snd (NewTempNginx calm "kube-system" dawn))) = "".
Proof.
  pose proof (NewTempNginx_names calm "kube-system" dawn) as H. cbv zeta in H.
  destruct H as [Hnamed _].
  destruct (Hnamed "7f" eq_refl) as (Hret & Hpod & _ & Hns & _).
  split; [exact Hret|]. split; [rewrite Hpod; reflexivity | exact Hns].
Defined.

Lemma Create_stops_at_first_error_witness :
  fst (Create calm dawn) = Ret None /\
  trace (snd (Create calm dawn)) =
    [EvPodCreate (mkPod "") (mkPod "tempnginx-1-7f", None);
     EvServiceCreate (mkService "") (mkService "tempnginx-1-7f", None);
     EvWaitForPodReady "tempnginx-1-7f" None] /\
  nginx (snd (Create calm dawn)) =
    mkTempNginx "" (mkPod "tempnginx-1-7f") (mkService "tempnginx-1-7f").
Proof.
  pose proof (Create_stops_at_first_error calm dawn) as H. cbv zeta in H.
  destruct H as (_ & _ & _ & Hall & _).
  destruct (Hall eq_refl eq_refl) as (Hret & Htrace & _ & Hhandle).
  split; [exact Hret|]. split; [exact Htrace | exact Hhandle].
Defined.

Lemma Copy_two_commands_witness :
  fst (Copy (uploadBreaks 0) "/usr/share/nginx/html/x.tar.gz" "/tmp/x" staged) =
    Ret (Some (Wrapf (External "exit status 1") "output=%q"
                 [ArgString "error: unable to upgrade connection"])) /\
  trace (snd (Copy (uploadBreaks 0) "/usr/share/nginx/html/x.tar.gz" "/tmp/x" staged)) =
    [EvRun ["kubectl"; "cp"; "/tmp/x"; "/tempnginx-1-7f:/usr/share/nginx/html/x.tar.gz"]
       ("error: unable to upgrade connection", Some (External "exit status 1"))] /\
  trace (snd (Copy calm "/usr/share/nginx/html/x.tar.gz" "/tmp/x" staged)) =
    [EvRun ["kubectl"; "cp"; "/tmp/x"; "/tempnginx-1-7f:/usr/share/nginx/html/x.tar.gz"]
       ("", None);
     EvRun ["kubectl"; "--namespace"; ""; "exec"; "tempnginx-1-7f"; "chmod"; "0644";
            "/usr/share/nginx/html/x.tar.gz"] ("", None)].
Proof.
  pose proof (Copy_two_commands (uploadBreaks 0) "/usr/share/nginx/html/x.tar.gz" "/tmp/x"
                staged) as H.
  cbv zeta in H. destruct H as [Hfirst _].
  destruct (Hfirst (External "exit status 1") eq_refl) as (Hret & Htrace & _).
  split; [exact Hret|]. split; [exact Htrace|].
  pose proof (Copy_two_commands calm "/usr/share/nginx/html/x.tar.gz" "/tmp/x" staged) as H.
  cbv zeta in H. destruct H as (_ & _ & Hboth & _). exact (Hboth eq_refl).
Defined.

Lemma Copy_without_namespace_witness :
  ns (nginx staged) = "" /\
  exists rest,
    trace (snd (Copy calm "/usr/share/nginx/html/x.tar.gz" "/tmp/x" staged)) =
      trace staged ++
      EvRun ["kubectl"; "cp"; "/tmp/x";
             "/tempnginx-1-7f:/usr/share/nginx/html/x.tar.gz"] ("", None) :: rest.
Proof.
  split; [reflexivity|].
  destruct (Copy_without_namespace calm "/usr/share/nginx/html/x.tar.gz" "/tmp/x" staged
              eq_refl) as (_ & rest & Htrace & _).
  exists rest. exact Htrace.
Defined.

Lemma RunCBIBuild_leaves_pod_witness :
  (forall n, o_serviceDelete teardownBreaks n <> None) /\
  filter isPodDelete (trace (snd (RunCBIBuild teardownBreaks app1 dawn))) = [].
Proof.
  assert (H : forall n, o_serviceDelete teardownBreaks n <> None)
    by (intros n; discriminate).
  split; [exact H|].
  exact (RunCBIBuild_leaves_pod teardownBreaks app1 dawn H).
Defined.

Lemma runCBIBuildV1Alpha1_releases_witness :
  exists earlier,
    trace (snd (runCBIBuildV1Alpha1 calm "default" emptyJob dawn)) =
      earlier ++ [EvBuildJobDelete "skaffold-11-7"].
Proof.
  pose proof (runCBIBuildV1Alpha1_releases calm "default" emptyJob dawn) as H.
  cbv zeta in H. destruct H as (performed & Htrace & _ & _ & _ & _ & Hlast & _).
  destruct (Hlast eq_refl) as (earlier & ->).
  exists earlier. exact Htrace.
Defined.

Lemma waitJobCompletion_only_fetches_witness :
  exists fetches,
    (1 <= fetches <= 12)%nat /\
    List.length (trace (snd (waitJobCompletion (slow finished) "job-1" dawn))) = fetches.
Proof.
  pose proof (waitJobCompletion_only_fetches (slow finished) "job-1" dawn) as H.
  cbv zeta in H. destruct H as (fetches & Hbounds & _ & Htrace & _).
  exists fetches. split; [exact Hbounds|].
  rewrite Htrace, length_app, length_map, length_seq. reflexivity.
Defined.

Lemma waitJobCompletion_fetch_error_witness :
  fst (waitJobCompletion unreachable "job-1" dawn) =
    Ret (Some (Errorf "not found: %s" [ArgString "job-1"])) /\
  moment (snd (waitJobCompletion unreachable "job-1" dawn)) = 4%nat.
Proof.
  apply (waitJobCompletion_fetch_error unreachable "job-1" dawn 3
           (External "connection refused")).
  - vm_compute. lia.
  - intros j Hj. destruct j as [|[|[|j]]]; [split; reflexivity .. | lia].
  - reflexivity.
Defined.


Lemma RunCBIBuild_returns_what_it_submits_witness :
  fst (RunCBIBuild calm app1 dawn) = Ret ("myapp:7f3a9c", None) /\
  exists submittedJob created,
    In (EvBuildJobCreate submittedJob (created, None))
       (trace (snd (RunCBIBuild calm app1 dawn))) /\
    targetOf submittedJob = "myapp:7f3a9c" /\
    pushOf submittedJob = true /\
    template (snd (RunCBIBuild calm app1 dawn)) = mkTemplate submittedJob.
Proof.
  assert (H : fst (RunCBIBuild calm app1 dawn) = Ret ("myapp:7f3a9c", None))
    by (vm_compute; reflexivity).
  split; [exact H|].
  destruct (RunCBIBuild_returns_what_it_submits calm app1 dawn "myapp:7f3a9c" H)
    as (tag & submittedJob & created & before & later & _ & Htrace & _ & _ & _ & Htarget &
        Hpush & _ & _ & _ & Htemplate).
  exists submittedJob, created.
  split; [|split; [exact Htarget | split; [exact Hpush | exact Htemplate]]].
  rewrite Htrace. apply in_or_app. right. apply in_or_app. right. now left.
Defined.

Lemma RunCBIBuild_serves_what_it_uploads_witness :
  fst (RunCBIBuild calm app1 dawn) = Ret ("myapp:7f3a9c", None) /\
  exists (file digest : string) (p : Pod) (s : Service)
         (submittedJob : @BuildJob unit unit unit) (teardown : list (@Event unit unit unit)),
    In (EvTempFile "" "skaffold-cbi-temp" (file, None))
       (trace (snd (RunCBIBuild calm app1 dawn))) /\
    contextURLOf submittedJob =
      ("http://" ++ Service_Name s ++ "/" ++
       Base ("/usr/share/nginx/html/sha256-" ++ digest ++ ".tar.gz"))%string /\
    ((exists e, teardown = [EvServiceDelete (Service_Name s) (Some e)]) \/
     (exists r, teardown = [EvServiceDelete (Service_Name s) None;
                            EvPodDelete (Pod_Name p) r])).
Proof.
  assert (H : fst (RunCBIBuild calm app1 dawn) = Ret ("myapp:7f3a9c", None))
    by (vm_compute; reflexivity).
  split; [exact H|].
  destruct (RunCBIBuild_serves_what_it_uploads calm app1 dawn "myapp:7f3a9c" H)
    as (file & digest & output & p0 & p & s0 & s & submittedJob & created & opening &
        between & later & teardown & Hsteps).
  cbv zeta in Hsteps.
  destruct Hsteps as (Htrace & Hfile & _ & _ & _ & _ & Hurl & Hteardown).
  exists file, digest, p, s, submittedJob, teardown.
  split; [|split; [exact Hurl | exact Hteardown]].
  rewrite Htrace. apply in_or_app. right. apply in_or_app. left. exact Hfile.
Defined.

Lemma RunCBIBuild_error_has_no_reference_witness :
  exists ref e,
    fst (RunCBIBuild (uploadBreaks 0) app1 dawn) = Ret (ref, Some e) /\ ref = "".
Proof.
  assert (H : fst (RunCBIBuild (uploadBreaks 0) app1 dawn) =
              Ret ("", Some (Wrapf (External "exit status 1") "output=%q"
                               [ArgString "error: unable to upgrade connection"])))
    by (vm_compute; reflexivity).
  eexists _, _. split; [exact H|].
  exact (RunCBIBuild_error_has_no_reference (uploadBreaks 0) app1 dawn _ _ H).
Defined.

Lemma RunCBIBuild_removes_its_file_witness :
  exists performed,
    trace (snd (RunCBIBuild (uploadBreaks 0) app1 dawn)) = trace dawn ++ performed /\
    occurrences isRemove performed = occurrences isTempFile performed.
Proof.
  destruct (RunCBIBuild_removes_its_file (uploadBreaks 0) app1 dawn)
    as (performed & Htrace & Hsame & _).
  exists performed. split; [exact Htrace | exact Hsame].
Defined.

Lemma Build_result_follows_artifacts_witness :
  fst (CBIBuilder_Build calm undeclared [app1; app2] dawn) =
    Ret (Some (mkBuildResult [mkBuild "myapp" "myapp:feed" app1;
                              mkBuild "web" "myapp:feed" app2]), None) /\
  map Build_Artifact [mkBuild "myapp" "myapp:feed" app1; mkBuild "web" "myapp:feed" app2] =
    [app1; app2].
Proof.
  assert (H : fst (CBIBuilder_Build calm undeclared [app1; app2] dawn) =
              Ret (Some (mkBuildResult [mkBuild "myapp" "myapp:feed" app1;
                                        mkBuild "web" "myapp:feed" app2]), None))
    by (vm_compute; reflexivity).
  split; [exact H|].
  exact (proj1 (Build_result_follows_artifacts calm undeclared [app1; app2] dawn _ H)).
Defined.

Lemma Build_result_or_error_witness :
  exists r err,
    fst (CBIBuilder_Build (uploadBreaks 0) undeclared [app1; app2] dawn) = Ret (r, err) /\
    ((r = None /\ err <> None) \/ (r <> None /\ err = None)).
Proof.
  destruct (fst (CBIBuilder_Build (uploadBreaks 0) undeclared [app1; app2] dawn))
    as [[r err]|reason] eqn:H; [|vm_compute in H; discriminate H].
  exists r, err. split; [reflexivity|].
  exact (Build_result_or_error (uploadBreaks 0) undeclared [app1; app2] dawn r err H).
Defined.

Lemma Build_submits_under_one_name_witness :
  exists name performed,
    name <> "" /\
    trace (snd (CBIBuilder_Build calm undeclared [app1; app2] dawn)) = trace dawn ++ performed /\
    map nameOf (submissions performed) = [name; name].
Proof.
  assert (H : fst (CBIBuilder_Build calm undeclared [app1; app2] dawn) =
              Ret (Some (mkBuildResult [mkBuild "myapp" "myapp:feed" app1;
                                        mkBuild "web" "myapp:feed" app2]), None))
    by (vm_compute; reflexivity).
  destruct (Build_submits_under_one_name calm undeclared [app1; app2] dawn _ H)
    as (name & performed & Hname & Htrace & Hnames & _).
  exists name, performed. split; [exact Hname|]. split; [exact Htrace | exact Hnames].
Defined.

Lemma GetClientset_stages_witness :
  fst (GetClientset calm dawn) = Ret None.
Proof.
  pose proof (GetClientset_stages calm dawn) as H. cbv zeta in H.
  destruct H as [[_ Hnil] _]. apply Hnil. split; reflexivity.
Defined.

(** ** The schema's defaults at a concrete configuration *)

Lemma expandHome_stable (p q : string) :
  expandHome p = (q, None) -> expandHome q = (q, None).
Proof.
  destruct p as [|c rest]; cbn [expandHome].
  - intros H. injection H as <-. reflexivity.
  - destruct (Ascii.eqb c "~") eqn:Hc; intros H; injection H as <-.
    + reflexivity.
    + cbn [expandHome]. now rewrite Hc.
Qed.

Lemma setDefaultValues_fills_in_witness :
  exists c' h',
    v1alpha2.setDefaultValues (library expandHome) written memory = Ret (c', h', None) /\
    v1alpha2.BuildConfig_BuildType (v1alpha2.Build c') =
      v1alpha2.mkBuildType (Some (v1alpha2.mkLocalBuild None)) None None None /\
    v1alpha2.artifactAt h' 0 =
      v1alpha2.mkArtifact "myapp" "." (v1alpha2.mkArtifactType (Some 1%nat) None None) /\
    v1alpha2.dockerArtifactAt h' 1 = v1alpha2.mkDockerArtifact "Dockerfile" [] /\
    Forall (defaulted h') (v1alpha2.Artifacts (v1alpha2.Build c')).
Proof.
  do 2 eexists. split; [vm_compute; reflexivity|].
  assert (Hdefault : v1alpha2.DefaultDockerfilePath (library expandHome) <> "")
    by discriminate.
  destruct (setDefaultValues_fills_in (library expandHome) written _ memory _ None Hdefault
              eq_refl) as (_ & _ & Hall & Hlocal & _).
  split; [exact (Hlocal eq_refl)|]. split; [reflexivity|]. split; [reflexivity | exact Hall].
Defined.

(** The profile [onCloud] and the build of [written] share the artifact at
    the address 0: the profiles of the configuration are the same pointers
    after the defaults, and the artifact they point at has the workspace
    and the Docker artifact the defaults gave it. *)
Lemma setDefaultValues_keeps_what_is_set_witness :
  exists c' h',
    v1alpha2.setDefaultValues (library expandHome) written memory = Ret (c', h', None) /\
    v1alpha2.Profiles c' = [onCloud; onCluster; onCloudAgain] /\
    v1alpha2.Artifacts (v1alpha2.Profile_Build onCloud) = [Some 0%nat] /\
    v1alpha2.artifactAt memory 0 = bare /\
    v1alpha2.artifactAt h' 0 =
      v1alpha2.mkArtifact "myapp" "." (v1alpha2.mkArtifactType (Some 1%nat) None None) /\
    keepsArtifacts memory h' /\
    (forall a, ~ In (Some a) [Some 0%nat; Some 1%nat; Some 2%nat] ->
               v1alpha2.artifactAt h' a = v1alpha2.artifactAt memory a) /\
    keepsDockerArtifacts (library expandHome) memory h' /\
    keepsKanikoBuilds written memory h'.
Proof.
  do 2 eexists. split; [vm_compute; reflexivity|].
  destruct (setDefaultValues_keeps_what_is_set (library expandHome) written _ memory _ None
              eq_refl)
    as (_ & _ & _ & Hprofiles & _ & Hartifacts & Hothers & Hdocker & Hkaniko & _).
  split; [exact Hprofiles|]. do 3 (split; [reflexivity|]).
  split; [exact Hartifacts|]. split; [exact Hothers|]. split; [exact Hdocker | exact Hkaniko].
Defined.

Lemma setDefaultValues_nil_artifact_witness :
  v1alpha2.setDefaultValues (library expandHome) holed memory =
    Panic "invalid memory address or nil pointer dereference".
Proof.
  destruct (setDefaultValues_nil_artifact (library expandHome) holed memory) as [[Hpanic _] _].
  apply Hpanic. right. now left.
Defined.

Lemma setDefaultValues_idempotent_witness :
  exists c' h',
    v1alpha2.setDefaultValues (library expandHome) onKaniko memory = Ret (c', h', None) /\
    v1alpha2.kanikoBuildAt h' 0 = v1alpha2.mkKanikoBuild "bucket" "/home/dev/secret.json" /\
    v1alpha2.setDefaultValues (library expandHome) c' h' = Ret (c', h', None).
Proof.
  do 2 eexists. split; [vm_compute; reflexivity|]. split; [reflexivity|].
  apply (setDefaultValues_idempotent (library expandHome) onKaniko _ memory).
  - exact expandHome_stable.
  - vm_compute. reflexivity.
Defined.

Lemma Parse_errors_witness :
  exists c' h',
    v1alpha2.Parse (library expandNowhere) written "build: {}" true memory =
      Ret (c', h',
           Some (Wrap (Errorf "unable to expand pullSecret %s" [ArgString "~/secret.json"])
                   "applying default values")) /\
    v1alpha2.kanikoBuildAt h' 0 = v1alpha2.mkKanikoBuild "bucket" "~/secret.json" /\
    (v1alpha2.yaml_UnmarshalStrict (library expandNowhere) "build: {}" written memory =
       (c', h',
        Some (Wrap (Errorf "unable to expand pullSecret %s" [ArgString "~/secret.json"])
                "applying default values")) \/
     exists decoded h0 k cause,
       v1alpha2.yaml_UnmarshalStrict (library expandNowhere) "build: {}" written memory =
         (decoded, h0, None) /\
       v1alpha2.BuildType_KanikoBuild
         (v1alpha2.BuildConfig_BuildType (v1alpha2.Build c')) = Some k /\
       v1alpha2.kanikoBuildAt h' k = v1alpha2.kanikoBuildAt h0 k /\
       snd (v1alpha2.homedir_Expand (library expandNowhere)
              (v1alpha2.PullSecret (v1alpha2.kanikoBuildAt h0 k))) = Some cause).
Proof.
  do 2 eexists. split; [vm_compute; reflexivity|]. split; [reflexivity|].
  destruct (Parse_errors (library expandNowhere) written _ "build: {}" true memory _ _ eq_refl)
    as [Hdecoder|(_ & decoded & h0 & k & cause & Hd & _ & Hk & Hsame & _ & Hcause & _)].
  - left. exact Hdecoder.
  - right. exists decoded, h0, k, cause. split; [exact Hd|]. split; [exact Hk|].
    split; [exact Hsame | exact Hcause].
Defined.

Lemma profilesByName_last_wins_witness :
  v1alpha2.profilesByName [onCloud; onCluster; onCloudAgain] "cloud" = Some onCloudAgain /\
  v1alpha2.profilesByName [onCloud; onCluster; onCloudAgain] "local" = None.
Proof.
  split.
  - rewrite (proj1 (profilesByName_last_wins [onCloud; onCluster; onCloudAgain] "cloud")).
    reflexivity.
  - apply (proj2 (profilesByName_last_wins [onCloud; onCluster; onCloudAgain] "local")).
    intros [H|[H|[H|[]]]]; discriminate H.
Defined.

Lemma ApplyProfiles_unknown_profile_witness :
  exists c1,
    v1alpha2.ApplyProfiles (library expandHome) written (["cloud"] ++ "local" :: ["cluster"])
      memory =
      Ret (c1, memory, Some (Errorf "couldn't find profile %s" [ArgString "local"])) /\
    v1alpha2.Profiles c1 = [onCloud; onCluster; onCloudAgain] /\
    v1alpha2.BuildType_GoogleCloudBuild
      (v1alpha2.BuildConfig_BuildType (v1alpha2.Build c1)) =
      Some (v1alpha2.mkGoogleCloudBuild "proj-2").
Proof.
  eexists. split.
  - apply (ApplyProfiles_unknown_profile (library expandHome) written _ ["cloud"] ["cluster"]
             "local" memory memory).
    + intros [H|[H|[H|[]]]]; discriminate H.
    + vm_compute. reflexivity.
  - split; reflexivity.
Defined.

Lemma ApplyProfiles_clears_profiles_witness :
  exists c' h',
    v1alpha2.ApplyProfiles (library expandHome) written ["cluster"; "cloud"] memory =
      Ret (c', h', None) /\
    v1alpha2.Profiles c' = [] /\
    Forall (fun name => In name ["cloud"; "cluster"; "cloud"]) ["cluster"; "cloud"].
Proof.
  do 2 eexists. split; [vm_compute; reflexivity|].
  destruct (ApplyProfiles_clears_profiles (library expandHome) written _ ["cluster"; "cloud"]
              memory _ eq_refl) as (Hfound & Hcleared & _).
  split; [exact Hcleared | exact Hfound].
Defined.
Lemma GetDependencies_lists_files_witness :
  s2i.GetDependencies disk rubyApp =
    (["Dockerfile"; "src/main.rb"], Some (External "permission denied")) /\
  exists seen rest,
    s2i.tree disk "app" = seen ++ rest /\
    fst (s2i.GetDependencies disk rubyApp) = flat_map (listed disk "app") seen.
Proof.
  split; [reflexivity|].
  destruct (GetDependencies_lists_files disk rubyApp) as (seen & rest & Htree & _ & Hfiles & _).
  exists seen, rest. split; [exact Htree | exact Hfiles].
Defined.
